(** * nmcli property marshalling: a shallow embedding of
      clients/common/nm-meta-setting-desc.c

    The file has two parts.  Part I embeds the C functions: the text
    helpers they call, the structured-value parsers ([_parse_ip_address],
    [_parse_ip_route], [_parse_team_link_watcher], [dcb_parse_uint_array]),
    the GObject property store they read and write, the setters, the
    removers and the getters.  Part II states and proves the properties.

    Conventions.  A [const char *] that may be [NULL] is an [option string];
    a [GError **] out-parameter together with the [gboolean]/pointer result
    is a sum or a dedicated result type; C integers are [Z] with the range
    checks of the source written out; [_( )] (gettext) is the untranslated
    catalogue, so a message is its msgid. *)

From Stdlib Require Import ZArith Ascii String List Lia Bool.
From Stdlib Require Import DecimalString DecimalZ DecimalPos DecimalFacts.
From stdpp Require Import base option list strings gmap.

Open Scope string_scope.
Open Scope Z_scope.

(* ================================================================= *)
(** * Part I: the embedding *)
(* ================================================================= *)

(** ** Errors *)

(** The error domain of a [GError]: [g_set_error (error, 1, 0, ...)] uses
    the raw quark 1, the other call sites use [NM_UTILS_ERROR]. *)
Inductive GQuark : Type :=
| QuarkRaw (q : Z)
| NM_UTILS_ERROR
| NM_CONNECTION_ERROR.

Inductive GErrorCode : Type :=
| CodeRaw (c : Z)
| NM_UTILS_ERROR_INVALID_ARGUMENT
| NM_CONNECTION_ERROR_FAILED.

Record GError : Type := mkGError {
  domain : GQuark;
  code : GErrorCode;
  message : string;
}.

#[global] Instance GQuark_eq_dec : EqDecision GQuark.
Proof. solve_decision. Defined.
#[global] Instance GErrorCode_eq_dec : EqDecision GErrorCode.
Proof. solve_decision. Defined.
#[global] Instance GError_eq_dec : EqDecision GError.
Proof. solve_decision. Defined.

(** [g_set_error (error, 1, 0, fmt, ...)] *)
Definition g_set_error_1_0 (msg : string) : GError :=
  mkGError (QuarkRaw 1) (CodeRaw 0) msg.

(** [g_set_error (error, NM_UTILS_ERROR, NM_UTILS_ERROR_INVALID_ARGUMENT, fmt, ...)] *)
Definition g_set_error_invalid_argument (msg : string) : GError :=
  mkGError NM_UTILS_ERROR NM_UTILS_ERROR_INVALID_ARGUMENT msg.

(** [g_prefix_error (error, fmt, ...)] *)
Definition g_prefix_error (pre : string) (e : GError) : GError :=
  mkGError (domain e) (code e) (pre +:+ message e).

(** [_(msgid)]: no catalogue is loaded. *)
Definition gettext (msgid : string) : string := msgid.

(** ** Characters and text (GLib, libc and shared/nm-utils helpers) *)

(** [strchr (set, c) != NULL] for a non-NUL [c]. *)
Fixpoint str_mem (c : ascii) (set : string) : bool :=
  match set with
  | EmptyString => false
  | String d set' => if Ascii.eqb c d then true else str_mem c set'
  end.

(** [g_ascii_isspace]: space, [\t], [\n], [\f], [\r] (not [\v]). *)
Definition g_ascii_isspace (c : ascii) : bool :=
  match N_of_ascii c with
  | 9%N | 10%N | 12%N | 13%N | 32%N => true
  | _ => false
  end.

(** The [ISSPACE] of GLib's [g_parse_long_long]: as above, and [\v]. *)
Definition ISSPACE (c : ascii) : bool :=
  match N_of_ascii c with
  | 9%N | 10%N | 11%N | 12%N | 13%N | 32%N => true
  | _ => false
  end.

Fixpoint skip_while (p : ascii -> bool) (s : string) : string :=
  match s with
  | String c s' => if p c then skip_while p s' else s
  | EmptyString => EmptyString
  end.

(** [g_strchug]: drop leading white space. *)
Definition g_strchug (s : string) : string := skip_while g_ascii_isspace s.

(** [g_strchomp]: drop trailing white space. *)
Fixpoint g_strchomp (s : string) : string :=
  match s with
  | EmptyString => EmptyString
  | String c s' =>
      match g_strchomp s' with
      | EmptyString => if g_ascii_isspace c then EmptyString else String c EmptyString
      | r => String c r
      end
  end.

(** [#define g_strstrip(string) g_strchomp (g_strchug (string))] *)
Definition g_strstrip (s : string) : string := g_strchomp (g_strchug s).

(** Modelled from the spec: [nm_strstrip_avoid_copy] of shared/nm-utils
    (not part of this file), "strip surrounding whitespace"; it differs
    from [g_strstrip] only in when it allocates. *)
Definition nm_strstrip_avoid_copy (s : string) : string := g_strstrip s.

(** [p = strchr (s, c); if (p) *p++ = '\0';]: the text before the first
    [c] and the text after it, or [None] when [c] does not occur. *)
Fixpoint strchr_cut (c : ascii) (s : string) : option (string * string) :=
  match s with
  | EmptyString => None
  | String d s' =>
      if Ascii.eqb d c then Some (EmptyString, s')
      else match strchr_cut c s' with
           | Some (before, after) => Some (String d before, after)
           | None => None
           end
  end.

(** The fields of [s] between the characters of [delims]: the first field
    and the list of the following ones (empty fields included). *)
Fixpoint split_fields (delims : string) (s : string) : string * list string :=
  match s with
  | EmptyString => (EmptyString, [])
  | String c s' =>
      let '(w, ws) := split_fields delims s' in
      if str_mem c delims then (EmptyString, w :: ws) else (String c w, ws)
  end.

(** GLib's [g_strsplit_set (s, delims, -1)]: every field, empty ones too;
    the empty string gives the empty vector. *)
Definition g_strsplit_set (s delims : string) : list string :=
  match s with
  | EmptyString => []
  | _ => let '(w, ws) := split_fields delims s in w :: ws
  end.

Definition str_nonempty (s : string) : bool :=
  match s with EmptyString => false | _ => true end.

(** Modelled from the spec: [nm_utils_strsplit_set (s, delims, FALSE)] of
    shared/nm-utils (not part of this file), "split text on
    comma/space/tab": the non-empty tokens in order, and [NULL] ([None])
    when there is none. *)
Definition nm_utils_strsplit_set (s delims : string) : option (list string) :=
  let '(w, ws) := split_fields delims s in
  match List.filter str_nonempty (w :: ws) with
  | [] => None
  | toks => Some toks
  end.

(** The delimiter sets [" \t"] and [" \t,"]. *)
Definition delimiters_space_tab : string :=
  String " "%char (String (ascii_of_nat 9) EmptyString).

Definition delimiters_space_tab_comma : string :=
  String " "%char (String (ascii_of_nat 9) (String ","%char EmptyString)).

(** [nm_streq] *)
Definition nm_streq (a b : string) : bool := String.eqb a b.

(** [nm_streq0]: both may be [NULL]. *)
Definition nm_streq0 (a b : option string) : bool :=
  match a, b with
  | None, None => true
  | Some x, Some y => String.eqb x y
  | _, _ => false
  end.

(** ** Numbers *)

Definition G_MAXUINT64 : Z := 2 ^ 64 - 1.
Definition G_MAXINT64 : Z := 2 ^ 63 - 1.
Definition G_MININT64 : Z := - 2 ^ 63.
Definition G_MAXUINT32 : Z := 2 ^ 32 - 1.
Definition G_MAXINT32 : Z := 2 ^ 31 - 1.

(** The value of a character as a digit in [g_parse_long_long]:
    ['0'..'9'] and, for letters, [TOUPPER (c) - 'A' + 10]. *)
Definition digit_value (c : ascii) : option Z :=
  let n := Z.of_N (N_of_ascii c) in
  if (48 <=? n) && (n <=? 57) then Some (n - 48)
  else if (65 <=? n) && (n <=? 90) then Some (n - 65 + 10)
  else if (97 <=? n) && (n <=? 122) then Some (n - 97 + 10)
  else None.

(** The digit loop of [g_parse_long_long]: accumulates in a [guint64],
    with a sticky overflow flag; returns the accumulator, the flag and the
    unread rest. *)
Fixpoint parse_digits (base : Z) (s : string) (ui64 : Z) (overflow : bool)
  : Z * bool * string :=
  match s with
  | EmptyString => (ui64, overflow, s)
  | String c s' =>
      match digit_value c with
      | None => (ui64, overflow, s)
      | Some d =>
          if base <=? d then (ui64, overflow, s)
          else
            let cutoff := G_MAXUINT64 / base in
            let cutlim := G_MAXUINT64 mod base in
            if (cutoff <? ui64) || ((ui64 =? cutoff) && (cutlim <? d))
            then parse_digits base s' ui64 true
            else parse_digits base s' (ui64 * base + d) overflow
      end
  end.

(** What a call to [g_ascii_strtoll] leaves: the value, the end pointer
    (the unread text) and whether [errno] was set to [ERANGE]. *)
Record strtoll_result : Type := mkStrtoll {
  st_value : Z;
  st_end : string;
  st_erange : bool;
}.

Definition is_x (c : ascii) : bool :=
  Ascii.eqb c "x"%char || Ascii.eqb c "X"%char.

(** GLib's [g_ascii_strtoll (nptr, &end, base)], for a base of 0 or 2..36. *)
Definition g_ascii_strtoll (nptr : string) (base : Z) : strtoll_result :=
  let s := skip_while ISSPACE nptr in
  match s with
  | EmptyString => mkStrtoll 0 nptr false
  | String c0 s0 =>
      let '(negative, s1) :=
        if Ascii.eqb c0 "-"%char then (true, s0)
        else if Ascii.eqb c0 "+"%char then (false, s0)
        else (false, s) in
      (* number prefix; [hexrest] is the text from the 'x' of a "0x" on *)
      let '(base', s2, hexrest) :=
        match s1 with
        | String z (String x r) =>
            if Ascii.eqb z "0"%char then
              if ((base =? 0) || (base =? 16)) && is_x x then (16, r, Some (String x r))
              else if base =? 0 then (8, s1, None)
              else (base, s1, None)
            else if base =? 0 then (10, s1, None) else (base, s1, None)
        | String z EmptyString =>
            if Ascii.eqb z "0"%char then
              if base =? 0 then (8, s1, None) else (base, s1, None)
            else if base =? 0 then (10, s1, None) else (base, s1, None)
        | EmptyString => (if base =? 0 then 10 else base, s1, None)
        end in
      let '(ui64, overflow, rest) := parse_digits base' s2 0 false in
      if String.eqb rest s2 then
        (* noconv *)
        match hexrest with
        | Some xr => mkStrtoll 0 xr false
        | None => mkStrtoll 0 nptr false
        end
      else
        let result := if overflow then G_MAXUINT64 else ui64 in
        if negative && (- G_MININT64 <? result) then mkStrtoll G_MININT64 rest true
        else if negb negative && (G_MAXINT64 <? result) then mkStrtoll G_MAXINT64 rest true
        else if negative then mkStrtoll (- result) rest false
        else mkStrtoll result rest false
  end.

(** Modelled from the spec: [_nm_utils_ascii_str_to_int64 (str, base, min,
    max, fallback)] of shared/nm-utils (not part of this file), "the text
    parses as an integer" in [[min, max]]: white space around the number
    is allowed, anything else after it is not; on failure the fallback is
    returned. *)
Definition _nm_utils_ascii_str_to_int64 (str : string) (base min max fallback : Z) : Z :=
  let str := skip_while g_ascii_isspace str in
  match str with
  | EmptyString => fallback
  | _ =>
      let r := g_ascii_strtoll str base in
      if st_erange r then fallback
      else if str_nonempty (skip_while g_ascii_isspace (st_end r)) then fallback
      else if (max <? st_value r) || (st_value r <? min) then fallback
      else st_value r
  end.

(** [printf ("%d")] and the like: the decimal text of an integer. *)
Definition fmt_d (n : Z) : string := NilZero.string_of_int (Z.to_int n).

(** Runs [step] over the items from left to right and stops at the first
    error: the shape of every [for (iter = strv; *iter; iter++)] loop below
    whose body may [return NULL]. *)
Fixpoint fold_until_error {E S A : Type} (step : S -> A -> E + S) (st : S) (items : list A)
  : E + S :=
  match items with
  | [] => inr st
  | x :: rest =>
      match step st x with
      | inl e => inl e
      | inr st' => fold_until_error step st' rest
      end
  end.

(** ** Values produced by the structured-value parsers *)

Inductive addr_family : Type := AF_INET | AF_INET6.

#[global] Instance addr_family_eq_dec : EqDecision addr_family.
Proof. solve_decision. Defined.

(** A [GVariant] holding a route attribute. *)
Inductive GVariant : Type :=
| GVariantBoolean (b : bool)
| GVariantByte (n : Z)
| GVariantUint32 (n : Z)
| GVariantString (s : string).

#[global] Instance GVariant_eq_dec : EqDecision GVariant.
Proof. solve_decision. Defined.

Record NMIPAddress : Type := mkNMIPAddress {
  address_family : addr_family;
  address_address : string;
  address_prefix : Z;
}.

#[global] Instance NMIPAddress_eq_dec : EqDecision NMIPAddress.
Proof. solve_decision. Defined.

Record NMIPRoute : Type := mkNMIPRoute {
  route_family : addr_family;
  route_dest : string;
  route_prefix : Z;
  route_next_hop : option string;
  route_metric : Z;
  route_attributes : gmap string GVariant;
}.

#[global] Instance NMIPRoute_eq_dec : EqDecision NMIPRoute.
Proof. solve_decision. Defined.

(** [NMTeamLinkWatcherArpPingFlags], declared in libnm-core/nm-setting-team.h. *)
Definition NM_TEAM_LINK_WATCHER_ARP_PING_FLAG_VALIDATE_ACTIVE : Z := 2.
Definition NM_TEAM_LINK_WATCHER_ARP_PING_FLAG_VALIDATE_INACTIVE : Z := 4.
Definition NM_TEAM_LINK_WATCHER_ARP_PING_FLAG_SEND_ALWAYS : Z := 8.

Definition NM_TEAM_LINK_WATCHER_ETHTOOL : string := "ethtool".
Definition NM_TEAM_LINK_WATCHER_NSNA_PING : string := "nsna_ping".
Definition NM_TEAM_LINK_WATCHER_ARP_PING : string := "arp_ping".

Inductive NMTeamLinkWatcher : Type :=
| WatcherEthtool (delay_up delay_down : Z)
| WatcherNsnaPing (init_wait interval missed_max : Z) (target_host : string)
| WatcherArpPing (init_wait interval missed_max vlanid : Z)
                 (target_host source_host : string) (flags : Z).

#[global] Instance NMTeamLinkWatcher_eq_dec : EqDecision NMTeamLinkWatcher.
Proof. solve_decision. Defined.


(** ** The GObject property store *)

(** The [GType] of a property; enumeration and flags types carry the name
    of their class. *)
Inductive GType : Type :=
| G_TYPE_BOOLEAN
| G_TYPE_INT
| G_TYPE_UINT
| G_TYPE_INT64
| G_TYPE_UINT64
| G_TYPE_STRING
| G_TYPE_STRV
| G_TYPE_HASH_TABLE
| G_TYPE_ENUM (class_name : string)
| G_TYPE_FLAGS (class_name : string)
| G_TYPE_BOXED (boxed_name : string).

#[global] Instance GType_eq_dec : EqDecision GType.
Proof. solve_decision. Defined.

(** [G_IS_ENUM_CLASS (g_type_class_ref (gtype))] and [G_IS_FLAGS_CLASS]. *)
Definition G_IS_ENUM_CLASS (gtype : GType) : bool :=
  match gtype with G_TYPE_ENUM _ => true | _ => false end.

Definition G_IS_FLAGS_CLASS (gtype : GType) : bool :=
  match gtype with G_TYPE_FLAGS _ => true | _ => false end.

(** A [GValue]: what a property of a setting holds. *)
Inductive GValue : Type :=
| GValue_boolean (b : bool)
| GValue_int (n : Z)                           (* gint, guint, gint64, guint64, enum, flags *)
| GValue_string (s : option string)            (* char *, may be NULL *)
| GValue_strv (v : option (list string))       (* char **, may be NULL *)
| GValue_hash (h : option (gmap string string))
| GValue_uint_array (a : list Z)               (* the 8 slots of a DCB property *)
| GValue_addresses (l : list NMIPAddress)
| GValue_routes (l : list NMIPRoute)
| GValue_link_watchers (l : list NMTeamLinkWatcher)
| GValue_boxed_null.                           (* a boxed type, the pointer NULL *)

#[global] Instance GValue_eq_dec : EqDecision GValue.
Proof.
  intros x y. unfold Decision.
  decide equality; try solve_decision; apply (decide_rel (=)).
Defined.

Record GParamSpec : Type := mkGParamSpec {
  value_type : GType;
  default_value : GValue;
}.

#[global] Instance GParamSpec_eq_dec : EqDecision GParamSpec.
Proof. solve_decision. Defined.

(** A setting object: the properties its class installs and the values it
    holds.  The configuration store is a collaborator; this is the
    key-value contract through which the file reads and writes it. *)
Record NMSetting : Type := mkNMSetting {
  setting_class : gmap string GParamSpec;
  setting_values : gmap string GValue;
}.

#[global] Instance NMSetting_eq_dec : EqDecision NMSetting.
Proof. solve_decision. Defined.
(** ** The collaborators

    Functions of libnm-core, shared/nm-utils and clients/common that this
    file calls and does not define.  Everything below is stated for an
    arbitrary implementation of them. *)
Class Collaborators : Type := {
  (** [nm_utils_ipaddr_valid (family, ip)]: [inet_pton] accepts the text. *)
  nm_utils_ipaddr_valid : addr_family -> string -> bool;
  (** [canonicalize_ip (family, ip, null_any)] of nm-setting-ip-config.c. *)
  canonicalize_ip : addr_family -> string -> bool -> option string;
  (** [nm_utils_parse_variant_attributes (token, ' ', '=', FALSE,
      nm_ip_route_get_variant_attribute_spec (), error)]: the table, in the
      order in which [g_hash_table_iter_next] yields it. *)
  nm_utils_parse_variant_attributes : string -> GError + list (string * GVariant);
  (** [nm_ip_route_attribute_validate (key, value, family, NULL, error)];
      [None] is success. *)
  nm_ip_route_attribute_validate : string -> GVariant -> addr_family -> option GError;
  (** The three constructors of [NMTeamLinkWatcher]. *)
  nm_team_link_watcher_new_ethtool : Z -> Z -> GError + NMTeamLinkWatcher;
  nm_team_link_watcher_new_nsna_ping :
    Z -> Z -> Z -> option string -> GError + NMTeamLinkWatcher;
  nm_team_link_watcher_new_arp_ping2 :
    Z -> Z -> Z -> Z -> option string -> option string -> Z -> GError + NMTeamLinkWatcher;
  (** [nmc_string_is_valid (input, allowed, error)] of nm-client-utils.c:
      the member of [allowed] that [input] denotes. *)
  nmc_string_is_valid : string -> list string -> GError + string;
  (** [nm_utils_hwaddr_aton (asc, buf, ETH_ALEN) != NULL] *)
  nm_utils_hwaddr_aton_eth : string -> bool;
  (** What this call of [nm_utils_uuid_generate ()] returns. *)
  nm_utils_uuid_generate : string;
  (** [_nm_utils_enum_to_str_full (gtype, value, ", ", value_infos)] of
      shared/nm-utils/nm-enum-utils.c. *)
  _nm_utils_enum_to_str_full : GType -> Z -> string;
  (** [g_value_transform] of a property value to [G_TYPE_STRING], with the
      transforms that [nmc_value_transforms_register] installs. *)
  g_value_transform_string : GValue -> option string;
  (** [nmc_string_to_bool (str, &val_bool, error)] of nm-client-utils.c. *)
  nmc_string_to_bool : string -> GError + bool;
}.

Section Parsers.
Context `{Collaborators}.

(** ** [_parse_ip_address] *)

Definition MAX_PREFIX (family : addr_family) : Z :=
  match family with AF_INET => 32 | AF_INET6 => 128 end.

Definition family_name (family : addr_family) : string :=
  match family with AF_INET => "IPv4" | AF_INET6 => "IPv6" end.

(** Modelled from the spec: [valid_ip] and [valid_prefix] of
    libnm-core/nm-setting-ip-config.c (not part of this file): "invalid
    address text" is what [inet_pton] rejects, and a prefix of the object
    is at most the family's maximum. *)
Definition valid_ip (family : addr_family) (ip : string) : option GError :=
  if nm_utils_ipaddr_valid family ip then None
  else Some (mkGError NM_CONNECTION_ERROR NM_CONNECTION_ERROR_FAILED
               ("Invalid " +:+ family_name family +:+ " address '" +:+ ip +:+ "'")).

Definition valid_prefix (family : addr_family) (prefix : Z) : option GError :=
  if prefix <=? MAX_PREFIX family then None
  else Some (mkGError NM_CONNECTION_ERROR NM_CONNECTION_ERROR_FAILED
               ("Invalid " +:+ family_name family +:+ " address prefix '"
                +:+ fmt_d prefix +:+ "'")).

(** Modelled from the spec: [nm_ip_address_new (family, addr, prefix,
    &error)] of libnm-core (not part of this file): the ParsedAddress
    holding the address text and the prefix, or an error for invalid
    address text. *)
Definition nm_ip_address_new (family : addr_family) (addr : string) (prefix : Z)
  : GError + NMIPAddress :=
  match valid_ip family addr with
  | Some e => inl e
  | None =>
      match valid_prefix family prefix with
      | Some e => inl e
      | None =>
          inr (mkNMIPAddress family
                 (default addr (canonicalize_ip family addr false)) prefix)
      end
  end.

Definition _parse_ip_address (family : addr_family) (address : string)
  : GError + NMIPAddress :=
  let ip_str := g_strstrip address in
  let parsed : GError + (string * Z) :=
    match strchr_cut "/" ip_str with
    | Some (ip, plen) =>
        let prefix := _nm_utils_ascii_str_to_int64 plen 10 1 (MAX_PREFIX family) (-1) in
        if prefix =? -1 then
          inl (g_set_error_invalid_argument
                 (gettext "invalid prefix '" +:+ plen +:+ "'; <1-"
                  +:+ fmt_d (MAX_PREFIX family) +:+ "> allowed"))
        else inr (ip, prefix)
    | None => inr (ip_str, MAX_PREFIX family)
    end in
  match parsed with
  | inl e => inl e
  | inr (ip, prefix) =>
      match nm_ip_address_new family ip prefix with
      | inl local =>
          inl (g_set_error_invalid_argument
                 (gettext "invalid IP address: " +:+ message local))
      | inr addr => inr addr
      end
  end.

(** ** [_parse_ip_route] *)

Definition ROUTE_SYNTAX : string :=
  gettext "The valid syntax is: 'ip[/prefix] [next-hop] [metric] [attribute=val]... [,ip[/prefix] ...]'".

(** Modelled from the spec: [nm_ip_route_new (family, dest, prefix,
    next_hop, metric, &error)] of libnm-core (not part of this file): the
    ParsedRoute with these fields, or an error when the destination or the
    next hop is not an address of the family, the prefix exceeds the
    family's maximum or the metric is outside [[-1, 2^32-1]]. *)
Definition nm_ip_route_new (family : addr_family) (dest : string) (prefix : Z)
    (next_hop : option string) (metric : Z) : GError + NMIPRoute :=
  match valid_ip family dest with
  | Some e => inl e
  | None =>
      match valid_prefix family prefix with
      | Some e => inl e
      | None =>
          match next_hop ≫= valid_ip family with
          | Some e => inl e
          | None =>
              if (metric <? -1) || (G_MAXUINT32 <? metric) then
                inl (mkGError NM_CONNECTION_ERROR NM_CONNECTION_ERROR_FAILED
                       ("Invalid routing metric '" +:+ fmt_d metric +:+ "'"))
              else
                inr (mkNMIPRoute family
                       (default dest (canonicalize_ip family dest false))
                       prefix
                       (next_hop ≫= (fun nh => canonicalize_ip family nh true))
                       metric ∅)
          end
      end
  end.

(** The locals of [_parse_ip_route] that its token loop updates. *)
Record route_locals : Type := mkRouteLocals {
  rl_next_hop : option string;
  rl_metric : Z;
  rl_attrs : option (gmap string GVariant);
}.

Definition route_locals_init : route_locals := mkRouteLocals None (-1) None.

(** The inner [while (g_hash_table_iter_next (...))] loop: validate each
    attribute of the token and move it into [attrs]. *)
Definition route_attr_step (family : addr_family) (attrs : gmap string GVariant)
    (kv : string * GVariant) : GError + gmap string GVariant :=
  let '(iter_key, iter_value) := kv in
  match nm_ip_route_attribute_validate iter_key iter_value family with
  | Some e => inl (g_prefix_error (iter_key +:+ ": ") e)
  | None => inr (<[iter_key := iter_value]> attrs)
  end.

(** The body of [for (i = 1; routev[i]; i++)]. *)
Definition route_token_step (family : addr_family) (st : route_locals) (tok : string)
  : GError + route_locals :=
  if nm_utils_ipaddr_valid family tok then
    if negb (rl_metric st =? -1) || bool_decide (is_Some (rl_attrs st)) then
      inl (g_set_error_1_0 (gettext "the next hop ('" +:+ tok +:+ "') must be first"))
    else inr (mkRouteLocals (Some tok) (rl_metric st) (rl_attrs st))
  else
    let tmp64 := _nm_utils_ascii_str_to_int64 tok 10 0 G_MAXUINT32 (-1) in
    if negb (tmp64 =? -1) then
      if bool_decide (is_Some (rl_attrs st)) then
        inl (g_set_error_1_0
               (gettext "the metric ('" +:+ tok +:+ "') must be before attributes"))
      else inr (mkRouteLocals (rl_next_hop st) tmp64 (rl_attrs st))
    else if str_mem "=" tok then
      match nm_utils_parse_variant_attributes tok with
      | inl e => inl (g_prefix_error ("invalid option '" +:+ tok +:+ "': ") e)
      | inr tmp_attrs =>
          match fold_until_error (route_attr_step family)
                  (default ∅ (rl_attrs st)) tmp_attrs with
          | inl e => inl e
          | inr attrs => inr (mkRouteLocals (rl_next_hop st) (rl_metric st) (Some attrs))
          end
      end
    else inl (g_set_error_1_0 ROUTE_SYNTAX).

(** [nm_ip_route_set_attribute] for every entry of [attrs]. *)
Definition route_set_attributes (route : NMIPRoute) (attrs : option (gmap string GVariant))
  : NMIPRoute :=
  match attrs with
  | None => route
  | Some a =>
      mkNMIPRoute (route_family route) (route_dest route) (route_prefix route)
        (route_next_hop route) (route_metric route) (a ∪ route_attributes route)
  end.

Definition _parse_ip_route (family : addr_family) (str : string) : GError + NMIPRoute :=
  let str_clean := nm_strstrip_avoid_copy str in
  match nm_utils_strsplit_set str_clean delimiters_space_tab with
  | None | Some [] =>
      inl (g_set_error_1_0 ("'" +:+ str +:+ "' is not valid. " +:+ ROUTE_SYNTAX))
  | Some (routev0 :: tokens) =>
      let '(dest, plen) :=
        match strchr_cut "/" routev0 with
        | Some (d, p) => (d, Some p)
        | None => (routev0, None)
        end in
      let prefix :=
        match plen with
        | Some p => _nm_utils_ascii_str_to_int64 p 10 1 (MAX_PREFIX family) (-1)
        | None => MAX_PREFIX family
        end in
      if prefix =? -1 then
        inl (g_set_error_invalid_argument
               (gettext "invalid prefix '" +:+ default "" plen +:+ "'; <1-"
                +:+ fmt_d (MAX_PREFIX family) +:+ "> allowed"))
      else
        match fold_until_error (route_token_step family) route_locals_init tokens with
        | inl e => inl e
        | inr st =>
            match nm_ip_route_new family dest prefix (rl_next_hop st) (rl_metric st) with
            | inl local =>
                inl (g_set_error_1_0
                       (gettext "invalid route: " +:+ message local +:+ ". " +:+ ROUTE_SYNTAX))
            | inr route => inr (route_set_attributes route (rl_attrs st))
            end
        end
  end.

(** ** [_parse_team_link_watcher] *)

(** The locals of [_parse_team_link_watcher]. *)
Record watcher_locals : Type := mkWatcherLocals {
  wl_name : option string;
  wl_val1 : Z;
  wl_val2 : Z;
  wl_val3 : Z;
  wl_val4 : Z;
  wl_target_host : option string;
  wl_source_host : option string;
  wl_flags : Z;
}.

Definition watcher_locals_init : watcher_locals :=
  mkWatcherLocals None 0 0 3 (-1) None None 0.

Definition watcher_error (tok why : string) : GError :=
  g_set_error_1_0 ("'" +:+ tok +:+ "' is not valid: " +:+ why).

(** The [if / else if] chain over [pair[0]]; [None] is the final [else]
    ("unknown key"). *)
Definition watcher_assign (st : watcher_locals) (key value : string) : option watcher_locals :=
  let '(mkWatcherLocals name val1 val2 val3 val4 target_host source_host flags) := st in
  if nm_streq key "name" then
    Some (mkWatcherLocals (Some value) val1 val2 val3 val4 target_host source_host flags)
  else if nm_streq key "delay-up" || nm_streq key "init-wait" then
    Some (mkWatcherLocals name (_nm_utils_ascii_str_to_int64 value 10 0 G_MAXINT32 (-1))
            val2 val3 val4 target_host source_host flags)
  else if nm_streq key "delay-down" || nm_streq key "interval" then
    Some (mkWatcherLocals name val1 (_nm_utils_ascii_str_to_int64 value 10 0 G_MAXINT32 (-1))
            val3 val4 target_host source_host flags)
  else if nm_streq key "missed-max" then
    Some (mkWatcherLocals name val1 val2
            (_nm_utils_ascii_str_to_int64 value 10 0 G_MAXINT32 (-1))
            val4 target_host source_host flags)
  else if nm_streq key "vlanid" then
    Some (mkWatcherLocals name val1 val2 val3
            (_nm_utils_ascii_str_to_int64 value 10 (-1) 4094 (-2))
            target_host source_host flags)
  else if nm_streq key "target-host" then
    Some (mkWatcherLocals name val1 val2 val3 val4 (Some value) source_host flags)
  else if nm_streq key "source-host" then
    Some (mkWatcherLocals name val1 val2 val3 val4 target_host (Some value) flags)
  else if nm_streq key "validate-active" then
    Some (mkWatcherLocals name val1 val2 val3 val4 target_host source_host
            (if nm_streq value "true"
             then Z.lor flags NM_TEAM_LINK_WATCHER_ARP_PING_FLAG_VALIDATE_ACTIVE
             else flags))
  else if nm_streq key "validate-inactive" then
    Some (mkWatcherLocals name val1 val2 val3 val4 target_host source_host
            (if nm_streq value "true"
             then Z.lor flags NM_TEAM_LINK_WATCHER_ARP_PING_FLAG_VALIDATE_INACTIVE
             else flags))
  else if nm_streq key "send-always" then
    Some (mkWatcherLocals name val1 val2 val3 val4 target_host source_host
            (if nm_streq value "true"
             then Z.lor flags NM_TEAM_LINK_WATCHER_ARP_PING_FLAG_SEND_ALWAYS
             else flags))
  else None.

(** The body of [for (i = 0; watcherv[i]; i++)]. *)
Definition watcher_token_step (st : watcher_locals) (tok : string) : GError + watcher_locals :=
  match nm_utils_strsplit_set tok "=" with
  | None | Some [] =>
      inl (watcher_error tok "properties should be specified as 'key=value'")
  | Some [_] => inl (watcher_error tok "missing key value")
  | Some (_ :: _ :: _ :: _) =>
      inl (watcher_error tok "properties should be specified as 'key=value'")
  | Some [key; value] =>
      match watcher_assign st key value with
      | None => inl (watcher_error tok "unknown key")
      | Some st' =>
          if (wl_val1 st' <? 0) || (wl_val2 st' <? 0) || (wl_val3 st' <? 0) then
            inl (watcher_error tok "value is not a valid number [0, MAXINT]")
          else if wl_val4 st' <? -1 then
            inl (watcher_error tok "value is not a valid number [-1, 4094]")
          else inr st'
      end
  end.

Definition _parse_team_link_watcher (str : string) : GError + NMTeamLinkWatcher :=
  let str_clean := nm_strstrip_avoid_copy str in
  match nm_utils_strsplit_set str_clean delimiters_space_tab with
  | None => inl (g_set_error_1_0 ("'" +:+ str +:+ "' is not valid"))
  | Some watcherv =>
      match fold_until_error watcher_token_step watcher_locals_init watcherv with
      | inl e => inl e
      | inr st =>
          if nm_streq0 (wl_name st) (Some NM_TEAM_LINK_WATCHER_ETHTOOL) then
            nm_team_link_watcher_new_ethtool (wl_val1 st) (wl_val2 st)
          else if nm_streq0 (wl_name st) (Some NM_TEAM_LINK_WATCHER_NSNA_PING) then
            nm_team_link_watcher_new_nsna_ping (wl_val1 st) (wl_val2 st) (wl_val3 st)
              (wl_target_host st)
          else if nm_streq0 (wl_name st) (Some NM_TEAM_LINK_WATCHER_ARP_PING) then
            nm_team_link_watcher_new_arp_ping2 (wl_val1 st) (wl_val2 st) (wl_val3 st)
              (wl_val4 st) (wl_target_host st) (wl_source_host st) (wl_flags st)
          else
            match wl_name st with
            | None => inl (g_set_error_1_0 "link watcher name missing")
            | Some name =>
                inl (g_set_error_1_0 ("unknown link watcher name: '" +:+ name +:+ "'"))
            end
      end
  end.

End Parsers.

Section Marshalling.
Context `{Collaborators}.

(** ** Reading and writing properties *)

(** [g_object_class_find_property (G_OBJECT_GET_CLASS (setting), name)] *)
Definition g_object_class_find_property (setting : NMSetting) (name : string)
  : option GParamSpec :=
  setting_class setting !! name.

(** [g_object_get_property]: the held value, the default before any write. *)
Definition g_object_get_property (setting : NMSetting) (name : string) (pspec : GParamSpec)
  : GValue :=
  default (default_value pspec) (setting_values setting !! name).

(** [g_object_set (setting, name, value, NULL)] and [g_object_set_property]. *)
Definition g_object_set (setting : NMSetting) (name : string) (v : GValue) : NMSetting :=
  mkNMSetting (setting_class setting) (<[name := v]> (setting_values setting)).

(** [g_param_value_defaults (pspec, &v)]: the value compares equal to the
    default of the specification. *)
Definition g_param_value_defaults (pspec : GParamSpec) (v : GValue) : bool :=
  bool_decide (v = default_value pspec).

Definition _gobject_property_is_default (setting : NMSetting) (prop_name : string) : bool :=
  match g_object_class_find_property setting prop_name with
  | None => false                         (* g_return_val_if_reached (FALSE) *)
  | Some pspec =>
      let v := g_object_get_property setting prop_name pspec in
      if bool_decide (value_type pspec = G_TYPE_STRV) then
        match v with
        | GValue_strv None | GValue_strv (Some []) => true
        | _ => false
        end
      else if bool_decide (value_type pspec = G_TYPE_HASH_TABLE) then
        match v with
        | GValue_hash None => true
        | GValue_hash (Some ht) => bool_decide (size ht = 0%nat)
        | _ => false
        end
      else g_param_value_defaults pspec v
  end.

(** [GValue v = G_VALUE_INIT; g_value_init (&v, g_type);]: the value of the
    type with every bit zero. *)
Definition g_value_init (g_type : GType) : GValue :=
  match g_type with
  | G_TYPE_BOOLEAN => GValue_boolean false
  | G_TYPE_INT | G_TYPE_UINT | G_TYPE_INT64 | G_TYPE_UINT64
  | G_TYPE_ENUM _ | G_TYPE_FLAGS _ => GValue_int 0
  | G_TYPE_STRING => GValue_string None
  | G_TYPE_STRV => GValue_strv None
  | G_TYPE_HASH_TABLE => GValue_hash None
  | G_TYPE_BOXED _ => GValue_boxed_null
  end.

(** The function initialises [v], calls [g_param_value_defaults (pspec,
    &v)], GLib's test whether a value is the default of the specification,
    drops what the test returns, and stores [v]: the property is given the
    initial value of its type, whatever its default is. *)
Definition _gobject_property_reset_default (setting : NMSetting) (prop_name : string)
  : bool * NMSetting :=
  match g_object_class_find_property setting prop_name with
  | None => (false, setting)              (* g_return_val_if_reached (FALSE) *)
  | Some pspec =>
      let v := g_value_init (value_type pspec) in
      let _ := g_param_value_defaults pspec v in
      (true, g_object_set setting prop_name v)
  end.

(** ** Property descriptors *)

(** [NMMetaAccessorGetType].  The header declares a further value beside
    the two text modes; every getter rejects it. *)
Inductive NMMetaAccessorGetType : Type :=
| NM_META_ACCESSOR_GET_TYPE_PRETTY
| NM_META_ACCESSOR_GET_TYPE_PARSABLE
| NM_META_ACCESSOR_GET_TYPE_TERMFORMAT.

#[global] Instance NMMetaAccessorGetType_eq_dec : EqDecision NMMetaAccessorGetType.
Proof. solve_decision. Defined.

(** The bits of [NMMetaAccessorGetFlags]. *)
Inductive NMMetaAccessorGetFlags : Type :=
| NM_META_ACCESSOR_GET_FLAGS_ACCEPT_STRV
| NM_META_ACCESSOR_GET_FLAGS_SHOW_SECRETS.

#[global] Instance NMMetaAccessorGetFlags_eq_dec : EqDecision NMMetaAccessorGetFlags.
Proof. solve_decision. Defined.

(** The bits of [NMMetaPropertyTypFlags] that the enum getter reads. *)
Inductive NMMetaPropertyTypFlags : Type :=
| NM_META_PROPERTY_TYP_FLAG_ENUM_GET_PRETTY_NUMERIC
| NM_META_PROPERTY_TYP_FLAG_ENUM_GET_PRETTY_NUMERIC_HEX
| NM_META_PROPERTY_TYP_FLAG_ENUM_GET_PRETTY_TEXT
| NM_META_PROPERTY_TYP_FLAG_ENUM_GET_PRETTY_TEXT_L10N
| NM_META_PROPERTY_TYP_FLAG_ENUM_GET_PARSABLE_NUMERIC
| NM_META_PROPERTY_TYP_FLAG_ENUM_GET_PARSABLE_NUMERIC_HEX
| NM_META_PROPERTY_TYP_FLAG_ENUM_GET_PARSABLE_TEXT.

#[global] Instance NMMetaPropertyTypFlags_eq_dec : EqDecision NMMetaPropertyTypFlags.
Proof. solve_decision. Defined.

(** A flag word is the list of the bits that are set. *)
Definition NM_FLAGS_HAS {A : Type} `{EqDecision A} (flags : list A) (bit : A) : bool :=
  bool_decide (bit ∈ flags).

Definition NM_FLAGS_ANY {A : Type} `{EqDecision A} (flags : list A) (bits : list A) : bool :=
  existsb (NM_FLAGS_HAS flags) bits.

(** The members of the [subtype] union of [NMMetaPropertyTypData] that the
    embedded functions read. *)
Record subtype_gobject_string : Type := {
  validate_fcn : option (string -> GError + string);
}.

Record subtype_gobject_enum : Type := {
  get_gtype : option GType;
}.

Record subtype_multilist : Type := {
  get_num_fcn : NMSetting -> Z;
  add_fcn : NMSetting -> string -> NMSetting;
  remove_by_idx_fcn : NMSetting -> Z -> NMSetting;
  remove_by_value_fcn : NMSetting -> string -> NMSetting;
}.

Record subtype_dcb : Type := {
  dcb_get_fcn : NMSetting -> Z -> Z;
  dcb_set_fcn : NMSetting -> Z -> Z -> NMSetting;
  dcb_max : Z;
  dcb_other : Z;
  dcb_is_percent : bool;
}.

Inductive subtype_union : Type :=
| subtype_zero                                   (* the union left zero-initialised *)
| subtype_is_gobject_string (s : subtype_gobject_string)
| subtype_is_gobject_enum (s : subtype_gobject_enum)
| subtype_is_multilist (s : subtype_multilist)
| subtype_is_dcb (s : subtype_dcb)
| subtype_is_ethtool (ethtool_id : Z).

Record NMMetaPropertyTypData : Type := {
  typ_flags : list NMMetaPropertyTypFlags;
  values_static : option (list string);
  subtype : subtype_union;
}.

(** The data members of [NMMetaPropertyInfo] that the accessors read. *)
Record NMMetaPropertyInfo : Type := {
  property_name : string;
  is_secret : bool;
  property_typ_data : option NMMetaPropertyTypData;
}.

(** What a getter hands back: the returned text ([None] is [NULL]) and
    what it stored through [out_is_default] ([None]: nothing stored). *)
Record get_result : Type := mkGetResult {
  get_text : option string;
  out_is_default : option bool;
}.

(** What a setter or remover hands back: the [gboolean], the error, the
    setting as it is left and the warnings sent to the environment; or the
    dereference of a [NULL] pointer. *)
Inductive set_result : Type :=
| Returned (ok : bool) (error : option GError) (setting : NMSetting) (warnings : list string)
| NullDereference.

Definition return_TRUE (setting : NMSetting) : set_result := Returned true None setting [].

Definition return_FALSE (e : GError) (setting : NMSetting) : set_result :=
  Returned false (Some e) setting [].

(** [NMMetaPropertyType]: the function table of a contract kind. *)
Record NMMetaPropertyType : Type := {
  get_fcn : NMMetaPropertyInfo -> NMSetting -> NMMetaAccessorGetType ->
            list NMMetaAccessorGetFlags -> get_result;
  set_fcn : option (NMMetaPropertyInfo -> NMSetting -> option string -> set_result);
  remove_fcn : option (NMMetaPropertyInfo -> NMSetting -> string -> set_result);
}.

(** A registry entry.  In C the pointer to the function table is a member
    of [NMMetaPropertyInfo]; here it sits beside the data members, which
    the functions of the table take as their first argument. *)
Record PropertyDescriptor : Type := {
  property_info : NMMetaPropertyInfo;
  property_type : NMMetaPropertyType;
}.

(** ** Getters *)

(** Modelled from the spec: [NM_META_TEXT_HIDDEN] of
    nm-meta-setting-desc.h (not part of this file), "the canonical
    redaction token". *)
Definition NM_META_TEXT_HIDDEN : string := "<hidden>".

Definition _get_text_hidden (get_type : NMMetaAccessorGetType) : string :=
  if bool_decide (get_type = NM_META_ACCESSOR_GET_TYPE_PRETTY)
  then gettext NM_META_TEXT_HIDDEN
  else NM_META_TEXT_HIDDEN.

(** The test of [RETURN_UNSUPPORTED_GET_TYPE]. *)
Definition unsupported_get_type (get_type : NMMetaAccessorGetType) : bool :=
  negb (bool_decide (get_type = NM_META_ACCESSOR_GET_TYPE_PARSABLE)
        || bool_decide (get_type = NM_META_ACCESSOR_GET_TYPE_PRETTY)).

Definition _get_fcn_gobject_impl (info : NMMetaPropertyInfo) (setting : NMSetting)
    (get_type : NMMetaAccessorGetType) : get_result :=
  if unsupported_get_type get_type then mkGetResult None None
  else
    let is_default := _gobject_property_is_default setting (property_name info) in
    match g_object_class_find_property setting (property_name info) with
    | None => mkGetResult None (Some is_default)
    | Some pspec =>
        let val := g_object_get_property setting (property_name info) pspec in
        if bool_decide (value_type pspec = G_TYPE_BOOLEAN) then
          let b := match val with GValue_boolean b => b | _ => false end in
          let s_c :=
            if bool_decide (get_type = NM_META_ACCESSOR_GET_TYPE_PRETTY)
            then (if b then gettext "yes" else gettext "no")
            else (if b then "yes" else "no") in
          mkGetResult (Some s_c) (Some is_default)
        else mkGetResult (g_value_transform_string val) (Some is_default)
    end.

Definition _get_fcn_gobject (info : NMMetaPropertyInfo) (setting : NMSetting)
    (get_type : NMMetaAccessorGetType) (get_flags : list NMMetaAccessorGetFlags)
  : get_result :=
  _get_fcn_gobject_impl info setting get_type.

(** The [(int) v] cast of a [gint64]. *)
Definition cast_int (v : Z) : Z := (v + 2 ^ 31) mod 2 ^ 32 - 2 ^ 31.

(** The five [format_*] locals of [_get_fcn_gobject_enum]. *)
Record enum_format : Type := mkEnumFormat {
  format_numeric : bool;
  format_numeric_hex : bool;
  format_numeric_hex_unknown : bool;
  format_text : bool;
  format_text_l10n : bool;
}.

Definition enum_format_of (typ_data : option NMMetaPropertyTypData)
    (get_type : NMMetaAccessorGetType) : enum_format :=
  let pretty := bool_decide (get_type = NM_META_ACCESSOR_GET_TYPE_PRETTY) in
  let flags := match typ_data with Some td => typ_flags td | None => [] end in
  let has := NM_FLAGS_HAS flags in
  if bool_decide (is_Some typ_data) && pretty
     && NM_FLAGS_ANY flags [NM_META_PROPERTY_TYP_FLAG_ENUM_GET_PRETTY_NUMERIC;
                            NM_META_PROPERTY_TYP_FLAG_ENUM_GET_PRETTY_NUMERIC_HEX;
                            NM_META_PROPERTY_TYP_FLAG_ENUM_GET_PRETTY_TEXT;
                            NM_META_PROPERTY_TYP_FLAG_ENUM_GET_PRETTY_TEXT_L10N]
  then
    let hex := has NM_META_PROPERTY_TYP_FLAG_ENUM_GET_PRETTY_NUMERIC_HEX in
    let l10n := has NM_META_PROPERTY_TYP_FLAG_ENUM_GET_PRETTY_TEXT_L10N in
    mkEnumFormat (hex || has NM_META_PROPERTY_TYP_FLAG_ENUM_GET_PRETTY_NUMERIC) hex false
                 (l10n || has NM_META_PROPERTY_TYP_FLAG_ENUM_GET_PRETTY_TEXT) l10n
  else if bool_decide (is_Some typ_data) && negb pretty
          && NM_FLAGS_ANY flags [NM_META_PROPERTY_TYP_FLAG_ENUM_GET_PARSABLE_NUMERIC;
                                 NM_META_PROPERTY_TYP_FLAG_ENUM_GET_PARSABLE_NUMERIC_HEX;
                                 NM_META_PROPERTY_TYP_FLAG_ENUM_GET_PARSABLE_TEXT]
  then
    (* [format_numeric = format_numeric && ...] with [format_numeric] still FALSE *)
    mkEnumFormat (false && has NM_META_PROPERTY_TYP_FLAG_ENUM_GET_PARSABLE_NUMERIC)
                 (has NM_META_PROPERTY_TYP_FLAG_ENUM_GET_PARSABLE_NUMERIC_HEX) false
                 (has NM_META_PROPERTY_TYP_FLAG_ENUM_GET_PARSABLE_TEXT) false
  else if pretty then mkEnumFormat true false true true true
  else mkEnumFormat true false true false false.

(** [subtype.gobject_enum.get_gtype] of a property. *)
Definition typ_data_get_gtype (typ_data : option NMMetaPropertyTypData) : option GType :=
  match typ_data with
  | Some td =>
      match subtype td with
      | subtype_is_gobject_enum s => get_gtype s
      | _ => None
      end
  | None => None
  end.

(** The numeric text: ["0x%" G_GINT64_FORMAT] or ["%" G_GINT64_FORMAT]. *)
Definition enum_numeric_text (fmt : enum_format) (gtype : GType) (v : Z) : string :=
  if format_numeric_hex fmt || (format_numeric_hex_unknown fmt && negb (G_IS_ENUM_CLASS gtype))
  then "0x" +:+ fmt_d v
  else fmt_d v.

Definition _get_fcn_gobject_enum (info : NMMetaPropertyInfo) (setting : NMSetting)
    (get_type : NMMetaAccessorGetType) (get_flags : list NMMetaAccessorGetFlags)
  : get_result :=
  if unsupported_get_type get_type then mkGetResult None None
  else
    let has_gtype := bool_decide (is_Some (typ_data_get_gtype (property_typ_data info))) in
    let fmt := enum_format_of (property_typ_data info) get_type in
    match g_object_class_find_property setting (property_name info) with
    | None => mkGetResult None None              (* g_return_val_if_fail (pspec, NULL) *)
    | Some pspec =>
        let gval := g_object_get_property setting (property_name info) pspec in
        let is_default := Some (g_param_value_defaults pspec gval) in
        let v := match gval with GValue_int n => n | _ => 0 end in
        let plain_int :=
          bool_decide (value_type pspec = G_TYPE_INT)
          || bool_decide (value_type pspec = G_TYPE_UINT) in
        if negb (plain_int || G_IS_ENUM_CLASS (value_type pspec)
                 || G_IS_FLAGS_CLASS (value_type pspec))
        then mkGetResult None is_default         (* g_return_val_if_reached (NULL) *)
        else if plain_int && negb has_gtype
        then mkGetResult None is_default         (* g_return_val_if_reached (NULL) *)
        else
          let gtype := default (value_type pspec) (typ_data_get_gtype (property_typ_data info)) in
          if format_numeric fmt && negb (format_text fmt) then
            mkGetResult (Some (enum_numeric_text fmt gtype v)) is_default
          else
            let s := _nm_utils_enum_to_str_full gtype (cast_int v) in
            if negb (format_numeric fmt) then mkGetResult (Some s) is_default
            else
              let s_numeric := enum_numeric_text fmt gtype v in
              if String.eqb s s_numeric then mkGetResult (Some s) is_default
              else if format_text_l10n fmt then
                (* [_("%s (%s)")] *)
                mkGetResult (Some (s_numeric +:+ gettext " (" +:+ s +:+ gettext ")")) is_default
              else mkGetResult (Some (s_numeric +:+ " (" +:+ s +:+ ")")) is_default
    end.

(** The [get_fcn] of [nm_meta_type_property_info]. *)
Definition _meta_type_property_info_get_fcn (descriptor : PropertyDescriptor)
    (target : NMSetting) (get_type : NMMetaAccessorGetType)
    (get_flags : list NMMetaAccessorGetFlags) : get_result :=
  let info := property_info descriptor in
  if unsupported_get_type get_type then mkGetResult None None
  else if is_secret info
          && negb (NM_FLAGS_HAS get_flags NM_META_ACCESSOR_GET_FLAGS_SHOW_SECRETS)
  then mkGetResult (Some (_get_text_hidden get_type)) (Some true)
  else get_fcn (property_type descriptor) info target get_type get_flags.

(** ** Setters *)

(** [#define _SET_FCN_DO_RESET_DEFAULT(value) ((value) == NULL)] *)
Definition _SET_FCN_DO_RESET_DEFAULT (value : option string) : bool :=
  bool_decide (value = None).

(** [return _gobject_property_reset_default (setting, property_info->property_name);] *)
Definition return_reset_default (info : NMMetaPropertyInfo) (setting : NMSetting)
  : set_result :=
  let '(ok, setting') := _gobject_property_reset_default setting (property_name info) in
  Returned ok None setting' [].

Definition _set_fcn_gobject_string (info : NMMetaPropertyInfo) (setting : NMSetting)
    (value : option string) : set_result :=
  match value with
  | None => return_reset_default info setting
  | Some value =>
      let checked : GError + string :=
        match property_typ_data info with
        | Some td =>
            match (match subtype td with
                   | subtype_is_gobject_string s => validate_fcn s
                   | _ => None
                   end) with
            | Some validate => validate value
            | None =>
                match values_static td with
                | Some allowed => nmc_string_is_valid value allowed
                | None => inr value
                end
            end
        | None => inr value
        end in
      match checked with
      | inl e => return_FALSE e setting
      | inr value =>
          return_TRUE (g_object_set setting (property_name info) (GValue_string (Some value)))
      end
  end.

Definition _set_fcn_gobject_bool (info : NMMetaPropertyInfo) (setting : NMSetting)
    (value : option string) : set_result :=
  match value with
  | None => return_reset_default info setting
  | Some value =>
      match nmc_string_to_bool value with
      | inl e => return_FALSE e setting
      | inr val_bool =>
          return_TRUE (g_object_set setting (property_name info) (GValue_boolean val_bool))
      end
  end.

(** A loop that edits the setting item by item and returns [FALSE] from
    its body: the error comes with the setting as the loop has left it. *)
Definition set_loop (body : NMSetting -> string -> GError + NMSetting)
    (setting : NMSetting) (strv : list string) : set_result :=
  match fold_until_error
          (fun (st : NMSetting) (item : string) =>
             match body st item with
             | inl e => inl (e, st)
             | inr st' => inr st'
             end)
          setting strv with
  | inl (e, st) => return_FALSE e st
  | inr st => return_TRUE st
  end.

Definition multilist_body (td : NMMetaPropertyTypData) (ml : subtype_multilist)
    (setting : NMSetting) (item : string) : GError + NMSetting :=
  match values_static td with
  | Some allowed =>
      match nmc_string_is_valid item allowed with
      | inl e => inl e
      | inr item => inr (add_fcn ml setting item)
      end
  | None => inr (add_fcn ml setting item)
  end.

Definition _set_fcn_multilist (info : NMMetaPropertyInfo) (setting : NMSetting)
    (value : option string) : set_result :=
  match value with
  | None => return_reset_default info setting
  | Some value =>
      match nm_utils_strsplit_set value delimiters_space_tab_comma with
      | None => return_TRUE setting
      | Some strv =>
          match property_typ_data info with
          | None => NullDereference
          | Some td =>
              match subtype td with
              | subtype_is_multilist ml => set_loop (multilist_body td ml) setting strv
              | _ => NullDereference
              end
          end
      end
  end.

(** [DEFINE_SETTER_OPTIONS (def_func, s_macro, s_type, add_func, valid_func1,
    valid_func2)] *)
Definition options_body
    (add_func : NMSetting -> string -> string -> NMSetting)
    (valid_func1 : option (NMSetting -> list string))
    (valid_func2 : option (string -> string -> GError + string))
    (setting : NMSetting) (item : string) : GError + NMSetting :=
  let left_ := g_strstrip item in
  match strchr_cut "=" left_ with
  | None =>
      inl (g_set_error_1_0
             (gettext "'" +:+ left_ +:+ "' is not valid; use <option>=<value>"))
  | Some (left_, right_) =>
      let left_ := g_strchomp left_ in
      let opt_name : GError + string :=
        match valid_func1 with
        | Some valid_options => nmc_string_is_valid left_ (valid_options setting)
        | None => inr left_
        end in
      match opt_name with
      | inl e => inl e
      | inr opt_name =>
          let opt_val := g_strchug right_ in
          let opt_val : GError + string :=
            match valid_func2 with
            | Some validate => validate left_ opt_val
            | None => inr opt_val
            end in
          match opt_val with
          | inl e => inl e
          | inr opt_val => inr (add_func setting opt_name opt_val)
          end
      end
  end.

Definition DEFINE_SETTER_OPTIONS
    (add_func : NMSetting -> string -> string -> NMSetting)
    (valid_func1 : option (NMSetting -> list string))
    (valid_func2 : option (string -> string -> GError + string))
    (info : NMMetaPropertyInfo) (setting : NMSetting) (value : option string)
  : set_result :=
  match value with
  | None => return_reset_default info setting
  | Some value =>
      match nm_utils_strsplit_set value "," with
      | None => return_TRUE setting
      | Some strv => set_loop (options_body add_func valid_func1 valid_func2) setting strv
      end
  end.

(** [DEFINE_SETTER_MAC_BLACKLIST (def_func, s_macro, add_func)]: a first
    loop checks every item, a second one adds them. *)
Definition DEFINE_SETTER_MAC_BLACKLIST (add_func : NMSetting -> string -> NMSetting)
    (info : NMMetaPropertyInfo) (setting : NMSetting) (value : option string)
  : set_result :=
  match value with
  | None => return_reset_default info setting
  | Some value =>
      let strv := default [] (nm_utils_strsplit_set value delimiters_space_tab_comma) in
      match fold_until_error
              (fun (_ : unit) (item : string) =>
                 if nm_utils_hwaddr_aton_eth item then inr tt
                 else inl (g_set_error_1_0
                             (gettext "'" +:+ item +:+ "' is not a valid MAC")))
              tt strv with
      | inl e => return_FALSE e setting
      | inr _ => return_TRUE (fold_left add_func strv setting)
      end
  end.

(** *** The IP configuration lists *)

Definition NM_SETTING_IP_CONFIG_ADDRESSES : string := "addresses".
Definition NM_SETTING_IP_CONFIG_ROUTES : string := "routes".

Definition setting_addresses (setting : NMSetting) : list NMIPAddress :=
  match setting_values setting !! NM_SETTING_IP_CONFIG_ADDRESSES with
  | Some (GValue_addresses l) => l
  | _ => []
  end.

Definition setting_routes (setting : NMSetting) : list NMIPRoute :=
  match setting_values setting !! NM_SETTING_IP_CONFIG_ROUTES with
  | Some (GValue_routes l) => l
  | _ => []
  end.

(** Modelled from the spec: the list accessors of [NMSettingIPConfig] in
    libnm-core (not part of this file): "validated items appended in
    order", removal by position and "by value-equality". *)
Definition nm_setting_ip_config_add_address (setting : NMSetting) (addr : NMIPAddress)
  : NMSetting :=
  g_object_set setting NM_SETTING_IP_CONFIG_ADDRESSES
    (GValue_addresses (setting_addresses setting ++ [addr])%list).

Definition nm_setting_ip_config_add_route (setting : NMSetting) (route : NMIPRoute)
  : NMSetting :=
  g_object_set setting NM_SETTING_IP_CONFIG_ROUTES
    (GValue_routes (setting_routes setting ++ [route])%list).

Definition nm_setting_ip_config_clear_routes (setting : NMSetting) : NMSetting :=
  g_object_set setting NM_SETTING_IP_CONFIG_ROUTES (GValue_routes []).

Definition ip_addresses_body (family : addr_family) (setting : NMSetting) (item : string)
  : GError + NMSetting :=
  match _parse_ip_address family item with
  | inl e => inl e
  | inr addr => inr (nm_setting_ip_config_add_address setting addr)
  end.

Definition ip_routes_body (family : addr_family) (setting : NMSetting) (item : string)
  : GError + NMSetting :=
  match _parse_ip_route family item with
  | inl e => inl e
  | inr route => inr (nm_setting_ip_config_add_route setting route)
  end.

(** [for (iter = strv; *iter; iter++)]: [strv] is read without a test. *)
Definition _set_fcn_ip4_config_addresses (info : NMMetaPropertyInfo) (setting : NMSetting)
    (value : option string) : set_result :=
  match value with
  | None => return_reset_default info setting
  | Some value =>
      match nm_utils_strsplit_set value "," with
      | None => NullDereference
      | Some strv => set_loop (ip_addresses_body AF_INET) setting strv
      end
  end.

(** [for (iter = strv; strv && *iter; iter++)] *)
Definition _set_fcn_ip6_config_addresses (info : NMMetaPropertyInfo) (setting : NMSetting)
    (value : option string) : set_result :=
  match value with
  | None => return_reset_default info setting
  | Some value =>
      match nm_utils_strsplit_set value "," with
      | None => return_TRUE setting
      | Some strv => set_loop (ip_addresses_body AF_INET6) setting strv
      end
  end.

Definition _set_fcn_ip4_config_routes (info : NMMetaPropertyInfo) (setting : NMSetting)
    (value : option string) : set_result :=
  match value with
  | None => return_TRUE (nm_setting_ip_config_clear_routes setting)
  | Some value =>
      match nm_utils_strsplit_set value "," with
      | None => NullDereference
      | Some strv => set_loop (ip_routes_body AF_INET) setting strv
      end
  end.

Definition _set_fcn_ip6_config_routes (info : NMMetaPropertyInfo) (setting : NMSetting)
    (value : option string) : set_result :=
  match value with
  | None => return_reset_default info setting
  | Some value =>
      match nm_utils_strsplit_set value "," with
      | None => return_TRUE setting
      | Some strv => set_loop (ip_routes_body AF_INET6) setting strv
      end
  end.

(** *** DCB *)

Definition dcb_parse_item (max other : Z) (out_array : list Z) (item : string)
  : GError + list Z :=
  let item := g_strstrip item in
  let num := _nm_utils_ascii_str_to_int64 item 10 0 (if other =? 0 then max else other) (-1) in
  (* If number is greater than 'max' it must equal 'other' *)
  if (num =? -1) || (negb (other =? 0) && (max <? num) && negb (num =? other)) then
    if negb (other =? 0) then
      inl (g_set_error_1_0
             (gettext "'" +:+ item +:+ "' not a number between 0 and " +:+ fmt_d max
              +:+ " (inclusive) or " +:+ fmt_d other))
    else
      inl (g_set_error_1_0
             (gettext "'" +:+ item +:+ "' not a number between 0 and " +:+ fmt_d max
              +:+ " (inclusive)"))
  else inr (out_array ++ [num])%list.

(** The array that the function fills, or the error. *)
Definition dcb_parse_uint_array (val : string) (max other : Z) : GError + list Z :=
  let items := g_strsplit_set val "," in
  if negb (Nat.eqb (length items) 8) then
    inl (g_set_error_1_0 (gettext "must contain 8 comma-separated numbers"))
  else fold_until_error (dcb_parse_item max other) [] items.

(** The loop [for (i = 0; i < 8; i++) { sum += nums[i]; if (nums[i] > 100
    || sum > 100) break; }] on a [guint] sum. *)
Fixpoint dcb_percent_sum (nums : list Z) (sum : Z) : Z :=
  match nums with
  | [] => sum
  | n :: rest =>
      let sum := (sum + n) mod 2 ^ 32 in
      if (100 <? n) || (100 <? sum) then sum else dcb_percent_sum rest sum
  end.

Definition NM_SETTING_DCB_PRIORITY_GROUP_FLAGS : string := "priority-group-flags".
Definition NM_SETTING_DCB_FLAG_ENABLE : Z := 1.

(** The warning of [dcb_check_feature_enabled], if it is sent. *)
Definition dcb_check_feature_enabled (s_dcb : NMSetting) (flags_prop : string) : list string :=
  let flags :=
    match setting_values s_dcb !! flags_prop with
    | Some (GValue_int n) => n
    | _ => 0
    end in
  if Z.land flags NM_SETTING_DCB_FLAG_ENABLE =? 0 then
    ["changes will have no effect until '" +:+ flags_prop +:+ "' includes 1 (enabled)"]
  else [].

Definition _set_fcn_dcb (info : NMMetaPropertyInfo) (setting : NMSetting)
    (value : option string) : set_result :=
  match value with
  | None => return_reset_default info setting
  | Some value =>
      match property_typ_data info with
      | None => NullDereference
      | Some td =>
          match subtype td with
          | subtype_is_dcb dcb =>
              match dcb_parse_uint_array value (dcb_max dcb) (dcb_other dcb) with
              | inl e => return_FALSE e setting
              | inr nums =>
                  if dcb_is_percent dcb && negb (dcb_percent_sum nums 0 =? 100) then
                    return_FALSE
                      (g_set_error_1_0 (gettext "bandwidth percentages must total 100%%"))
                      setting
                  else
                    let setting' :=
                      fold_left (fun st '(i, n) => dcb_set_fcn dcb st i n)
                        (combine (map Z.of_nat (seq 0 8)) nums) setting in
                    Returned true None setting'
                      (dcb_check_feature_enabled setting' NM_SETTING_DCB_PRIORITY_GROUP_FLAGS)
              end
          | _ => NullDereference
          end
      end
  end.

(** *** The connection type *)

Definition NM_SETTING_CONNECTION_UUID : string := "uuid".
Definition NM_SETTING_CONNECTION_TYPE : string := "type".

(** Modelled from the spec: [nm_setting_connection_get_uuid] of libnm-core
    (not part of this file): the "persistent identifier" of the
    connection, [NULL] while it has none. *)
Definition nm_setting_connection_get_uuid (setting : NMSetting) : option string :=
  match setting_values setting !! NM_SETTING_CONNECTION_UUID with
  | Some (GValue_string s) => s
  | _ => None
  end.

Definition _set_fcn_connection_type (info : NMMetaPropertyInfo) (setting : NMSetting)
    (value : option string) : set_result :=
  if bool_decide (is_Some (nm_setting_connection_get_uuid setting)) then
    (* Don't allow setting type unless the connection is brand new. *)
    return_FALSE (g_set_error_1_0 (gettext "Can not change the connection type")) setting
  else
    match value with
    | None => return_TRUE (g_object_set setting (property_name info) (GValue_string None))
    | Some value =>
        let uuid := nm_utils_uuid_generate in
        let setting := g_object_set setting NM_SETTING_CONNECTION_UUID
                         (GValue_string (Some uuid)) in
        return_TRUE (g_object_set setting (property_name info) (GValue_string (Some value)))
    end.

(** ** Removers *)

Definition _remove_fcn_multilist (info : NMMetaPropertyInfo) (setting : NMSetting)
    (value : string) : set_result :=
  let idx := _nm_utils_ascii_str_to_int64 value 10 0 G_MAXINT64 (-1) in
  match property_typ_data info with
  | None => NullDereference
  | Some td =>
      match subtype td with
      | subtype_is_multilist ml =>
          if negb (idx =? -1) then
            let num := get_num_fcn ml setting in
            if idx <? num then return_TRUE (remove_by_idx_fcn ml setting idx)
            else return_TRUE setting
          else
            let value := nm_strstrip_avoid_copy value in
            match values_static td with
            | Some allowed =>
                match nmc_string_is_valid value allowed with
                | inl e => return_FALSE e setting
                | inr value => return_TRUE (remove_by_value_fcn ml setting value)
                end
            | None => return_TRUE (remove_by_value_fcn ml setting value)
            end
      | _ => NullDereference
      end
  end.

(** [_DEFINE_REMOVER_INDEX_OR_VALUE (def_func, s_macro, num_func,
    rem_func_idx, rem_func_cmd)] *)
Definition _DEFINE_REMOVER_INDEX_OR_VALUE
    (num_func : NMSetting -> Z)
    (rem_func_idx : NMSetting -> Z -> NMSetting)
    (rem_func_cmd : NMMetaPropertyInfo -> NMSetting -> string -> set_result)
    (info : NMMetaPropertyInfo) (setting : NMSetting) (value : string) : set_result :=
  let idx := _nm_utils_ascii_str_to_int64 value 10 0 G_MAXINT64 (-1) in
  if negb (idx =? -1) then
    let num := num_func setting in
    if idx <? num then return_TRUE (rem_func_idx setting idx)
    else return_TRUE setting
  else rem_func_cmd info setting value.

(** [DEFINE_REMOVER_INDEX_OR_VALUE_VALIDATING]; [rem_func_val] gives the
    error or the edited setting. *)
Definition DEFINE_REMOVER_INDEX_OR_VALUE_VALIDATING
    (num_func : NMSetting -> Z)
    (rem_func_idx : NMSetting -> Z -> NMSetting)
    (rem_func_val : NMSetting -> string -> GError + NMSetting)
  : NMMetaPropertyInfo -> NMSetting -> string -> set_result :=
  _DEFINE_REMOVER_INDEX_OR_VALUE num_func rem_func_idx
    (fun _ setting value =>
       match rem_func_val setting (nm_strstrip_avoid_copy value) with
       | inl e => return_FALSE e setting
       | inr setting' => return_TRUE setting'
       end).

(** [DEFINE_REMOVER_INDEX_OR_VALUE_DIRECT]: reads
    [property_info->property_typ_data->values_static] without testing
    [property_typ_data]. *)
Definition DEFINE_REMOVER_INDEX_OR_VALUE_DIRECT
    (num_func : NMSetting -> Z)
    (rem_func_idx : NMSetting -> Z -> NMSetting)
    (rem_func_val : NMSetting -> string -> NMSetting)
  : NMMetaPropertyInfo -> NMSetting -> string -> set_result :=
  _DEFINE_REMOVER_INDEX_OR_VALUE num_func rem_func_idx
    (fun info setting value =>
       let value := nm_strstrip_avoid_copy value in
       match property_typ_data info with
       | None => NullDereference
       | Some td =>
           match values_static td with
           | Some allowed =>
               match nmc_string_is_valid value allowed with
               | inl e => return_FALSE e setting
               | inr value => return_TRUE (rem_func_val setting value)
               end
           | None => return_TRUE (rem_func_val setting value)
           end
       end).

Definition DEFINE_REMOVER_INDEX_OR_VALUE_COMPLEX := DEFINE_REMOVER_INDEX_OR_VALUE_VALIDATING.

(** Removal of the [idx]-th element of a list, and of the first element
    equal to [x]. *)
Definition list_remove_index {A : Type} (l : list A) (idx : Z) : list A :=
  if idx <? 0 then l else delete (Z.to_nat idx) l.

Fixpoint list_remove_value {A : Type} `{EqDecision A} (x : A) (l : list A) : list A :=
  match l with
  | [] => []
  | y :: rest => if decide (y = x) then rest else y :: list_remove_value x rest
  end.

Definition nm_setting_ip_config_get_num_addresses (setting : NMSetting) : Z :=
  Z.of_nat (length (setting_addresses setting)).

Definition nm_setting_ip_config_remove_address (setting : NMSetting) (idx : Z) : NMSetting :=
  g_object_set setting NM_SETTING_IP_CONFIG_ADDRESSES
    (GValue_addresses (list_remove_index (setting_addresses setting) idx)).

Definition nm_setting_ip_config_remove_address_by_value (setting : NMSetting)
    (addr : NMIPAddress) : NMSetting :=
  g_object_set setting NM_SETTING_IP_CONFIG_ADDRESSES
    (GValue_addresses (list_remove_value addr (setting_addresses setting))).

(** [nm_setting_ip_config_get_addr_family] is a parameter of the setting
    class; the IPv4 and the IPv6 setting each fix it. *)
Definition _validate_and_remove_ip_address (addr_family : addr_family)
    (setting : NMSetting) (value : string) : GError + NMSetting :=
  match _parse_ip_address addr_family value with
  | inl e => inl e
  | inr addr => inr (nm_setting_ip_config_remove_address_by_value setting addr)
  end.

Definition _remove_fcn_ip_config_addresses (addr_family : addr_family)
  : NMMetaPropertyInfo -> NMSetting -> string -> set_result :=
  DEFINE_REMOVER_INDEX_OR_VALUE_COMPLEX
    nm_setting_ip_config_get_num_addresses
    nm_setting_ip_config_remove_address
    (_validate_and_remove_ip_address addr_family).

(** ** The function tables *)

Definition _pt_gobject_string : NMMetaPropertyType :=
  {| get_fcn := _get_fcn_gobject;
     set_fcn := Some _set_fcn_gobject_string;
     remove_fcn := None |}.

Definition _pt_gobject_bool : NMMetaPropertyType :=
  {| get_fcn := _get_fcn_gobject;
     set_fcn := Some _set_fcn_gobject_bool;
     remove_fcn := None |}.

Definition _pt_multilist : NMMetaPropertyType :=
  {| get_fcn := _get_fcn_gobject;
     set_fcn := Some _set_fcn_multilist;
     remove_fcn := Some _remove_fcn_multilist |}.

End Marshalling.

(** ** Registry entries and store accessors used below *)

(** Modelled from the spec: the list accessors that libnm-core (not part of
    this file) provides for a string-list property, as the registry binds
    them into the [multilist] member: element count, "validated items
    appended in order", removal by position, removal "by value-equality". *)
Definition setting_strv (prop : string) (setting : NMSetting) : list string :=
  match setting_values setting !! prop with
  | Some (GValue_strv (Some l)) => l
  | _ => []
  end.

Definition strv_set (prop : string) (setting : NMSetting) (l : list string) : NMSetting :=
  mkNMSetting (setting_class setting)
    (<[prop := GValue_strv (Some l)]> (setting_values setting)).

Definition strv_multilist (prop : string) : subtype_multilist :=
  {| get_num_fcn := fun setting => Z.of_nat (length (setting_strv prop setting));
     add_fcn := fun setting item => strv_set prop setting (setting_strv prop setting ++ [item])%list;
     remove_by_idx_fcn := fun setting idx =>
       strv_set prop setting (list_remove_index (setting_strv prop setting) idx);
     remove_by_value_fcn := fun setting value =>
       strv_set prop setting (list_remove_value value (setting_strv prop setting)) |}.

(** The entry of [NM_SETTING_802_1X_EAP]. *)
Definition NM_SETTING_802_1X_EAP : string := "eap".

Definition property_info_802_1x_eap : NMMetaPropertyInfo :=
  {| property_name := NM_SETTING_802_1X_EAP;
     is_secret := false;
     property_typ_data :=
       Some {| typ_flags := [];
               values_static :=
                 Some ["leap"; "md5"; "tls"; "peap"; "ttls"; "sim"; "fast"; "pwd"];
               subtype := subtype_is_multilist (strv_multilist NM_SETTING_802_1X_EAP) |} |}.

(** The entry of [NM_SETTING_802_1X_ALTSUBJECT_MATCHES]: no [values_static]. *)
Definition NM_SETTING_802_1X_ALTSUBJECT_MATCHES : string := "altsubject-matches".

Definition property_info_802_1x_altsubject_matches : NMMetaPropertyInfo :=
  {| property_name := NM_SETTING_802_1X_ALTSUBJECT_MATCHES;
     is_secret := false;
     property_typ_data :=
       Some {| typ_flags := [];
               values_static := None;
               subtype :=
                 subtype_is_multilist (strv_multilist NM_SETTING_802_1X_ALTSUBJECT_MATCHES) |} |}.

(** The entries of [NM_SETTING_IP_CONFIG_DNS_SEARCH] (no
    [property_typ_data]), of the address and route lists and of the
    connection type. *)
Definition NM_SETTING_IP_CONFIG_DNS_SEARCH : string := "dns-search".

Definition property_info_plain (name : string) : NMMetaPropertyInfo :=
  {| property_name := name; is_secret := false; property_typ_data := None |}.

Definition _remove_fcn_ip_config_dns_search `{Collaborators}
  : NMMetaPropertyInfo -> NMSetting -> string -> set_result :=
  DEFINE_REMOVER_INDEX_OR_VALUE_DIRECT
    (get_num_fcn (strv_multilist NM_SETTING_IP_CONFIG_DNS_SEARCH))
    (remove_by_idx_fcn (strv_multilist NM_SETTING_IP_CONFIG_DNS_SEARCH))
    (remove_by_value_fcn (strv_multilist NM_SETTING_IP_CONFIG_DNS_SEARCH)).

(** [_validate_vpn_hash_value] *)
Definition _validate_vpn_hash_value (option_ value : string) : GError + string :=
  match value with
  | EmptyString => inl (g_set_error_1_0 (gettext "'" +:+ option_ +:+ "' cannot be empty"))
  | _ => inr value
  end.

(** Modelled from the spec: [nm_setting_vpn_add_data_item] of libnm-core
    (not part of this file): the key is bound to the value in the option
    map of the setting. *)
Definition NM_SETTING_VPN_DATA : string := "data".

Definition setting_hash (prop : string) (setting : NMSetting) : gmap string string :=
  match setting_values setting !! prop with
  | Some (GValue_hash (Some h)) => h
  | _ => ∅
  end.

Definition nm_setting_vpn_add_data_item (setting : NMSetting) (key item : string) : NMSetting :=
  mkNMSetting (setting_class setting)
    (<[NM_SETTING_VPN_DATA := GValue_hash (Some (<[key := item]> (setting_hash NM_SETTING_VPN_DATA setting)))]>
       (setting_values setting)).

Definition _set_fcn_vpn_data `{Collaborators}
  : NMMetaPropertyInfo -> NMSetting -> option string -> set_result :=
  DEFINE_SETTER_OPTIONS nm_setting_vpn_add_data_item None (Some _validate_vpn_hash_value).

(** [nm_setting_wired_add_mac_blacklist_item] on the string list
    ["mac-address-blacklist"]. *)
Definition NM_SETTING_WIRED_MAC_ADDRESS_BLACKLIST : string := "mac-address-blacklist".

Definition _set_fcn_wired_mac_address_blacklist `{Collaborators}
  : NMMetaPropertyInfo -> NMSetting -> option string -> set_result :=
  DEFINE_SETTER_MAC_BLACKLIST (add_fcn (strv_multilist NM_SETTING_WIRED_MAC_ADDRESS_BLACKLIST)).

(** The DCB entries: the slot accessors of libnm-core on an 8-slot array,
    and the bounds the registry gives. *)
Definition setting_uint_array (prop : string) (setting : NMSetting) : list Z :=
  match setting_values setting !! prop with
  | Some (GValue_uint_array a) => a
  | _ => replicate 8 0
  end.

Definition dcb_slots (prop : string) (max other : Z) (is_percent : bool) : subtype_dcb :=
  {| dcb_get_fcn := fun setting i => default 0 (setting_uint_array prop setting !! Z.to_nat i);
     dcb_set_fcn := fun setting i n =>
       mkNMSetting (setting_class setting)
         (<[prop := GValue_uint_array (<[Z.to_nat i := n]> (setting_uint_array prop setting))]>
            (setting_values setting));
     dcb_max := max;
     dcb_other := other;
     dcb_is_percent := is_percent |}.

Definition property_info_dcb (prop : string) (max other : Z) (is_percent : bool)
  : NMMetaPropertyInfo :=
  {| property_name := prop;
     is_secret := false;
     property_typ_data :=
       Some {| typ_flags := []; values_static := None;
               subtype := subtype_is_dcb (dcb_slots prop max other is_percent) |} |}.

Definition NM_SETTING_DCB_PRIORITY_GROUP_ID : string := "priority-group-id".
Definition NM_SETTING_DCB_PRIORITY_GROUP_BANDWIDTH : string := "priority-group-bandwidth".
Definition NM_SETTING_DCB_PRIORITY_BANDWIDTH : string := "priority-bandwidth".
Definition NM_SETTING_DCB_PRIORITY_TRAFFIC_CLASS : string := "priority-traffic-class".

Definition property_info_dcb_priority_group_id : NMMetaPropertyInfo :=
  property_info_dcb NM_SETTING_DCB_PRIORITY_GROUP_ID 7 15 false.

Definition property_info_dcb_priority_group_bandwidth : NMMetaPropertyInfo :=
  property_info_dcb NM_SETTING_DCB_PRIORITY_GROUP_BANDWIDTH 100 0 true.

Definition property_info_dcb_priority_bandwidth : NMMetaPropertyInfo :=
  property_info_dcb NM_SETTING_DCB_PRIORITY_BANDWIDTH 100 0 false.

Definition property_info_dcb_priority_traffic_class : NMMetaPropertyInfo :=
  property_info_dcb NM_SETTING_DCB_PRIORITY_TRAFFIC_CLASS 7 0 false.

(** ** A reference implementation of the collaborators

    Used to run the embedding on concrete text.  The general statements of
    Part II do not depend on it. *)

(** glibc's [inet_pton4]. *)
Fixpoint inet_pton4 (src : string) (saw_digit : bool) (octets : Z) (cur : Z) : bool :=
  match src with
  | EmptyString => negb (octets <? 4)
  | String ch src' =>
      let n := Z.of_N (N_of_ascii ch) in
      if (48 <=? n) && (n <=? 57) then
        let new := cur * 10 + (n - 48) in
        if saw_digit && (cur =? 0) then false
        else if 255 <? new then false
        else if saw_digit then inet_pton4 src' true octets new
        else if 4 <? octets + 1 then false
        else inet_pton4 src' true (octets + 1) new
      else if (n =? 46) && saw_digit then
        if octets =? 4 then false else inet_pton4 src' false octets 0
      else false
  end.

Definition hex_digit_value (c : ascii) : option Z :=
  match digit_value c with
  | Some d => if d <? 16 then Some d else None
  | None => None
  end.

(** glibc's [inet_pton6], after the leading [::] test: [tp] counts the
    bytes written, [colonp] records a [::], [curtok] is the text of the
    current group. *)
Fixpoint inet_pton6_loop (src curtok : string) (tp : Z) (colonp : bool)
    (xdigits_seen val : Z) : bool :=
  match src with
  | EmptyString =>
      let '(ok, tp) :=
        if 0 <? xdigits_seen then (tp + 2 <=? 16, tp + 2) else (true, tp) in
      ok && (if colonp then negb (tp =? 16) else tp =? 16)
  | String ch src' =>
      match hex_digit_value ch with
      | Some digit =>
          if xdigits_seen =? 4 then false
          else inet_pton6_loop src' curtok tp colonp (xdigits_seen + 1) (val * 16 + digit)
      | None =>
          if Ascii.eqb ch ":"%char then
            if xdigits_seen =? 0 then
              if colonp then false else inet_pton6_loop src' src' tp true 0 0
            else if negb (str_nonempty src') then false
            else if 16 <? tp + 2 then false
            else inet_pton6_loop src' src' (tp + 2) colonp 0 0
          else if Ascii.eqb ch "."%char && (tp + 4 <=? 16) && inet_pton4 curtok false 0 0 then
            let tp := tp + 4 in
            if colonp then negb (tp =? 16) else tp =? 16
          else false
      end
  end.

Definition inet_pton6 (src : string) : bool :=
  match src with
  | EmptyString => false
  | String c rest =>
      if Ascii.eqb c ":"%char then
        match rest with
        | String c' _ => if Ascii.eqb c' ":"%char then inet_pton6_loop rest rest 0 false 0 0
                         else false
        | EmptyString => false
        end
      else inet_pton6_loop src src 0 false 0 0
  end.

Definition reference_ipaddr_valid (family : addr_family) (ip : string) : bool :=
  match family with
  | AF_INET => inet_pton4 ip false 0 0
  | AF_INET6 => inet_pton6 ip
  end.

(** Text that is already canonical stays; the unspecified address becomes
    [NULL] under [null_any]. *)
Definition reference_canonicalize_ip (family : addr_family) (ip : string) (null_any : bool)
  : option string :=
  if null_any && (String.eqb ip "0.0.0.0" || String.eqb ip "::") then None else Some ip.

(** Route attributes: a few names of [nm_ip_route_get_variant_attribute_spec]. *)
Definition reference_parse_variant_attributes (tok : string)
  : GError + list (string * GVariant) :=
  match strchr_cut "=" tok with
  | None => inl (g_set_error_1_0 ("missing key-value separator '=' after '" +:+ tok +:+ "'"))
  | Some (key, value) =>
      if existsb (String.eqb key) ["mtu"; "cwnd"; "window"; "initcwnd"; "initrwnd"; "table"] then
        let n := _nm_utils_ascii_str_to_int64 value 10 0 G_MAXUINT32 (-1) in
        if n =? -1 then inl (g_set_error_1_0 ("invalid uint32 value '" +:+ value +:+ "' for attribute '" +:+ key +:+ "'"))
        else inr [(key, GVariantUint32 n)]
      else if existsb (String.eqb key) ["onlink"; "lock-mtu"; "lock-cwnd"] then
        if String.eqb value "true" then inr [(key, GVariantBoolean true)]
        else if String.eqb value "false" then inr [(key, GVariantBoolean false)]
        else inl (g_set_error_1_0 ("invalid boolean value '" +:+ value +:+ "' for attribute '" +:+ key +:+ "'"))
      else if existsb (String.eqb key) ["src"; "from"; "type"] then
        inr [(key, GVariantString value)]
      else inl (g_set_error_1_0 ("unknown attribute '" +:+ key +:+ "'"))
  end.

Definition reference_attribute_validate (key : string) (value : GVariant)
    (family : addr_family) : option GError :=
  match value with
  | GVariantString s =>
      if (String.eqb key "src" || String.eqb key "from")
         && negb (reference_ipaddr_valid family s)
      then Some (g_set_error_1_0 ("'" +:+ s +:+ "' is not a valid " +:+ family_name family
                                  +:+ " address"))
      else None
  | _ => None
  end.

Definition reference_watcher_error (msg : string) : GError :=
  mkGError NM_CONNECTION_ERROR NM_CONNECTION_ERROR_FAILED msg.

Definition reference_new_ethtool (delay_up delay_down : Z) : GError + NMTeamLinkWatcher :=
  if (delay_up <? 0) || (G_MAXINT32 <? delay_up) then
    inl (reference_watcher_error "delay-up is out of range [0, 2147483647]")
  else if (delay_down <? 0) || (G_MAXINT32 <? delay_down) then
    inl (reference_watcher_error "delay-down is out of range [0, 2147483647]")
  else inr (WatcherEthtool delay_up delay_down).

Definition reference_new_nsna_ping (init_wait interval missed_max : Z)
    (target_host : option string) : GError + NMTeamLinkWatcher :=
  match target_host with
  | None => inl (reference_watcher_error "Missing target-host in nsna_ping link watcher")
  | Some th => inr (WatcherNsnaPing init_wait interval missed_max th)
  end.

Definition reference_new_arp_ping2 (init_wait interval missed_max vlanid : Z)
    (target_host source_host : option string) (flags : Z) : GError + NMTeamLinkWatcher :=
  match target_host, source_host with
  | Some th, Some sh => inr (WatcherArpPing init_wait interval missed_max vlanid th sh flags)
  | None, _ => inl (reference_watcher_error "Missing target-host in arp_ping link watcher")
  | _, None => inl (reference_watcher_error "Missing source-host in arp_ping link watcher")
  end.

Definition ascii_tolower (c : ascii) : ascii :=
  let n := N_of_ascii c in
  if (65 <=? n)%N && (n <=? 90)%N then ascii_of_N (n + 32) else c.

(** [g_ascii_strncasecmp (input, p, strlen (input)) == 0] *)
Fixpoint prefix_nocase (input p : string) : bool :=
  match input, p with
  | EmptyString, _ => true
  | String a input', String b p' =>
      Ascii.eqb (ascii_tolower a) (ascii_tolower b) && prefix_nocase input' p'
  | String _ _, EmptyString => false
  end.

Definition join_with (sep : string) (l : list string) : string :=
  match l with
  | [] => ""
  | x :: rest => fold_left (fun acc y => acc +:+ sep +:+ y) rest x
  end.

(** The scan of the allowed values: an exact length match wins at once, a
    second prefix match is an ambiguity. *)
Fixpoint reference_string_is_valid_scan (input : string) (allowed : list string)
    (ret : option string) : GError + option string :=
  match allowed with
  | [] => inr ret
  | p :: rest =>
      if prefix_nocase input p then
        if Nat.eqb (String.length input) (String.length p) then inr (Some p)
        else match ret with
             | None => reference_string_is_valid_scan input rest (Some p)
             | Some r =>
                 inl (mkGError (QuarkRaw 1) (CodeRaw 1)
                        ("'" +:+ input +:+ "' is ambiguous (" +:+ r +:+ " x " +:+ p +:+ ")"))
             end
      else reference_string_is_valid_scan input rest ret
  end.

Definition reference_string_is_valid (input : string) (allowed : list string)
  : GError + string :=
  match input with
  | EmptyString =>
      inl (g_set_error_1_0 ("missing name, try one of [" +:+ join_with ", " allowed +:+ "]"))
  | _ =>
      match reference_string_is_valid_scan input allowed None with
      | inl e => inl e
      | inr (Some r) => inr r
      | inr None =>
          inl (g_set_error_1_0
                 ("'" +:+ input +:+ "' not among [" +:+ join_with ", " allowed +:+ "]"))
      end
  end.

Definition reference_string_to_bool (str : string) : GError + bool :=
  if String.eqb str "o" then
    inl (g_set_error_1_0 ("'" +:+ str +:+ "' is ambiguous (on x off)"))
  else
    match reference_string_is_valid str ["true"; "yes"; "on"; "1"] with
    | inr _ => inr true
    | inl _ =>
        match reference_string_is_valid str ["false"; "no"; "off"; "0"] with
        | inr _ => inr false
        | inl _ =>
            inl (g_set_error_1_0
                   ("'" +:+ str +:+ "' is not valid; use [true, yes, on] or [false, no, off]"))
        end
    end.

(** Six groups of one or two hexadecimal digits, separated by [:] or [-]. *)
Definition reference_hwaddr_aton_eth (asc : string) : bool :=
  let '(w, ws) := split_fields ":-" asc in
  Nat.eqb (length (w :: ws)) 6
  && forallb (fun g =>
                match g with
                | String a EmptyString => bool_decide (is_Some (hex_digit_value a))
                | String a (String b EmptyString) =>
                    bool_decide (is_Some (hex_digit_value a))
                    && bool_decide (is_Some (hex_digit_value b))
                | _ => false
                end) (w :: ws).

(** The value tables of two flags classes and one enumeration class. *)
Definition reference_class_values (gtype : GType) : list (string * Z) :=
  match gtype with
  | G_TYPE_FLAGS "NMIPTunnelFlags" =>
      [("none", 0); ("ip6-ign-encap-limit", 1); ("ip6-use-orig-tclass", 2);
       ("ip6-use-orig-flowlabel", 4); ("ip6-mip6-dev", 8); ("ip6-rcv-dscp-copy", 16);
       ("ip6-use-orig-fwmark", 32)]
  | G_TYPE_FLAGS "NMSettingWirelessSecurityWpsMethod" =>
      [("default", 0); ("disabled", 1); ("auto", 2); ("pbc", 4); ("pin", 8)]
  | G_TYPE_ENUM "NMConnectionMultiConnect" =>
      [("default", 0); ("single", 1); ("manual-multiple", 2); ("multiple", 3)]
  | _ => []
  end.

(** The names of the flags of [value] that the class knows, first match
    first, then the bits left over in hexadecimal. *)
Fixpoint reference_flags_names (values : list (string * Z)) (uvalue : Z) (first : bool)
  : list string * Z :=
  match values with
  | [] => ([], uvalue)
  | (nick, fv) :: rest =>
      if (if uvalue =? 0 then first && (fv =? 0)
          else negb (fv =? 0) && (Z.land uvalue fv =? fv))
      then
        let '(names, left_over) :=
          reference_flags_names rest (Z.land uvalue (Z.lnot fv)) false in
        (nick :: names, left_over)
      else reference_flags_names rest uvalue first
  end.

Definition reference_enum_to_str (gtype : GType) (value : Z) : string :=
  match gtype with
  | G_TYPE_ENUM _ =>
      match List.find (fun '(_, v) => v =? value) (reference_class_values gtype) with
      | Some (nick, _) => nick
      | None => fmt_d value
      end
  | G_TYPE_FLAGS _ =>
      let uvalue := value mod 2 ^ 32 in
      let '(names, left_over) := reference_flags_names (reference_class_values gtype) uvalue true in
      join_with ", " (names ++ (if left_over =? 0 then [] else ["0x" +:+ fmt_d left_over]))%list
  | _ => ""
  end.

Definition reference_value_transform_string (v : GValue) : option string :=
  match v with
  | GValue_boolean b => Some (if b then "TRUE" else "FALSE")
  | GValue_int n => Some (fmt_d n)
  | GValue_string s => s
  | GValue_strv (Some l) => Some (join_with "," l)
  | _ => None
  end.

Definition reference_collaborators : Collaborators :=
  {| nm_utils_ipaddr_valid := reference_ipaddr_valid;
     canonicalize_ip := reference_canonicalize_ip;
     nm_utils_parse_variant_attributes := reference_parse_variant_attributes;
     nm_ip_route_attribute_validate := reference_attribute_validate;
     nm_team_link_watcher_new_ethtool := reference_new_ethtool;
     nm_team_link_watcher_new_nsna_ping := reference_new_nsna_ping;
     nm_team_link_watcher_new_arp_ping2 := reference_new_arp_ping2;
     nmc_string_is_valid := reference_string_is_valid;
     nm_utils_hwaddr_aton_eth := reference_hwaddr_aton_eth;
     nm_utils_uuid_generate := "7c1d5a0e-3b52-4f0c-9a57-0d5c4e2b8f11";
     _nm_utils_enum_to_str_full := reference_enum_to_str;
     g_value_transform_string := reference_value_transform_string;
     nmc_string_to_bool := reference_string_to_bool |}.

(** ** Auxiliary definitions for Part II *)

(** The value of a decimal numeral read from the left with an accumulator,
    as [parse_digits] reads it. *)
Fixpoint uint_value_acc (d : Decimal.uint) (acc : Z) : Z :=
  match d with
  | Decimal.Nil => acc
  | Decimal.D0 l => uint_value_acc l (10 * acc)
  | Decimal.D1 l => uint_value_acc l (10 * acc + 1)
  | Decimal.D2 l => uint_value_acc l (10 * acc + 2)
  | Decimal.D3 l => uint_value_acc l (10 * acc + 3)
  | Decimal.D4 l => uint_value_acc l (10 * acc + 4)
  | Decimal.D5 l => uint_value_acc l (10 * acc + 5)
  | Decimal.D6 l => uint_value_acc l (10 * acc + 6)
  | Decimal.D7 l => uint_value_acc l (10 * acc + 7)
  | Decimal.D8 l => uint_value_acc l (10 * acc + 8)
  | Decimal.D9 l => uint_value_acc l (10 * acc + 9)
  end.

(** Every character of the text satisfies [p]. *)
Fixpoint string_forall (p : ascii -> bool) (s : string) : bool :=
  match s with
  | EmptyString => true
  | String c s' => p c && string_forall p s'
  end.

Definition is_decimal_digit (c : ascii) : bool :=
  let n := Z.of_N (N_of_ascii c) in (48 <=? n) && (n <=? 57).


(** The message of the prefix error and the message of the address error. *)
Definition prefix_error (family : addr_family) (plen : string) : GError :=
  g_set_error_invalid_argument
    ("invalid prefix '" +:+ plen +:+ "'; <1-" +:+ fmt_d (MAX_PREFIX family) +:+ "> allowed").

Definition address_error (family : addr_family) (ip : string) : GError :=
  g_set_error_invalid_argument
    ("invalid IP address: Invalid " +:+ family_name family +:+ " address '" +:+ ip +:+ "'").


(** The class of a route token, in the order in which the loop of
    [_parse_ip_route] tests it. *)
Inductive route_token_kind : Type :=
| TokenNextHop
| TokenMetric (m : Z)
| TokenAttribute
| TokenMalformed.

Definition route_token_kind_of `{Collaborators} (family : addr_family) (tok : string)
  : route_token_kind :=
  if nm_utils_ipaddr_valid family tok then TokenNextHop
  else
    let m := _nm_utils_ascii_str_to_int64 tok 10 0 G_MAXUINT32 (-1) in
    if negb (m =? -1) then TokenMetric m
    else if str_mem "=" tok then TokenAttribute
    else TokenMalformed.

Definition is_metric_token `{Collaborators} (family : addr_family) (tok : string) : Prop :=
  exists m, route_token_kind_of family tok = TokenMetric m.

(** The metric that the last metric token gives, [-1] without one. *)
Definition last_metric (metrics : list string) : Z :=
  match last metrics with
  | Some tok => _nm_utils_ascii_str_to_int64 tok 10 0 G_MAXUINT32 (-1)
  | None => -1
  end.

(** The prefix part of the destination token is absent or accepted. *)
Definition route_prefix_accepted (family : addr_family) (routev0 : string) : Prop :=
  match strchr_cut "/" routev0 with
  | Some (_, plen) => _nm_utils_ascii_str_to_int64 plen 10 1 (MAX_PREFIX family) (-1) <> -1
  | None => True
  end.

(** The three boolean keys of an [arp_ping] watcher and their flags. *)
Definition watcher_flag_keys : list (string * Z) :=
  [("validate-active", NM_TEAM_LINK_WATCHER_ARP_PING_FLAG_VALIDATE_ACTIVE);
   ("validate-inactive", NM_TEAM_LINK_WATCHER_ARP_PING_FLAG_VALIDATE_INACTIVE);
   ("send-always", NM_TEAM_LINK_WATCHER_ARP_PING_FLAG_SEND_ALWAYS)].



(** The token is not [key=...]. *)
Definition watcher_token_has_other_key (key tok : string) : Prop :=
  forall value, nm_utils_strsplit_set tok "=" <> Some [key; value].

(** The items written one after the other with commas between them. *)
Fixpoint comma_text (items : list string) : string :=
  match items with
  | [] => ""
  | [x] => x
  | x :: rest => x +:+ "," +:+ comma_text rest
  end.

(** A DCB slot value that the bounds of the property allow. *)
Definition dcb_value_allowed (max other n : Z) : Prop :=
  0 <= n <= max \/ (other <> 0 /\ n = other).

Definition sum_Z (nums : list Z) : Z := fold_right Z.add 0 nums.

(** The type that [_get_fcn_gobject_enum] formats with, when it does not
    return early: the one of [get_gtype] if the registry gives one, the
    one of the property otherwise. *)
Definition enum_getter_gtype (info : NMMetaPropertyInfo) (pspec : GParamSpec) : option GType :=
  let plain_int :=
    bool_decide (value_type pspec = G_TYPE_INT) || bool_decide (value_type pspec = G_TYPE_UINT) in
  match typ_data_get_gtype (property_typ_data info) with
  | Some gtype =>
      if plain_int || G_IS_ENUM_CLASS (value_type pspec) || G_IS_FLAGS_CLASS (value_type pspec)
      then Some gtype else None
  | None =>
      if G_IS_ENUM_CLASS (value_type pspec) || G_IS_FLAGS_CLASS (value_type pspec)
      then Some (value_type pspec) else None
  end.

(** The default rendering policy: the registry sets none of the
    [ENUM_GET] flags for the property. *)
Definition enum_default_policy (info : NMMetaPropertyInfo) : Prop :=
  match property_typ_data info with
  | Some td => typ_flags td = []
  | None => True
  end.

(** The properties that the generic reset leaves at their default: the
    string lists and the option maps, for which [NULL] and the empty one
    both count as the default, and the properties whose default is the
    initial value of their type. *)
Definition pspec_default_is_initial (pspec : GParamSpec) : Prop :=
  value_type pspec = G_TYPE_STRV
  \/ value_type pspec = G_TYPE_HASH_TABLE
  \/ default_value pspec = g_value_init (value_type pspec).

(** Settings used in the examples: the properties named below with their
    type and default, and the values held. *)
Definition example_setting (class : list (string * GParamSpec)) (values : list (string * GValue))
  : NMSetting :=
  mkNMSetting (list_to_map class) (list_to_map values).

Definition setting_802_1x (eap altsubject_matches : list string) (password : option string)
  : NMSetting :=
  example_setting
    [(NM_SETTING_802_1X_EAP, mkGParamSpec G_TYPE_STRV (GValue_strv None));
     (NM_SETTING_802_1X_ALTSUBJECT_MATCHES, mkGParamSpec G_TYPE_STRV (GValue_strv None));
     ("password", mkGParamSpec G_TYPE_STRING (GValue_string None))]
    [(NM_SETTING_802_1X_EAP, GValue_strv (Some eap));
     (NM_SETTING_802_1X_ALTSUBJECT_MATCHES, GValue_strv (Some altsubject_matches));
     ("password", GValue_string password)].

Definition setting_connection (uuid type : option string) : NMSetting :=
  example_setting
    [(NM_SETTING_CONNECTION_UUID, mkGParamSpec G_TYPE_STRING (GValue_string None));
     (NM_SETTING_CONNECTION_TYPE, mkGParamSpec G_TYPE_STRING (GValue_string None))]
    [(NM_SETTING_CONNECTION_UUID, GValue_string uuid);
     (NM_SETTING_CONNECTION_TYPE, GValue_string type)].

Definition setting_ip_tunnel (flags : Z) : NMSetting :=
  example_setting [("flags", mkGParamSpec G_TYPE_UINT (GValue_int 0))]
                  [("flags", GValue_int flags)].

(** The entry of [NM_SETTING_802_1X_PASSWORD]: a secret string; and the
    entry of [NM_SETTING_IP_TUNNEL_FLAGS]: a [guint] property rendered
    through the flags class [NMIPTunnelFlags], with no [typ_flags]. *)
Definition descriptor_802_1x_password `{Collaborators} : PropertyDescriptor :=
  {| property_info := {| property_name := "password"; is_secret := true;
                         property_typ_data := None |};
     property_type := _pt_gobject_string |}.

Definition property_info_ip_tunnel_flags : NMMetaPropertyInfo :=
  {| property_name := "flags";
     is_secret := false;
     property_typ_data :=
       Some {| typ_flags := []; values_static := None;
               subtype := subtype_is_gobject_enum
                            {| get_gtype := Some (G_TYPE_FLAGS "NMIPTunnelFlags") |} |} |}.

(** ** Further getters of the file *)

(** [printf ("%u")] of a [guint]. *)
Definition fmt_u (v : Z) : string := fmt_d (v mod 2 ^ 32).

(** [g_string_truncate (str, len)] for [len <= str->len], and the
    character [str->str[str->len - 1]]. *)
Definition g_string_truncate (str : string) (len : nat) : string := substring 0 len str.

Fixpoint string_last (str : string) : option ascii :=
  match str with
  | EmptyString => None
  | String c EmptyString => Some c
  | String _ rest => string_last rest
  end.

(** *** [_dump_team_link_watcher] *)

(** Modelled from the spec: the accessors of [NMTeamLinkWatcher] in
    libnm-core (not part of this file): the fields of the "three watcher
    kinds". *)
Definition nm_team_link_watcher_get_name (watcher : NMTeamLinkWatcher) : string :=
  match watcher with
  | WatcherEthtool _ _ => NM_TEAM_LINK_WATCHER_ETHTOOL
  | WatcherNsnaPing _ _ _ _ => NM_TEAM_LINK_WATCHER_NSNA_PING
  | WatcherArpPing _ _ _ _ _ _ _ => NM_TEAM_LINK_WATCHER_ARP_PING
  end.

Definition nm_team_link_watcher_get_delay_up (watcher : NMTeamLinkWatcher) : Z :=
  match watcher with WatcherEthtool delay_up _ => delay_up | _ => 0 end.

Definition nm_team_link_watcher_get_delay_down (watcher : NMTeamLinkWatcher) : Z :=
  match watcher with WatcherEthtool _ delay_down => delay_down | _ => 0 end.

Definition nm_team_link_watcher_get_init_wait (watcher : NMTeamLinkWatcher) : Z :=
  match watcher with
  | WatcherNsnaPing init_wait _ _ _ => init_wait
  | WatcherArpPing init_wait _ _ _ _ _ _ => init_wait
  | _ => 0
  end.

Definition nm_team_link_watcher_get_interval (watcher : NMTeamLinkWatcher) : Z :=
  match watcher with
  | WatcherNsnaPing _ interval _ _ => interval
  | WatcherArpPing _ interval _ _ _ _ _ => interval
  | _ => 0
  end.

Definition nm_team_link_watcher_get_missed_max (watcher : NMTeamLinkWatcher) : Z :=
  match watcher with
  | WatcherNsnaPing _ _ missed_max _ => missed_max
  | WatcherArpPing _ _ missed_max _ _ _ _ => missed_max
  | _ => 0
  end.

Definition nm_team_link_watcher_get_vlanid (watcher : NMTeamLinkWatcher) : Z :=
  match watcher with WatcherArpPing _ _ _ vlanid _ _ _ => vlanid | _ => -1 end.

Definition nm_team_link_watcher_get_target_host (watcher : NMTeamLinkWatcher)
  : option string :=
  match watcher with
  | WatcherNsnaPing _ _ _ target_host => Some target_host
  | WatcherArpPing _ _ _ _ target_host _ _ => Some target_host
  | _ => None
  end.

Definition nm_team_link_watcher_get_source_host (watcher : NMTeamLinkWatcher)
  : option string :=
  match watcher with WatcherArpPing _ _ _ _ _ source_host _ => Some source_host | _ => None end.

Definition nm_team_link_watcher_get_flags (watcher : NMTeamLinkWatcher) : Z :=
  match watcher with WatcherArpPing _ _ _ _ _ _ flags => flags | _ => 0 end.

(** [printf ("%s")] of a pointer that may be [NULL] (glibc). *)
Definition fmt_s (s : option string) : string := default "(null)" s.

(** [DUMP_WATCHER_INT (str, watcher, name, key)] *)
Definition DUMP_WATCHER_INT (str name : string) (_val : Z) : string :=
  if negb (_val =? 0) then str +:+ " " +:+ name +:+ "=" +:+ fmt_d _val else str.

Definition _dump_team_link_watcher (watcher : option NMTeamLinkWatcher) : option string :=
  match watcher with
  | None => None
  | Some watcher =>
      let name := nm_team_link_watcher_get_name watcher in
      let w_dump := "name=" +:+ name in
      if nm_streq name NM_TEAM_LINK_WATCHER_ETHTOOL then
        let w_dump :=
          DUMP_WATCHER_INT w_dump "delay-up" (nm_team_link_watcher_get_delay_up watcher) in
        let w_dump :=
          DUMP_WATCHER_INT w_dump "delay-down" (nm_team_link_watcher_get_delay_down watcher) in
        Some w_dump
      else
        (* NM_TEAM_LINK_WATCHER_NSNA_PING and NM_TEAM_LINK_WATCHER_ARP_PING *)
        let w_dump :=
          DUMP_WATCHER_INT w_dump "init-wait" (nm_team_link_watcher_get_init_wait watcher) in
        let w_dump :=
          DUMP_WATCHER_INT w_dump "interval" (nm_team_link_watcher_get_interval watcher) in
        let w_dump :=
          DUMP_WATCHER_INT w_dump "missed-max" (nm_team_link_watcher_get_missed_max watcher) in
        let w_dump :=
          w_dump +:+ " target-host=" +:+ fmt_s (nm_team_link_watcher_get_target_host watcher) in
        if nm_streq name NM_TEAM_LINK_WATCHER_NSNA_PING then Some w_dump
        else
          let w_dump :=
            DUMP_WATCHER_INT w_dump "vlanid" (nm_team_link_watcher_get_vlanid watcher) in
          let w_dump :=
            w_dump +:+ " source-host="
            +:+ fmt_s (nm_team_link_watcher_get_source_host watcher) in
          let flags := nm_team_link_watcher_get_flags watcher in
          let w_dump :=
            if negb (Z.land flags NM_TEAM_LINK_WATCHER_ARP_PING_FLAG_VALIDATE_ACTIVE =? 0)
            then w_dump +:+ " validate-active=true" else w_dump in
          let w_dump :=
            if negb (Z.land flags NM_TEAM_LINK_WATCHER_ARP_PING_FLAG_VALIDATE_INACTIVE =? 0)
            then w_dump +:+ " validate-inactive=true" else w_dump in
          let w_dump :=
            if negb (Z.land flags NM_TEAM_LINK_WATCHER_ARP_PING_FLAG_SEND_ALWAYS =? 0)
            then w_dump +:+ "send-always=true" else w_dump in
          Some w_dump
  end.

(** *** [_get_fcn_dcb] *)

(** The getters below read through [property_typ_data] without a test:
    [None] is the dereference of a [NULL] pointer. *)
Definition _get_fcn_dcb (info : NMMetaPropertyInfo) (setting : NMSetting)
    (get_type : NMMetaAccessorGetType) (get_flags : list NMMetaAccessorGetFlags)
  : option get_result :=
  if unsupported_get_type get_type then Some (mkGetResult None None)
  else
    match property_typ_data info with
    | None => None
    | Some td =>
        match subtype td with
        | subtype_is_dcb dcb =>
            let str :=
              fold_left
                (fun (str : string) (i : Z) =>
                   let v := dcb_get_fcn dcb setting i in
                   let str := if 0 <? i then str +:+ "," else str in
                   str +:+ fmt_u v)
                (map Z.of_nat (seq 0 8)) "" in
            Some (mkGetResult (Some str) None)
        | _ => None
        end
    end.

(** *** The flag words printed by hand *)

(** [NMSettingSecretFlags] and [NMVlanFlags], declared in libnm-core. *)
Definition NM_SETTING_SECRET_FLAG_AGENT_OWNED : Z := 1.
Definition NM_SETTING_SECRET_FLAG_NOT_SAVED : Z := 2.
Definition NM_SETTING_SECRET_FLAG_NOT_REQUIRED : Z := 4.

Definition NM_VLAN_FLAG_REORDER_HEADERS : Z := 1.
Definition NM_VLAN_FLAG_GVRP : Z := 2.
Definition NM_VLAN_FLAG_LOOSE_BINDING : Z := 4.
Definition NM_VLAN_FLAG_MVRP : Z := 8.

(** [if (flags & bit) g_string_append (flag_str, name);] *)
Definition append_if_flag (flags bit : Z) (flag_str name : string) : string :=
  if negb (Z.land flags bit =? 0) then flag_str +:+ name else flag_str.

(** The end of both functions: ["unknown"] after a bare ["("], else the
    trailing [", "] is chopped off; then [")"]. *)
Definition close_flag_str (flag_str : string) : string :=
  let flag_str :=
    if bool_decide (string_last flag_str = Some "("%char)
    then flag_str +:+ gettext "unknown"
    else g_string_truncate flag_str (String.length flag_str - 2) in
  flag_str +:+ ")".

Definition secret_flags_to_string (flags : Z) (get_type : NMMetaAccessorGetType) : string :=
  if negb (bool_decide (get_type = NM_META_ACCESSOR_GET_TYPE_PRETTY)) then fmt_u flags
  else if flags =? 0 then gettext "0 (none)"
  else
    let flag_str := fmt_u flags +:+ " (" in
    let flag_str :=
      append_if_flag flags NM_SETTING_SECRET_FLAG_AGENT_OWNED flag_str (gettext "agent-owned, ") in
    let flag_str :=
      append_if_flag flags NM_SETTING_SECRET_FLAG_NOT_SAVED flag_str (gettext "not saved, ") in
    let flag_str :=
      append_if_flag flags NM_SETTING_SECRET_FLAG_NOT_REQUIRED flag_str
        (gettext "not required, ") in
    close_flag_str flag_str.

(** The number is printed with ["%u"] in parsable mode and with ["%d"] in
    pretty mode. *)
Definition vlan_flags_to_string (flags : Z) (get_type : NMMetaAccessorGetType) : string :=
  if negb (bool_decide (get_type = NM_META_ACCESSOR_GET_TYPE_PRETTY)) then fmt_u flags
  else if flags =? 0 then gettext "0 (NONE)"
  else
    let flag_str := fmt_d (cast_int flags) +:+ " (" in
    let flag_str :=
      append_if_flag flags NM_VLAN_FLAG_REORDER_HEADERS flag_str (gettext "REORDER_HEADERS, ") in
    let flag_str := append_if_flag flags NM_VLAN_FLAG_GVRP flag_str (gettext "GVRP, ") in
    let flag_str :=
      append_if_flag flags NM_VLAN_FLAG_LOOSE_BINDING flag_str (gettext "LOOSE_BINDING, ") in
    let flag_str := append_if_flag flags NM_VLAN_FLAG_MVRP flag_str (gettext "MVRP, ") in
    close_flag_str flag_str.

(** [g_value_init (&val, G_TYPE_UINT); g_object_get_property (...);
    v = g_value_get_uint (&val);] *)
Definition g_object_get_uint (setting : NMSetting) (name : string) : Z :=
  match g_object_class_find_property setting name with
  | Some pspec =>
      match g_object_get_property setting name pspec with
      | GValue_int n => n
      | _ => 0
      end
  | None => 0
  end.

Definition _get_fcn_gobject_secret_flags (info : NMMetaPropertyInfo) (setting : NMSetting)
    (get_type : NMMetaAccessorGetType) (get_flags : list NMMetaAccessorGetFlags)
  : get_result :=
  if unsupported_get_type get_type then mkGetResult None None
  else
    let v := g_object_get_uint setting (property_name info) in
    mkGetResult (Some (secret_flags_to_string v get_type)) None.

(** [NMSettingDcbFlags], declared in libnm-core. *)
Definition NM_SETTING_DCB_FLAG_ADVERTISE : Z := 2.
Definition NM_SETTING_DCB_FLAG_WILLING : Z := 4.

(** The function has no [get_type]: it writes the same text in both
    modes. *)
Definition dcb_flags_to_string (flags : Z) : string :=
  if flags =? 0 then gettext "0 (disabled)"
  else
    let flag_str := fmt_d (cast_int flags) +:+ " (" in
    let flag_str := append_if_flag flags NM_SETTING_DCB_FLAG_ENABLE flag_str (gettext "enabled, ") in
    let flag_str :=
      append_if_flag flags NM_SETTING_DCB_FLAG_ADVERTISE flag_str (gettext "advertise, ") in
    let flag_str :=
      append_if_flag flags NM_SETTING_DCB_FLAG_WILLING flag_str (gettext "willing, ") in
    close_flag_str flag_str.

Definition _get_fcn_dcb_flags (info : NMMetaPropertyInfo) (setting : NMSetting)
    (get_type : NMMetaAccessorGetType) (get_flags : list NMMetaAccessorGetFlags)
  : get_result :=
  if unsupported_get_type get_type then mkGetResult None None
  else
    let v := g_object_get_uint setting (property_name info) in
    mkGetResult (Some (dcb_flags_to_string v)) None.

Section VlanFlags.

(** [nm_setting_vlan_get_flags] of libnm-core (not part of this file). *)
Variable nm_setting_vlan_get_flags : NMSetting -> Z.

Definition _get_fcn_vlan_flags (info : NMMetaPropertyInfo) (setting : NMSetting)
    (get_type : NMMetaAccessorGetType) (get_flags : list NMMetaAccessorGetFlags)
  : get_result :=
  if unsupported_get_type get_type then mkGetResult None None
  else
    let flags := nm_setting_vlan_get_flags setting in
    mkGetResult (Some (vlan_flags_to_string flags get_type)) (Some (flags =? 0)).

End VlanFlags.

(** *** [_get_fcn_ip_config_addresses] *)


(** ** Further setters of the file *)

(** *** Lists that are checked before they are applied *)

(** [verify_string_list (strv, prop, validate_func, error)]: [None] is
    [TRUE]. *)
Definition verify_string_list (strv : option (list string))
    (validate_func : option (string -> bool)) : option GError :=
  match strv with
  | None => None
  | Some strv =>
      match fold_until_error
              (fun (_ : unit) (item : string) =>
                 if String.eqb item "" then inr tt
                 else
                   match validate_func with
                   | Some validate =>
                       if validate item then inr tt
                       else inl (g_set_error_1_0 (gettext "'" +:+ item +:+ "' is not valid"))
                   | None => inr tt
                   end)
              tt strv with
      | inl e => Some e
      | inr _ => None
      end
  end.

Definition PERM_USER_PREFIX : string := "user:".

(** [strncmp (s, prefix, strlen (prefix)) == 0], with [s + strlen (prefix)]. *)
Fixpoint str_skip_prefix (prefix s : string) : option string :=
  match prefix, s with
  | EmptyString, _ => Some s
  | String a prefix', String b s' =>
      if Ascii.eqb a b then str_skip_prefix prefix' s' else None
  | String _ _, EmptyString => None
  end.

Definition permissions_valid (perm : option string) : bool :=
  match perm with
  | None => false
  | Some EmptyString => false
  | Some perm =>
      match str_skip_prefix PERM_USER_PREFIX perm with
      | Some rest =>
          if (String.length perm <=? String.length PERM_USER_PREFIX)%nat
             || str_mem ":"%char rest
          then false else true
      | None => if str_mem ":"%char perm then false else true
      end
  end.

Section CheckedLists.

(** [nm_setting_connection_add_permission (setting, ptype, pitem, NULL)]
    of libnm-core. *)
Variable nm_setting_connection_add_permission : NMSetting -> string -> string -> NMSetting.

Definition _set_fcn_connection_permissions (info : NMMetaPropertyInfo) (setting : NMSetting)
    (value : option string) : set_result :=
  match value with
  | None => return_reset_default info setting
  | Some value =>
      let strv := nm_utils_strsplit_set value delimiters_space_tab_comma in
      match verify_string_list strv (Some (fun perm => permissions_valid (Some perm))) with
      | Some e => return_FALSE e setting
      | None =>
          return_TRUE
            (fold_left
               (fun (st : NMSetting) (user : string) =>
                  let user :=
                    match str_skip_prefix PERM_USER_PREFIX user with
                    | Some rest => rest
                    | None => user
                    end in
                  nm_setting_connection_add_permission st "user" user)
               (default [] strv) setting)
      end
  end.

End CheckedLists.

(** *** [_set_fcn_team_runner_tx_hash] *)

Definition _is_valid_team_runner_tx_hash_element (tx_hash_element : string) : option GError :=
  if existsb (nm_streq tx_hash_element)
       ["eth"; "vlan"; "ipv4"; "ipv6"; "ip"; "l3"; "tcp"; "udp"; "sctp"; "l4"]
  then None
  else
    Some (g_set_error_1_0
            ("'" +:+ tx_hash_element +:+ "' is not valid. "
             +:+ "Valid tx-hashes: [eth, vlan, ipv4, ipv6, ip, l3, tcp, udp, sctp, l4]")).

(** Modelled from the spec: the list accessors of libnm-core for the
    [runner-tx-hash] list of [NMSettingTeam] (not part of this file), as
    for every string list: element count, "validated items appended in
    order", removal by position. *)
Definition NM_SETTING_TEAM_RUNNER_TX_HASH : string := "runner-tx-hash".

Definition nm_setting_team_get_num_runner_tx_hash (setting : NMSetting) : Z :=
  get_num_fcn (strv_multilist NM_SETTING_TEAM_RUNNER_TX_HASH) setting.

Definition nm_setting_team_remove_runner_tx_hash (setting : NMSetting) (idx : Z) : NMSetting :=
  remove_by_idx_fcn (strv_multilist NM_SETTING_TEAM_RUNNER_TX_HASH) setting idx.

Definition nm_setting_team_add_runner_tx_hash (setting : NMSetting) (txhash : string)
  : NMSetting :=
  add_fcn (strv_multilist NM_SETTING_TEAM_RUNNER_TX_HASH) setting txhash.

(** [while (nm_setting_team_get_num_runner_tx_hash (setting))
    nm_setting_team_remove_runner_tx_hash (setting, 0);] run for at most
    [fuel] rounds: the setting, or [None] when the loop has not ended. *)
Fixpoint tx_hash_clear_loop (fuel : nat) (setting : NMSetting) : option NMSetting :=
  if nm_setting_team_get_num_runner_tx_hash setting =? 0 then Some setting
  else
    match fuel with
    | O => None
    | S fuel' => tx_hash_clear_loop fuel' (nm_setting_team_remove_runner_tx_hash setting 0)
    end.

(** The result under [fuel] rounds of the loop; [None]: the loop has not
    ended. *)
Definition _set_fcn_team_runner_tx_hash (fuel : nat) (info : NMMetaPropertyInfo)
    (setting : NMSetting) (value : option string) : option set_result :=
  match value with
  | None => Some (return_reset_default info setting)
  | Some value =>
      let strv := default [] (nm_utils_strsplit_set value delimiters_space_tab_comma) in
      match fold_until_error
              (fun (_ : unit) (item : string) =>
                 match _is_valid_team_runner_tx_hash_element item with
                 | Some e => inl e
                 | None => inr tt
                 end)
              tt strv with
      | inl e => Some (return_FALSE e setting)
      | inr _ =>
          match tx_hash_clear_loop fuel setting with
          | None => None
          | Some setting =>
              Some (return_TRUE (fold_left nm_setting_team_add_runner_tx_hash strv setting))
          end
      end
  end.

(** ** Removing from an option map *)

(** [DEFINE_REMOVER_OPTION (def_func, s_macro, rem_func)]: the text is the
    key as it stands; a [NULL] or empty text removes nothing. *)
Definition DEFINE_REMOVER_OPTION (rem_func : NMSetting -> string -> NMSetting)
    (info : NMMetaPropertyInfo) (setting : NMSetting) (value : option string)
  : set_result :=
  match value with
  | Some (String c value') => return_TRUE (rem_func setting (String c value'))
  | _ => return_TRUE setting
  end.

(** Modelled from the spec: [nm_setting_vpn_remove_data_item] of libnm-core
    (not part of this file), the key-based removal of an option map: the
    key is unbound in the option map of the setting. *)
Definition nm_setting_vpn_remove_data_item (setting : NMSetting) (key : string) : NMSetting :=
  mkNMSetting (setting_class setting)
    (<[NM_SETTING_VPN_DATA :=
         GValue_hash (Some (delete key (setting_hash NM_SETTING_VPN_DATA setting)))]>
       (setting_values setting)).

Definition _remove_fcn_vpn_data
  : NMMetaPropertyInfo -> NMSetting -> option string -> set_result :=
  DEFINE_REMOVER_OPTION nm_setting_vpn_remove_data_item.

(** ** The InfiniBand P_Key *)

Definition G_MAXUINT16 : Z := 2 ^ 16 - 1.




Section PKey.

(** [nm_setting_infiniband_get_p_key] of libnm-core (not part of this
    file). *)
Variable nm_setting_infiniband_get_p_key : NMSetting -> Z.

Definition _set_fcn_infiniband_p_key (info : NMMetaPropertyInfo) (setting : NMSetting)
    (value : option string) : set_result :=
  match value with
  | None => return_reset_default info setting
  | Some value =>
      let p_key : GError + Z :=
        if nm_streq value "default" then inr (-1)
        else
          let p_key := _nm_utils_ascii_str_to_int64 value 0 (-1) G_MAXUINT16 (-2) in
          if p_key =? -2 then
            inl (g_set_error_1_0 (gettext "'" +:+ value +:+ "' is not a valid IBoIP P_Key"))
          else inr p_key in
      match p_key with
      | inl e => return_FALSE e setting
      | inr p_key =>
          return_TRUE (g_object_set setting (property_name info) (GValue_int (cast_int p_key)))
      end
  end.


End PKey.

(** ** The setters of the file *)

(** [NMTernary] *)
Inductive NMTernary : Type :=
| NM_TERNARY_DEFAULT
| NM_TERNARY_FALSE
| NM_TERNARY_TRUE.

(** Every function with the argument list [ARGS_SET_FCN], those that the
    macros [DEFINE_SETTER_CERT], [DEFINE_SETTER_PRIV_KEY],
    [DEFINE_SETTER_OPTIONS] and [DEFINE_SETTER_MAC_BLACKLIST] define
    included, by its name without [_set_fcn_]. *)
Inductive setter : Type :=
| Setter_gobject_string
| Setter_gobject_bool
| Setter_gobject_int
| Setter_gobject_mtu
| Setter_gobject_mac
| Setter_gobject_enum
| Setter_multilist
| Setter_gobject_flags
| Setter_gobject_ssid
| Setter_gobject_ifname
| Setter_vpn_service_type
| Setter_gobject_bytes
| Setter_802_1x_ca_cert
| Setter_802_1x_client_cert
| Setter_802_1x_phase2_ca_cert
| Setter_802_1x_phase2_client_cert
| Setter_802_1x_private_key
| Setter_802_1x_phase2_private_key
| Setter_bond_options
| Setter_connection_type
| Setter_connection_permissions
| Setter_connection_master
| Setter_connection_secondaries
| Setter_connection_metered
| Setter_dcb_flags
| Setter_dcb
| Setter_dcb_bool
| Setter_gsm_sim_operator_id
| Setter_infiniband_p_key
| Setter_ip_config_method
| Setter_ip_config_dns
| Setter_ip_config_dns_search
| Setter_ip_config_dns_options
| Setter_ip4_config_addresses
| Setter_ip4_config_gateway
| Setter_ip4_config_routes
| Setter_ip6_config_addresses
| Setter_ip6_config_gateway
| Setter_ip6_config_routes
| Setter_match_interface_name
| Setter_olpc_mesh_channel
| Setter_sriov_vfs
| Setter_tc_config_qdiscs
| Setter_tc_config_tfilters
| Setter_team_runner_tx_hash
| Setter_team_link_watchers
| Setter_team_port_link_watchers
| Setter_vlan_xgress_priority_map
| Setter_vpn_data
| Setter_vpn_secrets
| Setter_wired_mac_address_blacklist
| Setter_wired_s390_subchannels
| Setter_wired_s390_options
| Setter_wireless_channel
| Setter_wireless_mac_address_blacklist
| Setter_wireless_wep_key
| Setter_ethtool.

#[global] Instance setter_eq_dec : EqDecision setter.
Proof. solve_decision. Defined.

Section Setters.
Context `{Collaborators}.

(** The body of a setter after the test of the sentinel, for the setters
    that are not embedded in full: what it does with a text. *)
Variable text_path : setter -> NMMetaPropertyInfo -> NMSetting -> string -> set_result.

(** Functions of libnm-core (not part of this file) that the setters
    embedded below call. *)
Variable nm_setting_connection_add_permission : NMSetting -> string -> string -> NMSetting.
Variable nm_utils_is_valid_iface_name : string -> bool.
Variable nm_utils_is_uuid : string -> bool.
(** [nm_setting_ethtool_set_feature (setting,
    nm_ethtool_data[ethtool_id]->optname, val)] *)
Variable nm_setting_ethtool_set_feature : NMSetting -> Z -> NMTernary -> NMSetting.
(** The functions that the instances of [DEFINE_SETTER_OPTIONS] and of
    [DEFINE_SETTER_MAC_BLACKLIST] are made with. *)
Variable options_add_func : setter -> NMSetting -> string -> string -> NMSetting.
Variable options_valid_func1 : setter -> option (NMSetting -> list string).
Variable options_valid_func2 : setter -> option (string -> string -> GError + string).
Variable mac_blacklist_add_func : setter -> NMSetting -> string -> NMSetting.

(** A setter that begins with
    [if (_SET_FCN_DO_RESET_DEFAULT (value))
       return _gobject_property_reset_default (setting, property_info->property_name);]
    with only declarations before it. *)
Definition reset_default_first
    (rest : NMMetaPropertyInfo -> NMSetting -> string -> set_result)
    (info : NMMetaPropertyInfo) (setting : NMSetting) (value : option string)
  : set_result :=
  match value with
  | None => return_reset_default info setting
  | Some value => rest info setting value
  end.

Definition _set_fcn_connection_master (info : NMMetaPropertyInfo) (setting : NMSetting)
    (value : option string) : set_result :=
  let checked : GError + option string :=
    match value with
    | None => inr None
    | Some EmptyString => inr None
    | Some value =>
        if negb (nm_utils_is_valid_iface_name value) && negb (nm_utils_is_uuid value) then
          inl (g_set_error_1_0
                 (gettext "'" +:+ value
                  +:+ "' is not valid master; use ifname or connection UUID"))
        else inr (Some value)
    end in
  match checked with
  | inl e => return_FALSE e setting
  | inr value => return_TRUE (g_object_set setting (property_name info) (GValue_string value))
  end.

(** [_set_fcn_wireless_wep_key]: on the sentinel
    [g_object_set (setting, property_info->property_name, NULL, NULL); return TRUE;]. *)
Definition _set_fcn_wireless_wep_key (info : NMMetaPropertyInfo) (setting : NMSetting)
    (value : option string) : set_result :=
  match value with
  | None => return_TRUE (g_object_set setting (property_name info) (GValue_string None))
  | Some value => text_path Setter_wireless_wep_key info setting value
  end.

(** Modelled from the spec: [NM_IN_STRSET (value, ...)] of shared/nm-utils
    (not part of this file), the text is one of those listed. *)
Definition NM_IN_STRSET (value : string) (set : list string) : bool :=
  existsb (String.eqb value) set.

(** [_set_fcn_ethtool]: the feature id is read from the type data in the
    initialiser of [ethtool_id], before the sentinel is tested. *)
Definition _set_fcn_ethtool (info : NMMetaPropertyInfo) (setting : NMSetting)
    (value : option string) : set_result :=
  match property_typ_data info with
  | None => NullDereference
  | Some td =>
      match subtype td with
      | subtype_is_ethtool ethtool_id =>
          let val : GError + NMTernary :=
            match value with
            | None => inr NM_TERNARY_DEFAULT
            | Some value =>
                let value := nm_strstrip_avoid_copy value in
                if NM_IN_STRSET value ["1"; "yes"; "true"; "on"] then inr NM_TERNARY_TRUE
                else if NM_IN_STRSET value ["0"; "no"; "false"; "off"] then inr NM_TERNARY_FALSE
                else if NM_IN_STRSET value [""; "ignore"; "default"] then inr NM_TERNARY_DEFAULT
                else
                  inl (g_set_error_invalid_argument
                         (gettext "'" +:+ value
                          +:+ "' is not valid; use 'on', 'off', or 'ignore'"))
            end in
          match val with
          | inl e => return_FALSE e setting
          | inr val => return_TRUE (nm_setting_ethtool_set_feature setting ethtool_id val)
          end
      | _ => NullDereference
      end
  end.

(** The setter of each name.  The setters embedded in full stand as they
    are; the instances of the two embedded macros are the macro with the
    functions of the instance; of every other setter the first statement
    is embedded and the rest is [text_path].  The setter of the tx-hash
    list, whose text path has a loop without a bound, is embedded with
    fuel further up and stands here with its first statement. *)
Definition set_fcn_of (k : setter)
  : NMMetaPropertyInfo -> NMSetting -> option string -> set_result :=
  match k with
  | Setter_gobject_string => _set_fcn_gobject_string
  | Setter_gobject_bool => _set_fcn_gobject_bool
  | Setter_multilist => _set_fcn_multilist
  | Setter_connection_type => _set_fcn_connection_type
  | Setter_connection_permissions =>
      _set_fcn_connection_permissions nm_setting_connection_add_permission
  | Setter_connection_master => _set_fcn_connection_master
  | Setter_dcb => _set_fcn_dcb
  | Setter_infiniband_p_key => _set_fcn_infiniband_p_key
  | Setter_ip4_config_addresses => _set_fcn_ip4_config_addresses
  | Setter_ip4_config_routes => _set_fcn_ip4_config_routes
  | Setter_ip6_config_addresses => _set_fcn_ip6_config_addresses
  | Setter_ip6_config_routes => _set_fcn_ip6_config_routes
  | Setter_vpn_data => _set_fcn_vpn_data
  | Setter_wired_mac_address_blacklist => _set_fcn_wired_mac_address_blacklist
  | Setter_wireless_wep_key => _set_fcn_wireless_wep_key
  | Setter_ethtool => _set_fcn_ethtool
  | Setter_bond_options | Setter_vpn_secrets | Setter_wired_s390_options =>
      DEFINE_SETTER_OPTIONS (options_add_func k) (options_valid_func1 k)
        (options_valid_func2 k)
  | Setter_wireless_mac_address_blacklist =>
      DEFINE_SETTER_MAC_BLACKLIST (mac_blacklist_add_func k)
  | Setter_gobject_int | Setter_gobject_mtu | Setter_gobject_mac | Setter_gobject_enum
  | Setter_gobject_flags | Setter_gobject_ssid | Setter_gobject_ifname
  | Setter_vpn_service_type | Setter_gobject_bytes
  | Setter_802_1x_ca_cert | Setter_802_1x_client_cert
  | Setter_802_1x_phase2_ca_cert | Setter_802_1x_phase2_client_cert
  | Setter_802_1x_private_key | Setter_802_1x_phase2_private_key
  | Setter_connection_secondaries | Setter_connection_metered
  | Setter_dcb_flags | Setter_dcb_bool | Setter_gsm_sim_operator_id
  | Setter_ip_config_method | Setter_ip_config_dns | Setter_ip_config_dns_search
  | Setter_ip_config_dns_options | Setter_ip4_config_gateway | Setter_ip6_config_gateway
  | Setter_match_interface_name | Setter_olpc_mesh_channel
  | Setter_sriov_vfs | Setter_tc_config_qdiscs | Setter_tc_config_tfilters
  | Setter_team_runner_tx_hash | Setter_team_link_watchers
  | Setter_team_port_link_watchers | Setter_vlan_xgress_priority_map
  | Setter_wired_s390_subchannels | Setter_wireless_channel =>
      reset_default_first (text_path k)
  end.

End Setters.

(** The setters whose sentinel branch is not the generic reset. *)
Definition setters_with_own_reset : list setter :=
  [Setter_connection_type; Setter_connection_master; Setter_ip4_config_routes;
   Setter_wireless_wep_key; Setter_ethtool].

(** ** The VLAN priority maps *)

(** [NMVlanPriorityMap] *)
Inductive NMVlanPriorityMap : Type :=
| NM_VLAN_INGRESS_MAP
| NM_VLAN_EGRESS_MAP.

Definition NM_SETTING_VLAN_INGRESS_PRIORITY_MAP : string := "ingress-priority-map".
Definition NM_SETTING_VLAN_EGRESS_PRIORITY_MAP : string := "egress-priority-map".

Definition _vlan_priority_map_type_from_property_info (info : NMMetaPropertyInfo)
  : NMVlanPriorityMap :=
  if nm_streq (property_name info) NM_SETTING_VLAN_INGRESS_PRIORITY_MAP
  then NM_VLAN_INGRESS_MAP
  else NM_VLAN_EGRESS_MAP.

(** GLib's [g_strsplit (s, delimiter, 0)] for a delimiter of one
    character: every field, empty ones too; the empty string gives the
    empty vector. *)
Definition g_strsplit (s delimiter : string) : list string := g_strsplit_set s delimiter.

Section VlanPriorityMaps.

(** Functions of libnm-core (not part of this file):
    [nm_utils_vlan_priority_map_parse_str (map_type, str, allow_wildcard_to,
    NULL, NULL, NULL)] and the list accessors of [NMSettingVlan]. *)
Variable nm_utils_vlan_priority_map_parse_str : NMVlanPriorityMap -> string -> bool -> bool.
Variable nm_setting_vlan_get_num_priorities : NMSetting -> NMVlanPriorityMap -> Z.
Variable nm_setting_vlan_remove_priority : NMSetting -> NMVlanPriorityMap -> Z -> NMSetting.
Variable nm_setting_vlan_remove_priority_str_by_value :
  NMSetting -> NMVlanPriorityMap -> string -> NMSetting.

(** The split maps, or the error of the first part that is not one. *)
Definition _parse_vlan_priority_maps (priority_map : string) (map_type : NMVlanPriorityMap)
    (allow_wildcard_to : bool) : GError + list string :=
  let mapping := g_strsplit priority_map "," in
  match fold_until_error
          (fun (_ : unit) (item : string) =>
             if nm_utils_vlan_priority_map_parse_str map_type item allow_wildcard_to
             then inr tt
             else inl (g_set_error_1_0 (gettext "invalid priority map '" +:+ item +:+ "'")))
          tt mapping with
  | inl e => inl e
  | inr _ => inr mapping
  end.

Definition _remove_fcn_vlan_xgress_priority_map (info : NMMetaPropertyInfo)
    (setting : NMSetting) (value : string) : set_result :=
  let map_type := _vlan_priority_map_type_from_property_info info in
  let idx := _nm_utils_ascii_str_to_int64 value 10 0 G_MAXINT64 (-1) in
  if negb (idx =? -1) then
    let num := nm_setting_vlan_get_num_priorities setting map_type in
    if idx <? num then return_TRUE (nm_setting_vlan_remove_priority setting map_type idx)
    else return_TRUE setting
  else
    match _parse_vlan_priority_maps value map_type true with
    | inl e => return_FALSE e setting
    | inr prio_map =>
        return_TRUE
          (fold_left
             (fun st item => nm_setting_vlan_remove_priority_str_by_value st map_type item)
             prio_map setting)
    end.

End VlanPriorityMaps.

(** ** The removers of the lists *)

(** Every function with the argument list [ARGS_REMOVE_FCN] that removes
    from a list: [_remove_fcn_multilist], the instances of the macros
    [DEFINE_REMOVER_INDEX_OR_VALUE_DIRECT],
    [DEFINE_REMOVER_INDEX_OR_VALUE_VALIDATING] and
    [DEFINE_REMOVER_INDEX_OR_VALUE_COMPLEX], and
    [_remove_fcn_vlan_xgress_priority_map], by its name without
    [_remove_fcn_].  The instances of [DEFINE_REMOVER_OPTION] remove a key
    of an option map and are not among them. *)
Inductive remover : Type :=
| Remover_multilist
| Remover_connection_permissions
| Remover_connection_secondaries
| Remover_ip_config_dns
| Remover_ip_config_dns_search
| Remover_ip_config_dns_options
| Remover_ip_config_addresses
| Remover_ipv4_config_routes
| Remover_ipv6_config_routes
| Remover_match_interface_name
| Remover_sriov_vfs
| Remover_tc_config_qdiscs
| Remover_tc_config_tfilters
| Remover_team_runner_tx_hash
| Remover_team_link_watchers
| Remover_team_port_link_watchers
| Remover_vlan_xgress_priority_map
| Remover_wired_mac_address_blacklist
| Remover_wireless_mac_address_blacklist.

#[global] Instance remover_eq_dec : EqDecision remover.
Proof. solve_decision. Defined.

(** The removers by the macro that defines them. *)
Definition direct_removers : list remover :=
  [Remover_connection_permissions; Remover_ip_config_dns_search;
   Remover_ip_config_dns_options; Remover_match_interface_name;
   Remover_team_runner_tx_hash].

Definition validating_removers : list remover :=
  [Remover_connection_secondaries; Remover_ip_config_dns;
   Remover_wired_mac_address_blacklist; Remover_wireless_mac_address_blacklist].

Definition complex_removers : list remover :=
  [Remover_ip_config_addresses; Remover_ipv4_config_routes; Remover_ipv6_config_routes;
   Remover_sriov_vfs; Remover_tc_config_qdiscs; Remover_tc_config_tfilters;
   Remover_team_link_watchers; Remover_team_port_link_watchers].

(** Modelled from the spec: [nm_utils_addr_family_to_char] of shared/nm-utils
    (not part of this file), the digit of the IP version. *)
Definition nm_utils_addr_family_to_char (family : addr_family) : string :=
  match family with
  | AF_INET => "4"
  | AF_INET6 => "6"
  end.

(** Functions of libnm-core (not part of this file) that the removers
    call. *)
Class RemoverFunctions : Type := {
  (** The count, the removal by index and, where the elements are texts,
      the removal by value that the instance of a macro is made with. *)
  num_func : remover -> NMSetting -> Z;
  rem_func_idx : remover -> NMSetting -> Z -> NMSetting;
  rem_func_text : remover -> NMSetting -> string -> NMSetting;
  (** The tests and parsers that the validating functions call, and the
      removals by value of what they parse. *)
  nm_utils_is_uuid : string -> bool;
  nm_utils_parse_inaddr : addr_family -> string -> bool;
  nm_setting_ip_config_get_addr_family : NMSetting -> addr_family;
  nm_setting_ip_config_remove_route_by_value : NMSetting -> NMIPRoute -> NMSetting;
  NMSriovVF : Type;
  nm_utils_sriov_vf_from_str : string -> GError + NMSriovVF;
  nm_sriov_vf_get_index : NMSriovVF -> Z;
  nm_setting_sriov_remove_vf_by_index : NMSetting -> Z -> NMSetting;
  NMTCQdisc : Type;
  nm_utils_tc_qdisc_from_str : string -> GError + NMTCQdisc;
  nm_setting_tc_config_remove_qdisc_by_value : NMSetting -> NMTCQdisc -> NMSetting;
  NMTCTfilter : Type;
  nm_utils_tc_tfilter_from_str : string -> GError + NMTCTfilter;
  nm_setting_tc_config_remove_tfilter_by_value : NMSetting -> NMTCTfilter -> NMSetting;
  nm_setting_team_remove_link_watcher_by_value : NMSetting -> NMTeamLinkWatcher -> NMSetting;
  nm_setting_team_port_remove_link_watcher_by_value :
    NMSetting -> NMTeamLinkWatcher -> NMSetting;
  (** The functions of the VLAN priority maps. *)
  nm_utils_vlan_priority_map_parse_str : NMVlanPriorityMap -> string -> bool -> bool;
  nm_setting_vlan_get_num_priorities : NMSetting -> NMVlanPriorityMap -> Z;
  nm_setting_vlan_remove_priority : NMSetting -> NMVlanPriorityMap -> Z -> NMSetting;
  nm_setting_vlan_remove_priority_str_by_value :
    NMSetting -> NMVlanPriorityMap -> string -> NMSetting;
}.

Section Removers.
Context `{Collaborators} `{RemoverFunctions}.

Definition _validate_and_remove_connection_secondary (setting : NMSetting)
    (secondary_uuid : string) : GError + NMSetting :=
  if negb (nm_utils_is_uuid secondary_uuid) then
    inl (g_set_error_invalid_argument
           (gettext "the value '" +:+ secondary_uuid +:+ "' is not a valid UUID"))
  else inr (rem_func_text Remover_connection_secondaries setting secondary_uuid).

Definition _validate_and_remove_ip_dns (setting : NMSetting) (dns : string)
  : GError + NMSetting :=
  let addr_family := nm_setting_ip_config_get_addr_family setting in
  if negb (nm_utils_parse_inaddr addr_family dns) then
    inl (g_set_error_invalid_argument
           (gettext "invalid IPv" +:+ nm_utils_addr_family_to_char addr_family
            +:+ " address '" +:+ dns +:+ "'"))
  else inr (rem_func_text Remover_ip_config_dns setting dns).

Definition _validate_and_remove_ipv4_route (setting : NMSetting) (value : string)
  : GError + NMSetting :=
  match _parse_ip_route AF_INET value with
  | inl e => inl e
  | inr route => inr (nm_setting_ip_config_remove_route_by_value setting route)
  end.

Definition _validate_and_remove_ipv6_route (setting : NMSetting) (value : string)
  : GError + NMSetting :=
  match _parse_ip_route AF_INET6 value with
  | inl e => inl e
  | inr route => inr (nm_setting_ip_config_remove_route_by_value setting route)
  end.

Definition _validate_and_remove_sriov_vf (setting : NMSetting) (value : string)
  : GError + NMSetting :=
  match nm_utils_sriov_vf_from_str value with
  | inl e => inl e
  | inr vf => inr (nm_setting_sriov_remove_vf_by_index setting (nm_sriov_vf_get_index vf))
  end.

Definition _validate_and_remove_tc_qdisc (setting : NMSetting) (value : string)
  : GError + NMSetting :=
  match nm_utils_tc_qdisc_from_str value with
  | inl e => inl e
  | inr qdisc => inr (nm_setting_tc_config_remove_qdisc_by_value setting qdisc)
  end.

Definition _validate_and_remove_tc_tfilter (setting : NMSetting) (value : string)
  : GError + NMSetting :=
  match nm_utils_tc_tfilter_from_str value with
  | inl e => inl e
  | inr tfilter => inr (nm_setting_tc_config_remove_tfilter_by_value setting tfilter)
  end.

Definition _validate_and_remove_team_link_watcher (setting : NMSetting) (value : string)
  : GError + NMSetting :=
  match _parse_team_link_watcher value with
  | inl e => inl e
  | inr watcher => inr (nm_setting_team_remove_link_watcher_by_value setting watcher)
  end.

Definition _validate_and_remove_team_port_link_watcher (setting : NMSetting)
    (value : string) : GError + NMSetting :=
  match _parse_team_link_watcher value with
  | inl e => inl e
  | inr watcher => inr (nm_setting_team_port_remove_link_watcher_by_value setting watcher)
  end.

Definition _validate_and_remove_wired_mac_blacklist_item (setting : NMSetting)
    (mac : string) : GError + NMSetting :=
  if negb (nm_utils_hwaddr_aton_eth mac) then
    inl (g_set_error_invalid_argument (gettext "'" +:+ mac +:+ "' is not a valid MAC address"))
  else inr (rem_func_text Remover_wired_mac_address_blacklist setting mac).

Definition _validate_and_remove_wifi_mac_blacklist_item (setting : NMSetting)
    (mac : string) : GError + NMSetting :=
  if negb (nm_utils_hwaddr_aton_eth mac) then
    inl (g_set_error_invalid_argument (gettext "'" +:+ mac +:+ "' is not a valid MAC address"))
  else inr (rem_func_text Remover_wireless_mac_address_blacklist setting mac).

(** The remover of each name. *)
Definition remove_fcn_of (k : remover)
  : NMMetaPropertyInfo -> NMSetting -> string -> set_result :=
  match k with
  | Remover_multilist => _remove_fcn_multilist
  | Remover_connection_permissions | Remover_ip_config_dns_search
  | Remover_ip_config_dns_options | Remover_match_interface_name
  | Remover_team_runner_tx_hash =>
      DEFINE_REMOVER_INDEX_OR_VALUE_DIRECT (num_func k) (rem_func_idx k) (rem_func_text k)
  | Remover_connection_secondaries =>
      DEFINE_REMOVER_INDEX_OR_VALUE_VALIDATING (num_func k) (rem_func_idx k)
        _validate_and_remove_connection_secondary
  | Remover_ip_config_dns =>
      DEFINE_REMOVER_INDEX_OR_VALUE_VALIDATING (num_func k) (rem_func_idx k)
        _validate_and_remove_ip_dns
  | Remover_ip_config_addresses =>
      fun info setting value =>
        _remove_fcn_ip_config_addresses (nm_setting_ip_config_get_addr_family setting)
          info setting value
  | Remover_ipv4_config_routes =>
      DEFINE_REMOVER_INDEX_OR_VALUE_COMPLEX (num_func k) (rem_func_idx k)
        _validate_and_remove_ipv4_route
  | Remover_ipv6_config_routes =>
      DEFINE_REMOVER_INDEX_OR_VALUE_COMPLEX (num_func k) (rem_func_idx k)
        _validate_and_remove_ipv6_route
  | Remover_sriov_vfs =>
      DEFINE_REMOVER_INDEX_OR_VALUE_COMPLEX (num_func k) (rem_func_idx k)
        _validate_and_remove_sriov_vf
  | Remover_tc_config_qdiscs =>
      DEFINE_REMOVER_INDEX_OR_VALUE_COMPLEX (num_func k) (rem_func_idx k)
        _validate_and_remove_tc_qdisc
  | Remover_tc_config_tfilters =>
      DEFINE_REMOVER_INDEX_OR_VALUE_COMPLEX (num_func k) (rem_func_idx k)
        _validate_and_remove_tc_tfilter
  | Remover_team_link_watchers =>
      DEFINE_REMOVER_INDEX_OR_VALUE_COMPLEX (num_func k) (rem_func_idx k)
        _validate_and_remove_team_link_watcher
  | Remover_team_port_link_watchers =>
      DEFINE_REMOVER_INDEX_OR_VALUE_COMPLEX (num_func k) (rem_func_idx k)
        _validate_and_remove_team_port_link_watcher
  | Remover_vlan_xgress_priority_map =>
      _remove_fcn_vlan_xgress_priority_map nm_utils_vlan_priority_map_parse_str
        nm_setting_vlan_get_num_priorities nm_setting_vlan_remove_priority
        nm_setting_vlan_remove_priority_str_by_value
  | Remover_wired_mac_address_blacklist =>
      DEFINE_REMOVER_INDEX_OR_VALUE_VALIDATING (num_func k) (rem_func_idx k)
        _validate_and_remove_wired_mac_blacklist_item
  | Remover_wireless_mac_address_blacklist =>
      DEFINE_REMOVER_INDEX_OR_VALUE_VALIDATING (num_func k) (rem_func_idx k)
        _validate_and_remove_wifi_mac_blacklist_item
  end.

(** The count that the remover compares the index with and the removal
    by index that it calls: those of the type data for the multilist
    remover ([None] without such data), those of the instance for a
    remover that a macro defines, those of the map for the VLAN remover. *)
Definition remover_num (k : remover) (info : NMMetaPropertyInfo) (setting : NMSetting)
  : option Z :=
  match k with
  | Remover_multilist =>
      match property_typ_data info with
      | Some td =>
          match subtype td with
          | subtype_is_multilist ml => Some (get_num_fcn ml setting)
          | _ => None
          end
      | None => None
      end
  | Remover_ip_config_addresses => Some (nm_setting_ip_config_get_num_addresses setting)
  | Remover_vlan_xgress_priority_map =>
      Some (nm_setting_vlan_get_num_priorities setting
              (_vlan_priority_map_type_from_property_info info))
  | _ => Some (num_func k setting)
  end.

Definition remover_remove_idx (k : remover) (info : NMMetaPropertyInfo)
    (setting : NMSetting) (idx : Z) : NMSetting :=
  match k with
  | Remover_multilist =>
      match property_typ_data info with
      | Some td =>
          match subtype td with
          | subtype_is_multilist ml => remove_by_idx_fcn ml setting idx
          | _ => setting
          end
      | None => setting
      end
  | Remover_ip_config_addresses => nm_setting_ip_config_remove_address setting idx
  | Remover_vlan_xgress_priority_map =>
      nm_setting_vlan_remove_priority setting
        (_vlan_priority_map_type_from_property_info info) idx
  | _ => rem_func_idx k setting idx
  end.

(** The validating function that an instance of
    [DEFINE_REMOVER_INDEX_OR_VALUE_VALIDATING] or of
    [DEFINE_REMOVER_INDEX_OR_VALUE_COMPLEX] is made with. *)
Definition rem_func_val (k : remover) : option (NMSetting -> string -> GError + NMSetting) :=
  match k with
  | Remover_connection_secondaries => Some _validate_and_remove_connection_secondary
  | Remover_ip_config_dns => Some _validate_and_remove_ip_dns
  | Remover_ip_config_addresses =>
      Some (fun setting value =>
              _validate_and_remove_ip_address (nm_setting_ip_config_get_addr_family setting)
                setting value)
  | Remover_ipv4_config_routes => Some _validate_and_remove_ipv4_route
  | Remover_ipv6_config_routes => Some _validate_and_remove_ipv6_route
  | Remover_sriov_vfs => Some _validate_and_remove_sriov_vf
  | Remover_tc_config_qdiscs => Some _validate_and_remove_tc_qdisc
  | Remover_tc_config_tfilters => Some _validate_and_remove_tc_tfilter
  | Remover_team_link_watchers => Some _validate_and_remove_team_link_watcher
  | Remover_team_port_link_watchers => Some _validate_and_remove_team_port_link_watcher
  | Remover_wired_mac_address_blacklist => Some _validate_and_remove_wired_mac_blacklist_item
  | Remover_wireless_mac_address_blacklist =>
      Some _validate_and_remove_wifi_mac_blacklist_item
  | _ => None
  end.

End Removers.

(** An instance for the examples: a connection whose libnm lists are
    empty and whose parsers refuse every text. *)
Definition example_remover_functions : RemoverFunctions :=
  {| num_func := fun _ _ => 0;
     rem_func_idx := fun _ setting _ => setting;
     rem_func_text := fun _ setting _ => setting;
     nm_utils_is_uuid := fun _ => false;
     nm_utils_parse_inaddr := fun _ _ => false;
     nm_setting_ip_config_get_addr_family := fun _ => AF_INET;
     nm_setting_ip_config_remove_route_by_value := fun setting _ => setting;
     NMSriovVF := unit;
     nm_utils_sriov_vf_from_str := fun _ => inl (g_set_error_1_0 "invalid VF");
     nm_sriov_vf_get_index := fun _ => 0;
     nm_setting_sriov_remove_vf_by_index := fun setting _ => setting;
     NMTCQdisc := unit;
     nm_utils_tc_qdisc_from_str := fun _ => inl (g_set_error_1_0 "invalid qdisc");
     nm_setting_tc_config_remove_qdisc_by_value := fun setting _ => setting;
     NMTCTfilter := unit;
     nm_utils_tc_tfilter_from_str := fun _ => inl (g_set_error_1_0 "invalid tfilter");
     nm_setting_tc_config_remove_tfilter_by_value := fun setting _ => setting;
     nm_setting_team_remove_link_watcher_by_value := fun setting _ => setting;
     nm_setting_team_port_remove_link_watcher_by_value := fun setting _ => setting;
     nm_utils_vlan_priority_map_parse_str := fun _ _ _ => false;
     nm_setting_vlan_get_num_priorities := fun _ _ => 0;
     nm_setting_vlan_remove_priority := fun setting _ _ => setting;
     nm_setting_vlan_remove_priority_str_by_value := fun setting _ _ => setting |}.

(** ** Auxiliary definitions for the further properties *)

(** The items written one after the other with [sep] between them. *)
Fixpoint join_text (sep : string) (items : list string) : string :=
  match items with
  | [] => ""
  | [x] => x
  | x :: rest => x +:+ sep +:+ join_text sep rest
  end.

(** A text that can stand as the value of a [key=value] token: not empty,
    no white space, no [=]. *)
Definition token_value_char (c : ascii) : bool :=
  negb (g_ascii_isspace c) && negb (Ascii.eqb c "="%char).

Definition token_value (s : string) : Prop :=
  s <> "" /\ string_forall token_value_char s = true.

(** The token that [DUMP_WATCHER_INT] writes, if it writes one. *)
Definition watcher_int_token (key : string) (v : Z) : list string :=
  if v =? 0 then [] else [key +:+ "=" +:+ fmt_d v].

Definition watcher_dump_text (watcher : NMTeamLinkWatcher) : string :=
  default "" (_dump_team_link_watcher (Some watcher)).

(** The numbers of the locals of [_parse_team_link_watcher] pass the two
    range tests of its loop. *)
Definition watcher_in_range (st : watcher_locals) : Prop :=
  0 <= wl_val1 st /\ 0 <= wl_val2 st /\ 0 <= wl_val3 st /\ -1 <= wl_val4 st.

(** The names of a table of flags whose bit is set in [flags], and the
    text between the parentheses of a pretty flag word. *)
Definition flag_names (flags : Z) (table : list (Z * string)) : list string :=
  map snd (List.filter (fun entry => negb (Z.land flags (fst entry) =? 0)) table).

Definition flag_names_text (names : list string) : string :=
  match names with
  | [] => "unknown"
  | _ => join_text ", " names
  end.

Definition secret_flag_table : list (Z * string) :=
  [(NM_SETTING_SECRET_FLAG_AGENT_OWNED, "agent-owned");
   (NM_SETTING_SECRET_FLAG_NOT_SAVED, "not saved");
   (NM_SETTING_SECRET_FLAG_NOT_REQUIRED, "not required")].

Definition vlan_flag_table : list (Z * string) :=
  [(NM_VLAN_FLAG_REORDER_HEADERS, "REORDER_HEADERS");
   (NM_VLAN_FLAG_GVRP, "GVRP");
   (NM_VLAN_FLAG_LOOSE_BINDING, "LOOSE_BINDING");
   (NM_VLAN_FLAG_MVRP, "MVRP")].




(** The user that a permission token names: the token without the prefix
    ["user:"], if it has it. *)
Definition permission_user (token : string) : string :=
  match str_skip_prefix PERM_USER_PREFIX token with
  | Some rest => rest
  | None => token
  end.

(** The text of an item of an option list: the key and the value around
    [=], each with the white space [pad] before and after it. *)
Definition option_item_text (pad : string) (kv : string * string) : string :=
  pad +:+ fst kv +:+ pad +:+ "=" +:+ pad +:+ snd kv +:+ pad.

(** A key and a value that such an item can carry: not empty, no white
    space, no [,]; the key has no [=]. *)
Definition option_value_char (c : ascii) : bool :=
  negb (g_ascii_isspace c) && negb (Ascii.eqb c ","%char).

Definition option_key_char (c : ascii) : bool :=
  option_value_char c && negb (Ascii.eqb c "="%char).

Definition option_pair (kv : string * string) : Prop :=
  fst kv <> "" /\ string_forall option_key_char (fst kv) = true
  /\ snd kv <> "" /\ string_forall option_value_char (snd kv) = true.

(** The option map after the pairs have been bound one after the other. *)
Definition bind_options (pairs : list (string * string)) (h : gmap string string)
  : gmap string string :=
  fold_left (fun h kv => <[fst kv := snd kv]> h) pairs h.

(* ================================================================= *)
(** * Part II: properties *)
(* ================================================================= *)

(** ** Integers written in decimal are read back *)

Lemma uint_value_acc_mono d : forall acc, 0 <= acc -> acc <= uint_value_acc d acc.
Proof.
  induction d; intros acc Hacc; simpl; try lia;
    match goal with
    | |- _ <= uint_value_acc _ ?a => specialize (IHd a); lia
    end.
Qed.

Lemma of_uint_acc_value d : forall p, Z.pos (Pos.of_uint_acc d p) = uint_value_acc d (Z.pos p).
Proof.
  induction d; intros p; simpl; try reflexivity; rewrite IHd; f_equal; lia.
Qed.

Lemma of_uint_value d : Z.of_N (Pos.of_uint d) = uint_value_acc d 0.
Proof.
  induction d; simpl; try reflexivity; try assumption;
    rewrite of_uint_acc_value; reflexivity.
Qed.

Lemma to_uint_value p : uint_value_acc (Pos.to_uint p) 0 = Z.pos p.
Proof. rewrite <- of_uint_value, Unsigned.of_to. reflexivity. Qed.

Lemma parse_digits_uint d : forall acc ov,
  0 <= acc -> uint_value_acc d acc <= G_MAXINT64 ->
  parse_digits 10 (NilEmpty.string_of_uint d) acc ov = (uint_value_acc d acc, ov, "").
Proof.
  assert (Hcut : G_MAXUINT64 / 10 = 1844674407370955161) by reflexivity.
  assert (Hmax : G_MAXINT64 = 9223372036854775807) by reflexivity.
  induction d; intros acc ov Hacc Hbound; simpl in *; try reflexivity;
    match type of Hbound with
    | uint_value_acc _ ?a <= _ =>
        pose proof (uint_value_acc_mono d a ltac:(lia));
        rewrite Hcut;
        replace (1844674407370955161 <? acc) with false by (symmetry; apply Z.ltb_ge; lia);
        replace (acc =? 1844674407370955161) with false by (symmetry; apply Z.eqb_neq; lia);
        simpl;
        replace (acc * 10 + _) with a by lia;
        apply IHd; lia
    end.
Qed.

Lemma string_of_uint_digits d : string_forall is_decimal_digit (NilEmpty.string_of_uint d) = true.
Proof. induction d; simpl; try reflexivity; assumption. Qed.

Lemma digit_char_facts c :
  is_decimal_digit c = true ->
  g_ascii_isspace c = false /\ ISSPACE c = false /\
  Ascii.eqb c "-" = false /\ Ascii.eqb c "+" = false /\ is_x c = false.
Proof.
  destruct c as [[] [] [] [] [] [] [] []]; vm_compute; intros; try discriminate; auto.
Qed.

Lemma strtoll_prefix_base10 (s1 : string) :
  match s1 with
  | String z (String x r) =>
      if Ascii.eqb z "0"%char then
        if ((10 =? 0) || (10 =? 16)) && is_x x then (16, r, Some (String x r))
        else if 10 =? 0 then (8, s1, None)
        else (10, s1, None)
      else if 10 =? 0 then (10, s1, None) else (10, s1, None)
  | String z EmptyString =>
      if Ascii.eqb z "0"%char then
        if 10 =? 0 then (8, s1, None) else (10, s1, None)
      else if 10 =? 0 then (10, s1, None) else (10, s1, None)
  | EmptyString => (if 10 =? 0 then 10 else 10, s1, None)
  end = (10, s1, @None string).
Proof.
  destruct s1 as [|z [|x r]]; simpl; try reflexivity; destruct (Ascii.eqb z "0"); reflexivity.
Qed.

Lemma strtoll_digits (s : string) (v : Z) :
  s <> "" -> string_forall is_decimal_digit s = true ->
  parse_digits 10 s 0 false = (v, false, "") ->
  0 <= v <= G_MAXINT64 ->
  g_ascii_strtoll s 10 = mkStrtoll v "" false /\
  g_ascii_strtoll (String "-" s) 10 = mkStrtoll (- v) "" false.
Proof.
  intros Hne Hdig Hparse Hv.
  destruct s as [|c s']; [congruence|].
  simpl in Hdig. apply andb_prop in Hdig as [Hc Hs'].
  destruct (digit_char_facts c Hc) as (Hsp & HSP & Hminus & Hplus & Hx).
  assert (Hmax : G_MAXINT64 = 9223372036854775807) by reflexivity.
  split.
  - unfold g_ascii_strtoll. cbn [skip_while]. rewrite HSP, Hminus, Hplus.
    rewrite (strtoll_prefix_base10 (String c s')).
    rewrite Hparse. cbn [String.eqb]. cbn [andb negb].
    replace (G_MAXINT64 <? v) with false by (symmetry; apply Z.ltb_ge; lia).
    reflexivity.
  - unfold g_ascii_strtoll. cbn [skip_while].
    change (ISSPACE "-") with false. cbv iota.
    change (Ascii.eqb "-" "-") with true. cbv iota.
    rewrite (strtoll_prefix_base10 (String c s')).
    rewrite Hparse. cbn [String.eqb]. cbn [andb negb].
    replace (- G_MININT64 <? v) with false
      by (symmetry; apply Z.ltb_ge; change (- G_MININT64) with 9223372036854775808; lia).
    reflexivity.
Qed.

Lemma str_to_int64_fmt_d (n min max fallback : Z) :
  G_MININT64 < n <= G_MAXINT64 ->
  _nm_utils_ascii_str_to_int64 (fmt_d n) 10 min max fallback
  = if (max <? n) || (n <? min) then fallback else n.
Proof.
  intros Hn.
  assert (Hmax : G_MAXINT64 = 9223372036854775807) by reflexivity.
  assert (Hmin : G_MININT64 = -9223372036854775808) by reflexivity.
  destruct n as [|p|p].
  - reflexivity.
  - unfold fmt_d. cbn [Z.to_int NilZero.string_of_int].
    pose proof (Unsigned.to_uint_nonnil p) as Hnn.
    pose proof (to_uint_value p) as Hval.
    pose proof (string_of_uint_digits (Pos.to_uint p)) as Hdig.
    assert (Hparse : parse_digits 10 (NilEmpty.string_of_uint (Pos.to_uint p)) 0 false
                     = (Z.pos p, false, "")).
    { rewrite parse_digits_uint; rewrite ?Hval; try lia. reflexivity. }
    assert (Hs : NilZero.string_of_uint (Pos.to_uint p)
                 = NilEmpty.string_of_uint (Pos.to_uint p)).
    { destruct (Pos.to_uint p); try reflexivity. congruence. }
    rewrite Hs.
    assert (Hne : NilEmpty.string_of_uint (Pos.to_uint p) <> "").
    { destruct (Pos.to_uint p); simpl; congruence. }
    destruct (strtoll_digits _ _ Hne Hdig Hparse ltac:(lia)) as [Hpos _].
    remember (NilEmpty.string_of_uint (Pos.to_uint p)) as s eqn:Es.
    destruct s as [|c s']; [congruence|].
    simpl in Hdig. apply andb_prop in Hdig as [Hc _].
    destruct (digit_char_facts c Hc) as (Hsp & _).
    unfold _nm_utils_ascii_str_to_int64. cbn [skip_while]. rewrite Hsp.
    rewrite Hpos. reflexivity.
  - unfold fmt_d. cbn [Z.to_int NilZero.string_of_int].
    pose proof (Unsigned.to_uint_nonnil p) as Hnn.
    pose proof (to_uint_value p) as Hval.
    pose proof (string_of_uint_digits (Pos.to_uint p)) as Hdig.
    assert (Hparse : parse_digits 10 (NilEmpty.string_of_uint (Pos.to_uint p)) 0 false
                     = (Z.pos p, false, "")).
    { rewrite parse_digits_uint; rewrite ?Hval; try lia. reflexivity. }
    assert (Hs : NilZero.string_of_uint (Pos.to_uint p)
                 = NilEmpty.string_of_uint (Pos.to_uint p)).
    { destruct (Pos.to_uint p); try reflexivity. congruence. }
    rewrite Hs.
    assert (Hne : NilEmpty.string_of_uint (Pos.to_uint p) <> "").
    { destruct (Pos.to_uint p); simpl; congruence. }
    destruct (strtoll_digits _ _ Hne Hdig Hparse ltac:(lia)) as [_ Hneg].
    unfold _nm_utils_ascii_str_to_int64. cbn [skip_while].
    change (g_ascii_isspace "-") with false. cbv iota.
    rewrite Hneg. reflexivity.
Qed.

Lemma g_strchomp_no_space (s : string) :
  string_forall (fun c => negb (g_ascii_isspace c)) s = true -> g_strchomp s = s.
Proof.
  induction s as [|c s IH]; simpl; [reflexivity|].
  intros Hs. apply andb_prop in Hs as [Hc Hs]. rewrite (IH Hs).
  destruct s; [|reflexivity].
  apply negb_true_iff in Hc. rewrite Hc. reflexivity.
Qed.

Lemma g_strstrip_no_space (s : string) :
  string_forall (fun c => negb (g_ascii_isspace c)) s = true -> g_strstrip s = s.
Proof.
  intros Hs. unfold g_strstrip, g_strchug.
  destruct s as [|c s]; [reflexivity|].
  pose proof Hs as Hs'. simpl in Hs'. apply andb_prop in Hs' as [Hc _].
  apply negb_true_iff in Hc. cbn [skip_while]. rewrite Hc.
  apply g_strchomp_no_space. exact Hs.
Qed.

Lemma string_forall_impl (p q : ascii -> bool) (s : string) :
  (forall c, p c = true -> q c = true) ->
  string_forall p s = true -> string_forall q s = true.
Proof.
  intros Hpq. induction s as [|c s IH]; simpl; [reflexivity|].
  intros Hs. apply andb_prop in Hs as [Hc Hs]. rewrite (Hpq c Hc), (IH Hs). reflexivity.
Qed.

Lemma fmt_d_no_space (n : Z) :
  string_forall (fun c => negb (g_ascii_isspace c)) (fmt_d n) = true.
Proof.
  assert (Hd : forall d, string_forall (fun c => negb (g_ascii_isspace c))
                           (NilZero.string_of_uint d) = true).
  { intros d.
    assert (Hn : string_forall (fun c => negb (g_ascii_isspace c))
                   (NilEmpty.string_of_uint d) = true).
    { apply (string_forall_impl is_decimal_digit); [|apply string_of_uint_digits].
      intros c Hc. destruct (digit_char_facts c Hc) as [-> _]. reflexivity. }
    destruct d; first [exact Hn | reflexivity]. }
  unfold fmt_d. destruct (Z.to_int n); cbn [NilZero.string_of_int]; [apply Hd|].
  simpl. apply Hd.
Qed.

Lemma g_strstrip_fmt_d (n : Z) : g_strstrip (fmt_d n) = fmt_d n.
Proof. apply g_strstrip_no_space, fmt_d_no_space. Qed.

(** ** The IP-address parser *)

Section AddressProperties.
Context `{Collaborators}.

(** What [nm_ip_address_new] gives for a prefix that the parser lets
    through. *)
Lemma nm_ip_address_new_in_range (family : addr_family) (ip : string) (prefix : Z) :
  prefix <= MAX_PREFIX family ->
  nm_ip_address_new family ip prefix
  = if nm_utils_ipaddr_valid family ip
    then inr (mkNMIPAddress family (default ip (canonicalize_ip family ip false)) prefix)
    else inl (mkGError NM_CONNECTION_ERROR NM_CONNECTION_ERROR_FAILED
                ("Invalid " +:+ family_name family +:+ " address '" +:+ ip +:+ "'")).
Proof.
  intros Hle. unfold nm_ip_address_new, valid_ip, valid_prefix.
  destruct (nm_utils_ipaddr_valid family ip); [|reflexivity].
  replace (prefix <=? MAX_PREFIX family) with true by (symmetry; apply Z.leb_le; lia).
  reflexivity.
Qed.

Lemma str_to_int64_range (str : string) (base min max fallback : Z) :
  let v := _nm_utils_ascii_str_to_int64 str base min max fallback in
  v = fallback \/ min <= v <= max.
Proof.
  unfold _nm_utils_ascii_str_to_int64.
  destruct (skip_while g_ascii_isspace str) as [|c s]; [left; reflexivity|].
  destruct (st_erange _); [left; reflexivity|].
  destruct (str_nonempty _); [left; reflexivity|].
  destruct (_ || _) eqn:E; [left; reflexivity|].
  right. apply orb_false_elim in E as [E1 E2].
  apply Z.ltb_ge in E1, E2. lia.
Qed.

Lemma parse_ip_address_cases (family : addr_family) (address : string) :
  match strchr_cut "/" (g_strstrip address) with
  | None =>
      _parse_ip_address family address
      = if nm_utils_ipaddr_valid family (g_strstrip address)
        then inr (mkNMIPAddress family
                    (default (g_strstrip address)
                       (canonicalize_ip family (g_strstrip address) false))
                    (MAX_PREFIX family))
        else inl (address_error family (g_strstrip address))
  | Some (ip, plen) =>
      let prefix := _nm_utils_ascii_str_to_int64 plen 10 1 (MAX_PREFIX family) (-1) in
      if prefix =? -1
      then _parse_ip_address family address = inl (prefix_error family plen)
      else 1 <= prefix <= MAX_PREFIX family /\
           _parse_ip_address family address
           = if nm_utils_ipaddr_valid family ip
             then inr (mkNMIPAddress family (default ip (canonicalize_ip family ip false))
                         prefix)
             else inl (address_error family ip)
  end.
Proof.
  unfold _parse_ip_address.
  destruct (strchr_cut "/" (g_strstrip address)) as [[ip plen]|] eqn:Ecut.
  - cbv zeta.
    pose proof (str_to_int64_range plen 10 1 (MAX_PREFIX family) (-1)) as Hr.
    cbv zeta in Hr.
    destruct (_ =? -1) eqn:E; [reflexivity|].
    apply Z.eqb_neq in E. destruct Hr as [Hr|Hr]; [congruence|].
    split; [exact Hr|].
    rewrite nm_ip_address_new_in_range by lia.
    destruct (nm_utils_ipaddr_valid family ip); reflexivity.
  - rewrite nm_ip_address_new_in_range by lia.
    destruct (nm_utils_ipaddr_valid family (g_strstrip address)); reflexivity.
Qed.

End AddressProperties.

(** C9.  The IP-address parser reads [ip[/prefix]].  Without a prefix the
    result carries the maximum of the family, 32 for IPv4 and 128 for
    IPv6; a prefix written as a decimal integer [n] is accepted exactly
    when [1 <= n <= max], and the result then carries [n]; a rejected
    prefix and a rejected address are reported by two different messages,
    the first naming the prefix text and the allowed range, the second the
    address.  On ["192.168.1.5"] the prefix is 32, on ["2001:db8::1"] it is
    128, on ["10.0.0.0/24"] it is 24. *)
Theorem parse_ip_address_prefix_rule :
  (* the prefix is absent *)
  (forall (C : Collaborators) family address,
      strchr_cut "/" (g_strstrip address) = None ->
      nm_utils_ipaddr_valid family (g_strstrip address) = true ->
      exists a, _parse_ip_address family address = inr a
                /\ address_family a = family
                /\ address_prefix a = match family with AF_INET => 32 | AF_INET6 => 128 end)
  (* the prefix is the decimal text of n *)
  /\ (forall (C : Collaborators) family address ip n,
      G_MININT64 < n <= G_MAXINT64 ->
      strchr_cut "/" (g_strstrip address) = Some (ip, fmt_d n) ->
      nm_utils_ipaddr_valid family ip = true ->
      (1 <= n <= MAX_PREFIX family ->
       exists a, _parse_ip_address family address = inr a /\ address_prefix a = n)
      /\ (~ 1 <= n <= MAX_PREFIX family ->
          _parse_ip_address family address = inl (prefix_error family (fmt_d n))))
  (* a prefix text that is rejected, whatever the address *)
  /\ (forall (C : Collaborators) family address ip plen,
      strchr_cut "/" (g_strstrip address) = Some (ip, plen) ->
      _nm_utils_ascii_str_to_int64 plen 10 1 (MAX_PREFIX family) (-1) = -1 ->
      _parse_ip_address family address = inl (prefix_error family plen))
  (* an address text that is rejected, the prefix being absent or accepted *)
  /\ (forall (C : Collaborators) family address ip,
      (strchr_cut "/" (g_strstrip address) = None /\ ip = g_strstrip address
       \/ exists plen, strchr_cut "/" (g_strstrip address) = Some (ip, plen)
                       /\ _nm_utils_ascii_str_to_int64 plen 10 1 (MAX_PREFIX family) (-1) <> -1) ->
      nm_utils_ipaddr_valid family ip = false ->
      _parse_ip_address family address = inl (address_error family ip))
  (* the two messages differ *)
  /\ (forall family plen family' ip,
      message (prefix_error family plen) <> message (address_error family' ip))
  (* the three texts of the specification *)
  /\ (let C := reference_collaborators in
      _parse_ip_address AF_INET "192.168.1.5" = inr (mkNMIPAddress AF_INET "192.168.1.5" 32)
      /\ _parse_ip_address AF_INET6 "2001:db8::1" = inr (mkNMIPAddress AF_INET6 "2001:db8::1" 128)
      /\ _parse_ip_address AF_INET "10.0.0.0/24" = inr (mkNMIPAddress AF_INET "10.0.0.0" 24)).
Proof.
  split; [|split; [|split; [|split; [|split]]]].
  - intros C family address Hcut Hvalid.
    pose proof (parse_ip_address_cases family address) as Hc.
    rewrite Hcut, Hvalid in Hc. eexists. split; [exact Hc|].
    split; [reflexivity|]. destruct family; reflexivity.
  - intros C family address ip n Hn Hcut Hvalid.
    pose proof (parse_ip_address_cases family address) as Hc.
    rewrite Hcut in Hc. cbv zeta in Hc.
    rewrite str_to_int64_fmt_d in Hc by exact Hn.
    split.
    + intros Hin.
      replace ((MAX_PREFIX family <? n) || (n <? 1)) with false in Hc
        by (symmetry; apply orb_false_intro; apply Z.ltb_ge; lia).
      replace (n =? -1) with false in Hc by (symmetry; apply Z.eqb_neq; lia).
      destruct Hc as [_ Hc]. rewrite Hvalid in Hc. eexists. split; [exact Hc|reflexivity].
    + intros Hout.
      replace ((MAX_PREFIX family <? n) || (n <? 1)) with true in Hc.
      * exact Hc.
      * symmetry. apply orb_true_iff.
        destruct (Z_lt_dec (MAX_PREFIX family) n);
          [left; apply Z.ltb_lt; lia | right; apply Z.ltb_lt; lia].
  - intros C family address ip plen Hcut Hbad.
    pose proof (parse_ip_address_cases family address) as Hc.
    rewrite Hcut in Hc. cbv zeta in Hc. rewrite Hbad in Hc. exact Hc.
  - intros C family address ip Hshape Hinvalid.
    pose proof (parse_ip_address_cases family address) as Hc.
    destruct Hshape as [[Hcut ->]|(plen & Hcut & Hok)]; rewrite Hcut in Hc.
    + rewrite Hinvalid in Hc. exact Hc.
    + cbv zeta in Hc. apply Z.eqb_neq in Hok. rewrite Hok in Hc.
      destruct Hc as [_ Hc]. rewrite Hinvalid in Hc. exact Hc.
  - intros family plen family' ip. simpl. discriminate.
  - cbv zeta. repeat split; vm_compute; reflexivity.
Qed.

(** The rule at work on [" 10.0.0.0/24 "] with the reference collaborators. *)
Lemma parse_ip_address_prefix_rule_witness :
  exists a, @_parse_ip_address reference_collaborators AF_INET " 10.0.0.0/24 " = inr a
            /\ address_prefix a = 24.
Proof.
  destruct parse_ip_address_prefix_rule as (_ & Hexplicit & _).
  refine (proj1 (Hexplicit reference_collaborators AF_INET " 10.0.0.0/24 " "10.0.0.0" 24
                   _ _ _) _).
  - vm_compute. split; [reflexivity | discriminate].
  - vm_compute. reflexivity.
  - vm_compute. reflexivity.
  - vm_compute. split; discriminate.
Defined.

(** ** The route parser *)

Lemma fold_until_error_app {E S A : Type} (step : S -> A -> E + S) (st : S) (l1 l2 : list A) :
  fold_until_error step st (l1 ++ l2)
  = match fold_until_error step st l1 with
    | inl e => inl e
    | inr st' => fold_until_error step st' l2
    end.
Proof.
  revert st. induction l1 as [|x l1 IH]; intros st; simpl; [reflexivity|].
  destruct (step st x); [reflexivity|apply IH].
Qed.

Lemma last_cons_match {A B : Type} (x : A) (l : list A) (f : A -> B) (d : B) :
  match last (x :: l) with Some t => f t | None => d end
  = match last l with Some t => f t | None => f x end.
Proof. rewrite last_cons. destruct (last l); reflexivity. Qed.

Section RouteProperties.
Context `{Collaborators}.

(** One round of the token loop, by the class of the token. *)
Lemma route_token_step_next_hop family st tok :
  route_token_kind_of family tok = TokenNextHop ->
  route_token_step family st tok
  = if negb (rl_metric st =? -1) || bool_decide (is_Some (rl_attrs st))
    then inl (g_set_error_1_0 ("the next hop ('" +:+ tok +:+ "') must be first"))
    else inr (mkRouteLocals (Some tok) (rl_metric st) (rl_attrs st)).
Proof.
  unfold route_token_kind_of, route_token_step.
  destruct (nm_utils_ipaddr_valid family tok); [reflexivity|].
  cbv zeta. destruct (negb _); [discriminate|]. destruct (str_mem _ _); discriminate.
Qed.

Lemma route_token_step_metric family st tok m :
  route_token_kind_of family tok = TokenMetric m ->
  m = _nm_utils_ascii_str_to_int64 tok 10 0 G_MAXUINT32 (-1) /\ m <> -1 /\
  route_token_step family st tok
  = if bool_decide (is_Some (rl_attrs st))
    then inl (g_set_error_1_0 ("the metric ('" +:+ tok +:+ "') must be before attributes"))
    else inr (mkRouteLocals (rl_next_hop st) m (rl_attrs st)).
Proof.
  unfold route_token_kind_of, route_token_step.
  destruct (nm_utils_ipaddr_valid family tok); [discriminate|].
  cbv zeta. destruct (negb _) eqn:E.
  - intros [= <-]. apply negb_true_iff, Z.eqb_neq in E. auto.
  - destruct (str_mem _ _); discriminate.
Qed.

Lemma route_token_step_attribute family st tok st' :
  route_token_kind_of family tok = TokenAttribute ->
  route_token_step family st tok = inr st' ->
  rl_next_hop st' = rl_next_hop st /\ rl_metric st' = rl_metric st /\ is_Some (rl_attrs st').
Proof.
  unfold route_token_kind_of, route_token_step.
  destruct (nm_utils_ipaddr_valid family tok); [discriminate|].
  cbv zeta. destruct (negb _); [discriminate|].
  destruct (str_mem _ _); [|discriminate]. intros _.
  destruct (nm_utils_parse_variant_attributes tok); [discriminate|].
  destruct (fold_until_error _ _ _); [discriminate|].
  intros [= <-]. simpl. eauto.
Qed.

Lemma route_token_step_malformed family st tok :
  route_token_kind_of family tok = TokenMalformed ->
  route_token_step family st tok = inl (g_set_error_1_0 ROUTE_SYNTAX).
Proof.
  unfold route_token_kind_of, route_token_step.
  destruct (nm_utils_ipaddr_valid family tok); [discriminate|].
  cbv zeta. destruct (negb _); [discriminate|].
  destruct (str_mem _ _); [discriminate|reflexivity].
Qed.

(** When the loop gets through, the tokens are next hops, then metrics,
    then attributes, and the locals hold the last next hop and the last
    metric. *)
Lemma route_tokens_shape family tokens : forall st0 st,
  fold_until_error (route_token_step family) st0 tokens = inr st ->
  exists hops metrics attributes,
    tokens = (hops ++ metrics ++ attributes)%list
    /\ Forall (fun tok => route_token_kind_of family tok = TokenNextHop) hops
    /\ Forall (is_metric_token family) metrics
    /\ Forall (fun tok => route_token_kind_of family tok = TokenAttribute) attributes
    /\ (hops <> [] -> rl_metric st0 = -1 /\ rl_attrs st0 = None)
    /\ (metrics <> [] -> rl_attrs st0 = None)
    /\ rl_next_hop st = match last hops with Some tok => Some tok | None => rl_next_hop st0 end
    /\ rl_metric st = match last metrics with
                      | Some tok => _nm_utils_ascii_str_to_int64 tok 10 0 G_MAXUINT32 (-1)
                      | None => rl_metric st0
                      end
    /\ (is_Some (rl_attrs st) <-> is_Some (rl_attrs st0) \/ attributes <> []).
Proof.
  induction tokens as [|tok rest IH]; intros st0 st Hfold.
  - simpl in Hfold. injection Hfold as <-.
    exists [], [], []. repeat split; auto; try congruence.
    intros [?|?]; [assumption|congruence].
  - simpl in Hfold.
    destruct (route_token_step family st0 tok) as [e|st1] eqn:Hstep; [discriminate|].
    destruct (IH st1 st Hfold)
      as (hops & metrics & attributes & -> & Hh & Hm & Ha & Hh0 & Hm0 & Hnh & Hmt & Hat).
    destruct (route_token_kind_of family tok) as [|m| |] eqn:Hkind.
    + (* a next hop *)
      rewrite (route_token_step_next_hop _ _ _ Hkind) in Hstep.
      destruct (negb _ || _) eqn:Hguard; [discriminate|].
      injection Hstep as <-. simpl in *.
      apply orb_false_elim in Hguard as [Hg1 Hg2].
      apply negb_false_iff, Z.eqb_eq in Hg1.
      apply bool_decide_eq_false in Hg2.
      assert (Hnone : rl_attrs st0 = None).
      { destruct (rl_attrs st0); [exfalso; apply Hg2; eauto|reflexivity]. }
      exists (tok :: hops), metrics, attributes.
      repeat split; auto.
      * rewrite Hnh. symmetry. apply (last_cons_match tok hops Some).
      * apply Hat.
      * apply Hat.
    + (* a metric *)
      destruct (route_token_step_metric _ st0 _ _ Hkind) as (Hmv & Hne & Hstep').
      rewrite Hstep' in Hstep.
      destruct (bool_decide _) eqn:Hguard; [discriminate|].
      injection Hstep as <-. simpl in *.
      apply bool_decide_eq_false in Hguard.
      assert (Hnone : rl_attrs st0 = None).
      { destruct (rl_attrs st0); [exfalso; apply Hguard; eauto|reflexivity]. }
      assert (hops = []) as ->.
      { destruct hops; [reflexivity|]. destruct Hh0 as [Hbad _]; congruence. }
      exists [], (tok :: metrics), attributes.
      repeat split; auto; try congruence.
      * constructor; [exists m; exact Hkind|exact Hm].
      * rewrite Hmt, Hmv. symmetry.
        apply (last_cons_match tok metrics
                 (fun t => _nm_utils_ascii_str_to_int64 t 10 0 G_MAXUINT32 (-1))).
      * apply Hat.
      * apply Hat.
    + (* an attribute *)
      destruct (route_token_step_attribute _ _ _ _ Hkind Hstep) as (Hnh1 & Hmt1 & Hsome).
      assert (hops = []) as ->.
      { destruct hops; [reflexivity|]. destruct Hh0 as [_ Hbad]; [congruence|].
        rewrite Hbad in Hsome. destruct Hsome; discriminate. }
      assert (metrics = []) as ->.
      { destruct metrics; [reflexivity|]. rewrite Hm0 in Hsome by congruence.
        destruct Hsome; discriminate. }
      exists [], [], (tok :: attributes).
      repeat split; auto; try congruence.
      * simpl in *. congruence.
      * simpl in *. congruence.
      * intros _. apply Hat. left. exact Hsome.
    + rewrite (route_token_step_malformed _ _ _ Hkind) in Hstep. discriminate.
Qed.

(** Next hops followed by metrics always get through. *)
Lemma route_tokens_accepted family hops metrics :
  Forall (fun tok => route_token_kind_of family tok = TokenNextHop) hops ->
  Forall (is_metric_token family) metrics ->
  fold_until_error (route_token_step family) route_locals_init (hops ++ metrics)
  = inr (mkRouteLocals (last hops) (last_metric metrics) None).
Proof.
  intros Hh Hm. rewrite fold_until_error_app.
  assert (Hhops : forall nh0,
             fold_until_error (route_token_step family) (mkRouteLocals nh0 (-1) None) hops
             = inr (mkRouteLocals (match last hops with Some t => Some t | None => nh0 end)
                      (-1) None)).
  { induction Hh as [|tok hops Hk _ IH]; intros nh0; [reflexivity|].
    simpl. rewrite (route_token_step_next_hop _ _ _ Hk). simpl.
    rewrite IH. rewrite (last_cons_match tok hops Some). reflexivity. }
  unfold route_locals_init. rewrite Hhops.
  replace (match last hops with Some t => Some t | None => None end) with (last hops)
    by (destruct (last hops); reflexivity).
  generalize (last hops) as nh.
  assert (Hmetrics : forall nh m0,
             fold_until_error (route_token_step family) (mkRouteLocals nh m0 None) metrics
             = inr (mkRouteLocals nh
                      (match last metrics with
                       | Some tok => _nm_utils_ascii_str_to_int64 tok 10 0 G_MAXUINT32 (-1)
                       | None => m0
                       end) None)).
  { induction Hm as [|tok metrics [m Hk] _ IH]; intros nh m0; [reflexivity|].
    simpl. destruct (route_token_step_metric _ (mkRouteLocals nh m0 None) _ _ Hk)
      as (Hmv & _ & ->).
    simpl. rewrite IH, Hmv.
    rewrite (last_cons_match tok metrics
               (fun t => _nm_utils_ascii_str_to_int64 t 10 0 G_MAXUINT32 (-1))).
    reflexivity. }
  intros nh. rewrite Hmetrics. reflexivity.
Qed.

(** A next hop after a metric or an attribute, and a metric after an
    attribute, stop the loop with their own message. *)
Lemma route_next_hop_must_be_first family before tok after st :
  fold_until_error (route_token_step family) route_locals_init before = inr st ->
  rl_metric st <> -1 \/ is_Some (rl_attrs st) ->
  route_token_kind_of family tok = TokenNextHop ->
  fold_until_error (route_token_step family) route_locals_init (before ++ tok :: after)
  = inl (g_set_error_1_0 ("the next hop ('" +:+ tok +:+ "') must be first")).
Proof.
  intros Hbefore Hlate Hkind. rewrite fold_until_error_app, Hbefore. simpl.
  rewrite (route_token_step_next_hop _ _ _ Hkind).
  replace (negb (rl_metric st =? -1) || bool_decide (is_Some (rl_attrs st))) with true;
    [reflexivity|].
  symmetry. apply orb_true_iff. destruct Hlate as [Hm|Ha].
  - left. apply negb_true_iff, Z.eqb_neq. exact Hm.
  - right. apply bool_decide_eq_true. exact Ha.
Qed.

Lemma route_metric_must_be_before_attributes family before tok after st :
  fold_until_error (route_token_step family) route_locals_init before = inr st ->
  is_Some (rl_attrs st) ->
  is_metric_token family tok ->
  fold_until_error (route_token_step family) route_locals_init (before ++ tok :: after)
  = inl (g_set_error_1_0 ("the metric ('" +:+ tok +:+ "') must be before attributes")).
Proof.
  intros Hbefore Ha [m Hkind]. rewrite fold_until_error_app, Hbefore. simpl.
  destruct (route_token_step_metric _ st _ _ Hkind) as (_ & _ & ->).
  rewrite bool_decide_eq_true_2 by exact Ha. reflexivity.
Qed.

(** The route that comes out of an accepted text. *)
Lemma parse_ip_route_inr family str route :
  _parse_ip_route family str = inr route ->
  exists routev0 tokens st,
    nm_utils_strsplit_set (nm_strstrip_avoid_copy str) delimiters_space_tab
    = Some (routev0 :: tokens)
    /\ fold_until_error (route_token_step family) route_locals_init tokens = inr st
    /\ route_next_hop route = rl_next_hop st ≫= (fun nh => canonicalize_ip family nh true)
    /\ route_metric route = rl_metric st.
Proof.
  unfold _parse_ip_route.
  destruct (nm_utils_strsplit_set _ _) as [[|routev0 tokens]|]; try discriminate.
  destruct (strchr_cut "/" routev0) as [[d p]|];
    (destruct (_ =? -1); [discriminate|]);
    (destruct (fold_until_error _ _ _) as [e|st] eqn:Hfold; [discriminate|]);
    (destruct (nm_ip_route_new _ _ _ _ _) as [e|r] eqn:Hnew; [discriminate|]);
    intros [= <-]; exists routev0, tokens, st;
    (split; [reflexivity|]); (split; [exact Hfold|]);
    unfold nm_ip_route_new in Hnew;
    (destruct (valid_ip family _); [discriminate|]);
    (destruct (valid_prefix family _); [discriminate|]);
    (destruct (_ ≫= valid_ip family); [discriminate|]);
    (destruct (_ || _); [discriminate|]);
    injection Hnew as <-; destruct (rl_attrs st); split; reflexivity.
Qed.

(** An error of the token loop is the error of the parser. *)
Lemma parse_ip_route_loop_error family str routev0 tokens e :
  nm_utils_strsplit_set (nm_strstrip_avoid_copy str) delimiters_space_tab
  = Some (routev0 :: tokens) ->
  route_prefix_accepted family routev0 ->
  fold_until_error (route_token_step family) route_locals_init tokens = inl e ->
  _parse_ip_route family str = inl e.
Proof.
  unfold _parse_ip_route, route_prefix_accepted. intros -> Hprefix Hfold.
  destruct (strchr_cut "/" routev0) as [[d p]|].
  - apply Z.eqb_neq in Hprefix. rewrite Hprefix, Hfold. reflexivity.
  - replace (MAX_PREFIX family =? -1) with false by (destruct family; reflexivity).
    rewrite Hfold. reflexivity.
Qed.

Lemma Forall_last {A : Type} (P : A -> Prop) (l : list A) (x : A) :
  Forall P l -> last l = Some x -> P x.
Proof.
  intros Hl Hlast. apply last_Some in Hlast as [l' ->].
  apply Forall_app in Hl as [_ Hx]. inversion Hx. assumption.
Qed.

(** What the tokens read so far say about the locals. *)
Lemma route_locals_after family before st :
  fold_until_error (route_token_step family) route_locals_init before = inr st ->
  (forall t, In t before -> is_metric_token family t ->
             rl_metric st <> -1 \/ is_Some (rl_attrs st))
  /\ (forall t, In t before -> route_token_kind_of family t = TokenAttribute ->
                is_Some (rl_attrs st)).
Proof.
  intros Hfold.
  destruct (route_tokens_shape _ _ _ _ Hfold)
    as (hops & metrics & attributes & -> & Hh & Hm & Ha & _ & _ & _ & Hmt & Hat).
  split.
  - intros t Hin [m Hk].
    apply in_app_or in Hin as [Hin|Hin].
    { rewrite Forall_forall in Hh. apply list_elem_of_In in Hin.
      rewrite (Hh t Hin) in Hk. discriminate. }
    apply in_app_or in Hin as [Hin|Hin].
    + left. destruct (last metrics) as [t'|] eqn:El.
      * destruct (Forall_last _ _ _ Hm El) as [m' Hk'].
        destruct (route_token_step_metric _ route_locals_init _ _ Hk') as (Hv & Hne & _).
        rewrite Hmt, <- Hv. exact Hne.
      * apply last_None in El. subst metrics. destruct Hin.
    + right. apply Hat. right. destruct attributes; [destruct Hin|discriminate].
  - intros t Hin Hk.
    apply Hat. right.
    apply in_app_or in Hin as [Hin|Hin].
    { rewrite Forall_forall in Hh. apply list_elem_of_In in Hin.
      rewrite (Hh t Hin) in Hk. discriminate. }
    apply in_app_or in Hin as [Hin|Hin].
    + rewrite Forall_forall in Hm. apply list_elem_of_In in Hin.
      destruct (Hm t Hin) as [m Hk']. rewrite Hk' in Hk. discriminate.
    + destruct attributes; [destruct Hin|discriminate].
Qed.

End RouteProperties.

(** C5, as amended.  After the destination, a token that is an address of
    the family is a next hop, otherwise a token that is an integer of
    [[0, 2^32-1]] is a metric, otherwise a token with [=] is an attribute.
    An accepted text has its next hops first, then its metrics, then its
    attributes; the route carries the last next hop and the last metric
    ([-1] without one).  A next hop after a metric or an attribute, and a
    metric after an attribute, are rejected with their own message.
    ["192.168.2.0/24 192.168.2.1 3"] gives destination 192.168.2.0, prefix
    24, next hop 192.168.2.1 and metric 3; ["10.1.2.0/24"] gives metric -1
    and no next hop; ["192.168.2.0/24 3 192.168.2.1"] is rejected. *)
Theorem parse_ip_route_token_order :
  (* an accepted text *)
  (forall (C : Collaborators) family str route,
      _parse_ip_route family str = inr route ->
      exists routev0 hops metrics attributes,
        nm_utils_strsplit_set (nm_strstrip_avoid_copy str) delimiters_space_tab
        = Some (routev0 :: hops ++ metrics ++ attributes)%list
        /\ Forall (fun tok => route_token_kind_of family tok = TokenNextHop) hops
        /\ Forall (is_metric_token family) metrics
        /\ Forall (fun tok => route_token_kind_of family tok = TokenAttribute) attributes
        /\ route_next_hop route = last hops ≫= (fun nh => canonicalize_ip family nh true)
        /\ route_metric route = last_metric metrics)
  (* a next hop after a metric or an attribute *)
  /\ (forall (C : Collaborators) family str routev0 before tok after st late,
      nm_utils_strsplit_set (nm_strstrip_avoid_copy str) delimiters_space_tab
      = Some (routev0 :: before ++ tok :: after)%list ->
      route_prefix_accepted family routev0 ->
      fold_until_error (route_token_step family) route_locals_init before = inr st ->
      In late before ->
      is_metric_token family late \/ route_token_kind_of family late = TokenAttribute ->
      route_token_kind_of family tok = TokenNextHop ->
      _parse_ip_route family str
      = inl (g_set_error_1_0 ("the next hop ('" +:+ tok +:+ "') must be first")))
  (* a metric after an attribute *)
  /\ (forall (C : Collaborators) family str routev0 before tok after st late,
      nm_utils_strsplit_set (nm_strstrip_avoid_copy str) delimiters_space_tab
      = Some (routev0 :: before ++ tok :: after)%list ->
      route_prefix_accepted family routev0 ->
      fold_until_error (route_token_step family) route_locals_init before = inr st ->
      In late before ->
      route_token_kind_of family late = TokenAttribute ->
      is_metric_token family tok ->
      _parse_ip_route family str
      = inl (g_set_error_1_0 ("the metric ('" +:+ tok +:+ "') must be before attributes")))
  (* the three texts of the specification *)
  /\ (let C := reference_collaborators in
      _parse_ip_route AF_INET "192.168.2.0/24 192.168.2.1 3"
      = inr (mkNMIPRoute AF_INET "192.168.2.0" 24 (Some "192.168.2.1") 3 ∅)
      /\ _parse_ip_route AF_INET "10.1.2.0/24"
         = inr (mkNMIPRoute AF_INET "10.1.2.0" 24 None (-1) ∅)
      /\ _parse_ip_route AF_INET "192.168.2.0/24 3 192.168.2.1"
         = inl (g_set_error_1_0 "the next hop ('192.168.2.1') must be first")).
Proof.
  split; [|split; [|split]].
  - intros C family str route Hparse.
    destruct (parse_ip_route_inr _ _ _ Hparse) as (routev0 & tokens & st & Hsplit & Hfold & Hnh & Hmt).
    destruct (route_tokens_shape _ _ _ _ Hfold)
      as (hops & metrics & attributes & -> & Hh & Hm & Ha & _ & _ & Hnh' & Hmt' & _).
    exists routev0, hops, metrics, attributes.
    repeat split; try assumption.
    + rewrite Hnh, Hnh'. simpl. destruct (last hops); reflexivity.
    + rewrite Hmt, Hmt'. reflexivity.
  - intros C family str routev0 before tok after st late Hsplit Hprefix Hfold Hin Hlate Hkind.
    apply (parse_ip_route_loop_error _ _ _ _ _ Hsplit Hprefix).
    apply (route_next_hop_must_be_first _ _ _ _ st Hfold); [|exact Hkind].
    destruct (route_locals_after _ _ _ Hfold) as [Hmetric Hattr].
    destruct Hlate as [Hlate|Hlate]; [exact (Hmetric _ Hin Hlate)|].
    right. exact (Hattr _ Hin Hlate).
  - intros C family str routev0 before tok after st late Hsplit Hprefix Hfold Hin Hlate Hkind.
    apply (parse_ip_route_loop_error _ _ _ _ _ Hsplit Hprefix).
    apply (route_metric_must_be_before_attributes _ _ _ _ st Hfold); [|exact Hkind].
    destruct (route_locals_after _ _ _ Hfold) as [_ Hattr].
    exact (Hattr _ Hin Hlate).
  - cbv zeta. repeat split; vm_compute; reflexivity.
Qed.

(** The order rule at work: a metric after an attribute. *)
Lemma parse_ip_route_token_order_witness :
  @_parse_ip_route reference_collaborators AF_INET "10.1.2.0/24 mtu=1400 7"
  = inl (g_set_error_1_0 "the metric ('7') must be before attributes").
Proof.
  destruct parse_ip_route_token_order as (_ & _ & Hmetric & _).
  refine (Hmetric reference_collaborators AF_INET "10.1.2.0/24 mtu=1400 7" "10.1.2.0/24"
            ["mtu=1400"] "7" []
            (mkRouteLocals None (-1) (Some {["mtu" := GVariantUint32 1400]}))
            "mtu=1400" _ _ _ _ _ _).
  - vm_compute. reflexivity.
  - vm_compute. discriminate.
  - vm_compute. reflexivity.
  - left. reflexivity.
  - vm_compute. reflexivity.
  - exists 7. vm_compute. reflexivity.
Defined.

(** C5 as stated fails: on ["192.168.2.0/24 192.168.2.1 192.168.2.2 3 4"]
    the route does not carry the first address after the destination as
    its next hop, nor the first integer as its metric, but the last ones. *)
Lemma parse_ip_route_first_token_counterexample :
  let C := reference_collaborators in
  let tokens := ["192.168.2.1"; "192.168.2.2"; "3"; "4"] in
  exists route,
    _parse_ip_route AF_INET "192.168.2.0/24 192.168.2.1 192.168.2.2 3 4" = inr route
    /\ nm_utils_strsplit_set "192.168.2.0/24 192.168.2.1 192.168.2.2 3 4" delimiters_space_tab
       = Some ("192.168.2.0/24" :: tokens)
    /\ List.find (nm_utils_ipaddr_valid AF_INET) tokens = Some "192.168.2.1"
    /\ route_next_hop route = Some "192.168.2.2"
    /\ route_next_hop route <> List.find (nm_utils_ipaddr_valid AF_INET) tokens
    /\ map (route_token_kind_of AF_INET) tokens
       = [TokenNextHop; TokenNextHop; TokenMetric 3; TokenMetric 4]
    /\ route_metric route = 4
    /\ route_metric route <> 3.
Proof.
  cbv zeta. eexists. split; [vm_compute; reflexivity|].
  repeat split; try (vm_compute; reflexivity); vm_compute; discriminate.
Defined.

(** ** The link-watcher parser *)






Lemma watcher_flag_bits_distinct key bit key' bit' flags :
  In (key, bit) watcher_flag_keys -> In (key', bit') watcher_flag_keys -> key <> key' ->
  Z.land (Z.lor flags bit') bit = Z.land flags bit.
Proof.
  intros Hk Hk' Hne. rewrite Z.land_lor_distr_l.
  assert (Z.land bit' bit = 0) as ->.
  { simpl in Hk, Hk'.
    destruct Hk as [[= <- <-]|[[= <- <-]|[[= <- <-]|[]]]];
      destruct Hk' as [[= <- <-]|[[= <- <-]|[[= <- <-]|[]]]];
      try reflexivity; congruence. }
  apply Z.lor_0_r.
Qed.

(** A token with another key leaves the flag as it is. *)
Lemma watcher_other_token_keeps_flag st tok st' key bit :
  In (key, bit) watcher_flag_keys ->
  watcher_token_has_other_key key tok ->
  watcher_token_step st tok = inr st' ->
  Z.land (wl_flags st') bit = Z.land (wl_flags st) bit.
Proof.
  intros Hkey Hother. unfold watcher_token_step.
  destruct (nm_utils_strsplit_set tok "=") as [[|key' [|value [|x rest]]]|] eqn:Hsplit;
    try discriminate.
  assert (Hne : key' <> key).
  { intros ->. exact (Hother value Hsplit). }
  destruct (watcher_assign st key' value) as [st1|] eqn:Hassign; [|discriminate].
  destruct (_ || _); [discriminate|]. destruct (_ <? -1); [discriminate|].
  intros [= <-].
  destruct st as [name val1 val2 val3 val4 th sh flags].
  unfold watcher_assign, nm_streq in Hassign.
  repeat match type of Hassign with
         | (if ?c then _ else _) = _ =>
             let E := fresh "E" in destruct c eqn:E
         end;
    try (injection Hassign as <-; reflexivity); try discriminate.
  all: injection Hassign as <-; cbn [wl_flags];
       destruct (String.eqb value "true"); try reflexivity.
  all: match goal with
       | E : String.eqb ?k' ?k = true |- _ => apply String.eqb_eq in E; subst k'
       end.
  all: eapply watcher_flag_bits_distinct;
       [exact Hkey | simpl; auto | congruence].
Qed.

Lemma watcher_others_keep_flag key bit after : forall st final,
  In (key, bit) watcher_flag_keys ->
  Forall (watcher_token_has_other_key key) after ->
  fold_until_error watcher_token_step st after = inr final ->
  Z.land (wl_flags final) bit = Z.land (wl_flags st) bit.
Proof.
  induction after as [|tok rest IH]; intros st final Hkey Hall Hfold; simpl in Hfold.
  - injection Hfold as <-. reflexivity.
  - destruct (watcher_token_step st tok) as [e|st1] eqn:Hstep; [discriminate|].
    inversion Hall as [|? ? Htok Hrest]; subst.
    rewrite (IH st1 final Hkey Hrest Hfold).
    exact (watcher_other_token_keeps_flag _ _ _ _ _ Hkey Htok Hstep).
Qed.






(** ** The DCB arrays *)

Lemma string_app_cons (c : ascii) (s t : string) : String c s +:+ t = String c (s +:+ t).
Proof. reflexivity. Qed.

Lemma split_fields_app_delim (delims : string) (x s : string) (d : ascii) :
  string_forall (fun c => negb (str_mem c delims)) x = true ->
  str_mem d delims = true ->
  split_fields delims (x +:+ String d s)
  = (x, fst (split_fields delims s) :: snd (split_fields delims s)).
Proof.
  intros Hx Hd. induction x as [|c x IH]; simpl.
  - rewrite Hd. destruct (split_fields delims s). reflexivity.
  - simpl in Hx. apply andb_prop in Hx as [Hc Hx]. apply negb_true_iff in Hc.
    rewrite (IH Hx), Hc. reflexivity.
Qed.

Lemma split_fields_no_delim (delims : string) (x : string) :
  string_forall (fun c => negb (str_mem c delims)) x = true ->
  split_fields delims x = (x, []).
Proof.
  induction x as [|c x IH]; simpl; [reflexivity|].
  intros Hx. apply andb_prop in Hx as [Hc Hx]. apply negb_true_iff in Hc.
  rewrite (IH Hx), Hc. reflexivity.
Qed.

Lemma split_fields_comma_text (items : list string) (x : string) :
  Forall (fun s => string_forall (fun c => negb (str_mem c ",")) s = true) (x :: items) ->
  split_fields "," (comma_text (x :: items)) = (x, items).
Proof.
  revert x. induction items as [|y items IH]; intros x Hall.
  - inversion Hall; subst. simpl. apply split_fields_no_delim. assumption.
  - inversion Hall as [|? ? Hx Hrest]; subst.
    change (comma_text (x :: y :: items)) with (x +:+ String "," (comma_text (y :: items))).
    rewrite split_fields_app_delim by (assumption || reflexivity).
    rewrite (IH y Hrest). reflexivity.
Qed.

Lemma fmt_d_no_comma (n : Z) :
  string_forall (fun c => negb (str_mem c ",")) (fmt_d n) = true.
Proof.
  assert (Hd : forall d, string_forall (fun c => negb (str_mem c ","))
                           (NilZero.string_of_uint d) = true).
  { intros d.
    assert (Hn : string_forall (fun c => negb (str_mem c ","))
                   (NilEmpty.string_of_uint d) = true).
    { apply (string_forall_impl is_decimal_digit); [|apply string_of_uint_digits].
      intros c. destruct c as [[] [] [] [] [] [] [] []]; vm_compute; congruence. }
    destruct d; first [exact Hn | reflexivity]. }
  unfold fmt_d. destruct (Z.to_int n); cbn [NilZero.string_of_int]; [apply Hd|].
  simpl. apply Hd.
Qed.

Lemma fmt_d_nonempty (n : Z) : fmt_d n <> "".
Proof.
  unfold fmt_d. destruct (Z.to_int n) as [d|d]; cbn [NilZero.string_of_int];
    [|discriminate].
  destruct d; simpl; discriminate.
Qed.

(** The text of the numbers [ns] with commas splits back into them. *)
Lemma g_strsplit_set_decimals (ns : list Z) :
  g_strsplit_set (comma_text (map fmt_d ns)) "," = map fmt_d ns.
Proof.
  destruct ns as [|n ns]; [reflexivity|].
  unfold g_strsplit_set.
  assert (Hsplit : split_fields "," (comma_text (map fmt_d (n :: ns)))
                   = (fmt_d n, map fmt_d ns)).
  { apply (split_fields_comma_text (map fmt_d ns) (fmt_d n)).
    change (fmt_d n :: map fmt_d ns) with (map fmt_d (n :: ns)).
    apply Forall_forall. intros s Hs. apply list_elem_of_In, in_map_iff in Hs as (m & <- & _).
    apply fmt_d_no_comma. }
  rewrite Hsplit.
  destruct (comma_text (map fmt_d (n :: ns))) eqn:E; [|reflexivity].
  exfalso. simpl in E. destruct (map fmt_d ns).
  - exact (fmt_d_nonempty n E).
  - destruct (fmt_d n) eqn:En; [exact (fmt_d_nonempty n En)|discriminate].
Qed.

(** One slot written in decimal. *)
Lemma dcb_parse_item_decimal (max other : Z) (out_array : list Z) (n : Z) :
  G_MININT64 < n <= G_MAXINT64 ->
  0 <= max -> other = 0 \/ max < other ->
  (dcb_value_allowed max other n ->
   dcb_parse_item max other out_array (fmt_d n) = inr (out_array ++ [n])%list)
  /\ (~ dcb_value_allowed max other n ->
      exists e, dcb_parse_item max other out_array (fmt_d n) = inl e).
Proof.
  intros Hn Hmax Hother. unfold dcb_value_allowed, dcb_parse_item.
  rewrite g_strstrip_fmt_d, str_to_int64_fmt_d by exact Hn.
  destruct (other =? 0) eqn:Eo.
  - apply Z.eqb_eq in Eo. subst other. cbn [negb andb orb].
    split.
    + intros [Hin|[Hbad _]]; [|congruence].
      replace ((max <? n) || (n <? 0)) with false
        by (symmetry; apply orb_false_intro; apply Z.ltb_ge; lia).
      replace (n =? -1) with false by (symmetry; apply Z.eqb_neq; lia).
      reflexivity.
    + intros Hout. rewrite orb_false_r.
      destruct ((max <? n) || (n <? 0)) eqn:E; [simpl; eauto|].
      apply orb_false_elim in E as [E1 E2]. apply Z.ltb_ge in E1, E2.
      exfalso. apply Hout. left. lia.
  - apply Z.eqb_neq in Eo. destruct Hother as [Hother|Hother]; [congruence|].
    cbn [negb andb].
    split.
    + intros Hin.
      assert (0 <= n <= other) by (destruct Hin as [?|[_ ->]]; lia).
      replace ((other <? n) || (n <? 0)) with false
        by (symmetry; apply orb_false_intro; apply Z.ltb_ge; lia).
      replace (n =? -1) with false by (symmetry; apply Z.eqb_neq; lia).
      cbn [orb].
      destruct Hin as [Hin|[_ ->]].
      * replace (max <? n) with false by (symmetry; apply Z.ltb_ge; lia). reflexivity.
      * rewrite Z.eqb_refl. rewrite andb_false_r. reflexivity.
    + intros Hout.
      destruct ((other <? n) || (n <? 0)) eqn:E; [simpl; eauto|].
      apply orb_false_elim in E as [E1 E2]. apply Z.ltb_ge in E1, E2.
      replace (n =? -1) with false by (symmetry; apply Z.eqb_neq; lia).
      cbn [orb].
      assert (Hgt : max < n) by (destruct (Z_lt_dec max n); [assumption|];
                                 exfalso; apply Hout; left; lia).
      assert (Hne : n <> other) by (intros ->; apply Hout; right; auto).
      replace (max <? n) with true by (symmetry; apply Z.ltb_lt; lia).
      replace (n =? other) with false by (symmetry; apply Z.eqb_neq; lia).
      simpl. eauto.
Qed.

Lemma dcb_parse_items_decimal (max other : Z) (ns : list Z) : forall out_array,
  Forall (fun n => G_MININT64 < n <= G_MAXINT64) ns ->
  0 <= max -> other = 0 \/ max < other ->
  (Forall (dcb_value_allowed max other) ns ->
   fold_until_error (dcb_parse_item max other) out_array (map fmt_d ns)
   = inr (out_array ++ ns)%list)
  /\ (~ Forall (dcb_value_allowed max other) ns ->
      exists e, fold_until_error (dcb_parse_item max other) out_array (map fmt_d ns) = inl e).
Proof.
  induction ns as [|n ns IH]; intros out_array Hrange Hmax Hother.
  - split; [intros _; simpl; rewrite app_nil_r; reflexivity|].
    intros Hbad. exfalso. apply Hbad. constructor.
  - inversion Hrange as [|? ? Hn Hns]; subst.
    destruct (dcb_parse_item_decimal max other out_array n Hn Hmax Hother) as [Hyes Hno].
    destruct (IH (out_array ++ [n])%list Hns Hmax Hother) as [IHyes IHno].
    split.
    + intros Hall. inversion Hall as [|? ? Hx Hrest]; subst.
      simpl. rewrite (Hyes Hx), (IHyes Hrest), <- app_assoc. reflexivity.
    + intros Hbad. simpl.
      assert (Hdec : Decision (dcb_value_allowed max other n))
        by (unfold dcb_value_allowed; apply _).
      destruct Hdec as [Hx|Hx].
      * rewrite (Hyes Hx). apply IHno. intros Hrest. apply Hbad. constructor; assumption.
      * destruct (Hno Hx) as [e ->]. eauto.
Qed.

(** What the parser lets through is within the bounds. *)
Lemma dcb_parse_item_range (max other : Z) (out_array : list Z) (item : string)
    (res : list Z) :
  dcb_parse_item max other out_array item = inr res ->
  exists num, res = (out_array ++ [num])%list /\ 0 <= num <= Z.max max other.
Proof.
  unfold dcb_parse_item.
  pose proof (str_to_int64_range (g_strstrip item) 10 0
                (if other =? 0 then max else other) (-1)) as Hr.
  cbv zeta in Hr.
  destruct (_ =? -1) eqn:E.
  - cbn [orb]. destruct (negb (other =? 0)); discriminate.
  - cbn [orb]. destruct (_ && _); [destruct (negb (other =? 0)); discriminate|].
    intros [= <-]. eexists. split; [reflexivity|].
    apply Z.eqb_neq in E. destruct Hr as [Hr|Hr]; [congruence|].
    destruct (other =? 0); lia.
Qed.

Lemma dcb_parse_items_range (max other : Z) (items : list string) : forall out_array res,
  fold_until_error (dcb_parse_item max other) out_array items = inr res ->
  exists nums, res = (out_array ++ nums)%list
               /\ length nums = length items
               /\ Forall (fun n => 0 <= n <= Z.max max other) nums.
Proof.
  induction items as [|item items IH]; intros out_array res Hfold; simpl in Hfold.
  - injection Hfold as <-. exists []. rewrite app_nil_r. auto.
  - destruct (dcb_parse_item max other out_array item) as [e|acc] eqn:Hitem; [discriminate|].
    destruct (dcb_parse_item_range _ _ _ _ _ Hitem) as (num & -> & Hnum).
    destruct (IH _ _ Hfold) as (nums & -> & Hlen & Hall).
    exists (num :: nums). rewrite <- app_assoc. simpl. auto.
Qed.

Lemma dcb_parse_uint_array_range (val : string) (max other : Z) (nums : list Z) :
  dcb_parse_uint_array val max other = inr nums ->
  length (g_strsplit_set val ",") = 8%nat
  /\ length nums = 8%nat
  /\ Forall (fun n => 0 <= n <= Z.max max other) nums.
Proof.
  unfold dcb_parse_uint_array.
  destruct (Nat.eqb (length (g_strsplit_set val ",")) 8) eqn:E; [|discriminate].
  apply Nat.eqb_eq in E. cbn [negb]. intros Hfold.
  destruct (dcb_parse_items_range _ _ _ _ _ Hfold) as (nums' & Hres & Hlen & Hall).
  simpl in Hres. subst nums'. rewrite Hlen. auto.
Qed.

Lemma sum_Z_nonneg (nums : list Z) (bound : Z) :
  Forall (fun n => 0 <= n <= bound) nums -> 0 <= sum_Z nums.
Proof. induction 1; simpl; lia. Qed.

(** The percentage loop leaves 100 exactly when the slots add up to 100. *)
Lemma dcb_percent_sum_100 (nums : list Z) : forall sum0,
  0 <= sum0 <= 100 ->
  Forall (fun n => 0 <= n <= G_MAXUINT32) nums ->
  dcb_percent_sum nums sum0 = 100 <-> sum0 + sum_Z nums = 100.
Proof.
  assert (H32 : 2 ^ 32 = 4294967296) by reflexivity.
  assert (Hmax : G_MAXUINT32 = 4294967295) by reflexivity.
  induction nums as [|n nums IH]; intros sum0 Hsum Hall; simpl.
  - lia.
  - inversion Hall as [|? ? Hn Hrest]; subst.
    pose proof (sum_Z_nonneg _ _ Hrest) as Hpos.
    rewrite H32.
    destruct ((100 <? n) || (100 <? (sum0 + n) mod 4294967296)) eqn:E.
    + apply orb_true_iff in E as [E|E]; apply Z.ltb_lt in E.
      * split; [|lia]. intros Hmod. exfalso. revert Hmod.
        Z.div_mod_to_equations. lia.
      * split; [lia|]. intros Htot. exfalso.
        rewrite Z.mod_small in E by lia. lia.
    + apply orb_false_elim in E as [E1 E2]. apply Z.ltb_ge in E1, E2.
      rewrite Z.mod_small in E2 by lia.
      rewrite Z.mod_small by lia.
      rewrite IH by (assumption || lia). lia.
Qed.

Section DcbProperties.
Context `{Collaborators}.

(** What [_set_fcn_dcb] returns on a text. *)
Lemma set_fcn_dcb_cases (info : NMMetaPropertyInfo) (td : NMMetaPropertyTypData)
    (dcb : subtype_dcb) (setting : NMSetting) (value : string) :
  property_typ_data info = Some td -> subtype td = subtype_is_dcb dcb ->
  match dcb_parse_uint_array value (dcb_max dcb) (dcb_other dcb) with
  | inl e => _set_fcn_dcb info setting (Some value) = return_FALSE e setting
  | inr nums =>
      if dcb_is_percent dcb && negb (dcb_percent_sum nums 0 =? 100)
      then _set_fcn_dcb info setting (Some value)
           = return_FALSE (g_set_error_1_0 "bandwidth percentages must total 100%%") setting
      else exists setting' warnings,
             _set_fcn_dcb info setting (Some value) = Returned true None setting' warnings
  end.
Proof.
  intros Htd Hsub. unfold _set_fcn_dcb. rewrite Htd, Hsub.
  destruct (dcb_parse_uint_array _ _ _) as [e|nums]; [reflexivity|].
  destruct (_ && _); [reflexivity|]. eauto.
Qed.

End DcbProperties.

(** C6.  The DCB array parser takes exactly 8 comma-separated values; a
    value written in decimal is accepted when it lies in [[0, max]] or is
    the "other" value of the property (where the property has one, above
    [max]).  The setter parses first: the error of the parser, for the
    count or for a value out of range, is what it returns, whatever the
    values add up to.  Only for a text that parses does a percentage
    property look at the sum, so that its set succeeds exactly when the
    text parses and its 8 values add up to 100, and fails with the
    message about the total otherwise.  ["10,10,10,10,10,10,10,30"]
    succeeds, ["10,10,10,10,10,10,10,20"] fails on the total, and
    ["10,10,10,10,10,10,10,200"] fails on the range of its last value. *)
Theorem dcb_array_rule :
  (* the comma-separated decimal text of [ns] *)
  (forall max other ns,
      0 <= max -> other = 0 \/ max < other ->
      Forall (fun n => G_MININT64 < n <= G_MAXINT64) ns ->
      (length ns = 8%nat /\ Forall (dcb_value_allowed max other) ns ->
       dcb_parse_uint_array (comma_text (map fmt_d ns)) max other = inr ns)
      /\ (~ (length ns = 8%nat /\ Forall (dcb_value_allowed max other) ns) ->
          exists e, dcb_parse_uint_array (comma_text (map fmt_d ns)) max other = inl e))
  (* any text: 8 fields, 8 values *)
  /\ (forall val max other nums,
      dcb_parse_uint_array val max other = inr nums ->
      length (g_strsplit_set val ",") = 8%nat /\ length nums = 8%nat)
  (* the range of the values is checked before the sum *)
  /\ (forall (C : Collaborators) info td dcb setting value,
      property_typ_data info = Some td -> subtype td = subtype_is_dcb dcb ->
      (forall e,
          dcb_parse_uint_array value (dcb_max dcb) (dcb_other dcb) = inl e ->
          _set_fcn_dcb info setting (Some value) = return_FALSE e setting)
      /\ (forall nums,
            dcb_parse_uint_array value (dcb_max dcb) (dcb_other dcb) = inr nums ->
            dcb_is_percent dcb = true ->
            0 <= dcb_max dcb <= G_MAXUINT32 -> 0 <= dcb_other dcb <= G_MAXUINT32 ->
            sum_Z nums <> 100 ->
            _set_fcn_dcb info setting (Some value)
            = return_FALSE (g_set_error_1_0 "bandwidth percentages must total 100%%")
                setting))
  (* a percentage property *)
  /\ (forall (C : Collaborators) info td dcb setting value,
      property_typ_data info = Some td -> subtype td = subtype_is_dcb dcb ->
      dcb_is_percent dcb = true ->
      0 <= dcb_max dcb <= G_MAXUINT32 -> 0 <= dcb_other dcb <= G_MAXUINT32 ->
      (exists setting' warnings,
          _set_fcn_dcb info setting (Some value) = Returned true None setting' warnings)
      <-> (exists nums,
             dcb_parse_uint_array value (dcb_max dcb) (dcb_other dcb) = inr nums
             /\ sum_Z nums = 100))
  (* the two texts of the specification, and one with a value out of range *)
  /\ (let C := reference_collaborators in
      let dcb_setting := mkNMSetting ∅ ∅ in
      (exists setting' warnings,
          _set_fcn_dcb property_info_dcb_priority_group_bandwidth dcb_setting
            (Some "10,10,10,10,10,10,10,30") = Returned true None setting' warnings
          /\ setting_uint_array NM_SETTING_DCB_PRIORITY_GROUP_BANDWIDTH setting'
             = [10; 10; 10; 10; 10; 10; 10; 30])
      /\ _set_fcn_dcb property_info_dcb_priority_group_bandwidth dcb_setting
           (Some "10,10,10,10,10,10,10,20")
         = return_FALSE (g_set_error_1_0 "bandwidth percentages must total 100%%")
             dcb_setting
      /\ _set_fcn_dcb property_info_dcb_priority_group_bandwidth dcb_setting
           (Some "10,10,10,10,10,10,10,200")
         = return_FALSE
             (g_set_error_1_0 "'200' not a number between 0 and 100 (inclusive)")
             dcb_setting).
Proof.
  split; [|split; [|split; [|split]]].
  - intros max other ns Hmax Hother Hrange.
    unfold dcb_parse_uint_array. rewrite g_strsplit_set_decimals, length_map.
    destruct (dcb_parse_items_decimal max other ns [] Hrange Hmax Hother) as [Hyes Hno].
    split.
    + intros [Hlen Hall]. rewrite Hlen. simpl. exact (Hyes Hall).
    + intros Hbad. destruct (Nat.eqb (length ns) 8) eqn:E; [|simpl; eauto].
      apply Nat.eqb_eq in E. simpl. apply Hno. intros Hall. apply Hbad. auto.
  - intros val max other nums Hparse.
    destruct (dcb_parse_uint_array_range _ _ _ _ Hparse) as (? & ? & _). auto.
  - intros C info td dcb setting value Htd Hsub.
    pose proof (set_fcn_dcb_cases info td dcb setting value Htd Hsub) as Hcases.
    split.
    + intros e Hparse. rewrite Hparse in Hcases. exact Hcases.
    + intros nums Hparse Hpct Hmax Hother Hsum. rewrite Hparse, Hpct in Hcases.
      cbn [andb] in Hcases.
      destruct (dcb_parse_uint_array_range _ _ _ _ Hparse) as (_ & _ & Hall).
      assert (Hall' : Forall (fun n => 0 <= n <= G_MAXUINT32) nums).
      { eapply Forall_impl; [exact Hall|]. simpl. intros n Hn. lia. }
      pose proof (dcb_percent_sum_100 nums 0 ltac:(lia) Hall') as Hiff.
      destruct (dcb_percent_sum nums 0 =? 100) eqn:E; cbn [negb] in Hcases;
        [|exact Hcases].
      apply Z.eqb_eq in E. exfalso. apply Hsum. apply Hiff in E. lia.
  - intros C info td dcb setting value Htd Hsub Hpct Hmax Hother.
    pose proof (set_fcn_dcb_cases info td dcb setting value Htd Hsub) as Hcases.
    rewrite Hpct in Hcases. cbn [andb] in Hcases.
    destruct (dcb_parse_uint_array value (dcb_max dcb) (dcb_other dcb)) as [e|nums] eqn:Hparse.
    + rewrite Hcases. split.
      * intros (s & w & Hbad). discriminate.
      * intros (nums & Hbad & _). discriminate.
    + destruct (dcb_parse_uint_array_range _ _ _ _ Hparse) as (_ & _ & Hall).
      assert (Hall' : Forall (fun n => 0 <= n <= G_MAXUINT32) nums).
      { eapply Forall_impl; [exact Hall|]. simpl. intros n Hn. lia. }
      pose proof (dcb_percent_sum_100 nums 0 ltac:(lia) Hall') as Hsum.
      destruct (dcb_percent_sum nums 0 =? 100) eqn:E; cbn [negb] in Hcases.
      * apply Z.eqb_eq in E. split; [|intros _; exact Hcases].
        intros _. exists nums. split; [reflexivity|]. apply Hsum in E. lia.
      * apply Z.eqb_neq in E. rewrite Hcases. split.
        -- intros (s & w & Hbad). discriminate.
        -- intros (nums' & [= <-] & Htot). exfalso. apply E, Hsum. lia.
  - cbv zeta. split; [|split].
    + eexists _, _. split; vm_compute; reflexivity.
    + vm_compute. reflexivity.
    + vm_compute. reflexivity.
Qed.

(** The percentage rule at work on the bandwidth property. *)
Lemma dcb_array_rule_witness :
  dcb_parse_uint_array (comma_text (map fmt_d [50; 50; 0; 0; 0; 0; 0; 0])) 100 0
  = inr [50; 50; 0; 0; 0; 0; 0; 0].
Proof.
  destruct dcb_array_rule as (Hdecimal & _).
  refine (proj1 (Hdecimal 100 0 [50; 50; 0; 0; 0; 0; 0; 0] _ _ _) _).
  - lia.
  - left. reflexivity.
  - repeat constructor; vm_compute; congruence.
  - split; [reflexivity|].
    repeat (apply List.Forall_cons; [left; lia|]). apply List.Forall_nil.
Defined.

(** ** Getters: secrets and enumerations *)

(** C3.  For a property marked [is_secret], a get without
    [SHOW_SECRETS] in either text mode returns the redaction token of the
    mode (the token itself in parsable mode, its translation in pretty
    mode) and reports the value as default; the result is the same for
    any two settings, so it does not depend on the stored value. *)
Theorem secret_get_is_redacted (C : Collaborators) (descriptor : PropertyDescriptor)
    (setting setting' : NMSetting) (get_type : NMMetaAccessorGetType)
    (get_flags : list NMMetaAccessorGetFlags) :
  is_secret (property_info descriptor) = true ->
  ~ In NM_META_ACCESSOR_GET_FLAGS_SHOW_SECRETS get_flags ->
  get_type = NM_META_ACCESSOR_GET_TYPE_PARSABLE \/ get_type = NM_META_ACCESSOR_GET_TYPE_PRETTY ->
  _meta_type_property_info_get_fcn descriptor setting get_type get_flags
  = mkGetResult (Some (_get_text_hidden get_type)) (Some true)
  /\ _get_text_hidden get_type
     = match get_type with
       | NM_META_ACCESSOR_GET_TYPE_PRETTY => gettext NM_META_TEXT_HIDDEN
       | _ => NM_META_TEXT_HIDDEN
       end
  /\ _meta_type_property_info_get_fcn descriptor setting get_type get_flags
     = _meta_type_property_info_get_fcn descriptor setting' get_type get_flags.
Proof.
  intros Hsecret Hflags Hmode.
  assert (Hshow : NM_FLAGS_HAS get_flags NM_META_ACCESSOR_GET_FLAGS_SHOW_SECRETS = false).
  { unfold NM_FLAGS_HAS. apply bool_decide_eq_false. rewrite list_elem_of_In. exact Hflags. }
  assert (Hget : forall s,
             _meta_type_property_info_get_fcn descriptor s get_type get_flags
             = mkGetResult (Some (_get_text_hidden get_type)) (Some true)).
  { intros s. unfold _meta_type_property_info_get_fcn.
    rewrite Hsecret, Hshow. destruct Hmode as [-> | ->]; reflexivity. }
  split; [apply Hget|]. split.
  - destruct Hmode as [-> | ->]; reflexivity.
  - rewrite (Hget setting), (Hget setting'). reflexivity.
Qed.

(** The password of an 802.1x setting, set or empty, reads ["<hidden>"]. *)
Lemma secret_get_is_redacted_witness :
  let C := reference_collaborators in
  _meta_type_property_info_get_fcn descriptor_802_1x_password
    (setting_802_1x [] [] (Some "hunter2")) NM_META_ACCESSOR_GET_TYPE_PARSABLE []
  = mkGetResult (Some "<hidden>") (Some true)
  /\ _meta_type_property_info_get_fcn descriptor_802_1x_password
       (setting_802_1x [] [] (Some "hunter2")) NM_META_ACCESSOR_GET_TYPE_PARSABLE []
     = _meta_type_property_info_get_fcn descriptor_802_1x_password
         (setting_802_1x [] [] (Some "")) NM_META_ACCESSOR_GET_TYPE_PARSABLE [].
Proof.
  cbv zeta.
  destruct (secret_get_is_redacted reference_collaborators
              (@descriptor_802_1x_password reference_collaborators)
              (setting_802_1x [] [] (Some "hunter2")) (setting_802_1x [] [] (Some ""))
              NM_META_ACCESSOR_GET_TYPE_PARSABLE [])
    as (Hget & _ & Hsame).
  - reflexivity.
  - simpl. tauto.
  - left. reflexivity.
  - split; [exact Hget | exact Hsame].
Defined.

Section EnumProperties.
Context `{Collaborators}.

Lemma enum_format_default_policy (info : NMMetaPropertyInfo) (get_type : NMMetaAccessorGetType) :
  enum_default_policy info ->
  enum_format_of (property_typ_data info) get_type
  = if bool_decide (get_type = NM_META_ACCESSOR_GET_TYPE_PRETTY)
    then mkEnumFormat true false true true true
    else mkEnumFormat true false true false false.
Proof.
  unfold enum_default_policy, enum_format_of.
  destruct (property_typ_data info) as [td|].
  - intros ->. unfold NM_FLAGS_ANY. simpl.
    rewrite !andb_false_r. reflexivity.
  - intros _. reflexivity.
Qed.

End EnumProperties.

(** What the enum getter writes for a flags value of 0 under the default
    rendering policy. *)
Lemma enum_getter_zero_text (C : Collaborators) (info : NMMetaPropertyInfo)
    (setting : NMSetting) (pspec : GParamSpec) (gtype : GType)
    (get_flags : list NMMetaAccessorGetFlags) :
  enum_default_policy info ->
  g_object_class_find_property setting (property_name info) = Some pspec ->
  enum_getter_gtype info pspec = Some gtype ->
  G_IS_FLAGS_CLASS gtype = true ->
  g_object_get_property setting (property_name info) pspec = GValue_int 0 ->
  get_text (_get_fcn_gobject_enum info setting NM_META_ACCESSOR_GET_TYPE_PARSABLE get_flags)
  = Some "0x0"
  /\ get_text (_get_fcn_gobject_enum info setting NM_META_ACCESSOR_GET_TYPE_PRETTY get_flags)
     = Some (let names := _nm_utils_enum_to_str_full gtype 0 in
             if String.eqb names "0x0" then "0x0" else "0x0 (" +:+ names +:+ ")")
  /\ (_nm_utils_enum_to_str_full gtype 0 = "none" ->
      get_text (_get_fcn_gobject_enum info setting NM_META_ACCESSOR_GET_TYPE_PRETTY get_flags)
      = Some "0x0 (none)").
Proof.
  intros Hpolicy Hfind Hgtype Hflags Hvalue.
  assert (Hnotenum : G_IS_ENUM_CLASS gtype = false) by (destruct gtype; discriminate || reflexivity).
  assert (Hget : forall get_type,
             unsupported_get_type get_type = false ->
             _get_fcn_gobject_enum info setting get_type get_flags
             = let fmt := enum_format_of (property_typ_data info) get_type in
               let is_default := Some (g_param_value_defaults pspec (GValue_int 0)) in
               if format_numeric fmt && negb (format_text fmt) then
                 mkGetResult (Some (enum_numeric_text fmt gtype 0)) is_default
               else
                 let s := _nm_utils_enum_to_str_full gtype (cast_int 0) in
                 if negb (format_numeric fmt) then mkGetResult (Some s) is_default
                 else
                   let s_numeric := enum_numeric_text fmt gtype 0 in
                   if String.eqb s s_numeric then mkGetResult (Some s) is_default
                   else if format_text_l10n fmt then
                     mkGetResult (Some (s_numeric +:+ gettext " (" +:+ s +:+ gettext ")"))
                       is_default
                   else mkGetResult (Some (s_numeric +:+ " (" +:+ s +:+ ")")) is_default).
  { intros get_type Hsupported. unfold _get_fcn_gobject_enum.
    rewrite Hsupported, Hfind, Hvalue. cbv zeta.
    unfold enum_getter_gtype in Hgtype. cbv zeta in Hgtype.
    destruct (typ_data_get_gtype (property_typ_data info)) as [g|] eqn:Eg.
    - destruct (_ || _ || _) eqn:E; [|discriminate]. injection Hgtype as ->.
      simpl. rewrite andb_false_r. reflexivity.
    - destruct (_ || _) eqn:E; [|discriminate]. injection Hgtype as <-.
      destruct (bool_decide (value_type pspec = G_TYPE_INT)
                || bool_decide (value_type pspec = G_TYPE_UINT)) eqn:Eplain.
      + exfalso. apply orb_true_iff in Eplain as [Ep|Ep];
          apply bool_decide_eq_true in Ep; rewrite Ep in Hflags; discriminate.
      + simpl. rewrite E. reflexivity. }
  assert (Hparsable : get_text (_get_fcn_gobject_enum info setting
                                  NM_META_ACCESSOR_GET_TYPE_PARSABLE get_flags) = Some "0x0").
  { rewrite Hget by reflexivity. rewrite enum_format_default_policy by exact Hpolicy.
    simpl. unfold enum_numeric_text. simpl. rewrite Hnotenum. reflexivity. }
  assert (Hpretty : get_text (_get_fcn_gobject_enum info setting
                                NM_META_ACCESSOR_GET_TYPE_PRETTY get_flags)
                    = Some (let names := _nm_utils_enum_to_str_full gtype 0 in
                            if String.eqb names "0x0" then "0x0" else "0x0 (" +:+ names +:+ ")")).
  { rewrite Hget by reflexivity. rewrite enum_format_default_policy by exact Hpolicy.
    simpl. unfold enum_numeric_text. simpl. rewrite Hnotenum. simpl.
    change (cast_int 0) with 0. change ("0x" +:+ fmt_d 0) with "0x0".
    unfold gettext.
    destruct (String.eqb (_nm_utils_enum_to_str_full gtype 0) "0x0") eqn:E.
    - apply String.eqb_eq in E. rewrite E. reflexivity.
    - reflexivity. }
  split; [exact Hparsable|]. split; [exact Hpretty|].
  intros Hnone. rewrite Hpretty, Hnone. reflexivity.
Qed.

(** C7, as amended.  A stored flags value of 0 is formatted by the getter
    of the property.  The enum getter, for a flags property under the
    default rendering policy, writes it with the hexadecimal prefix:
    ["0x0"] in parsable mode and, in pretty mode, ["0x0 (<names>)"] where
    [<names>] is the text that the flags class gives for 0 (["0x0 (none)"]
    for a class that names 0 "none"), the parenthesis being left out only
    when that text is ["0x0"] itself.  The getter of the secret flags
    writes ["0 (none)"] in pretty mode and ["0"] in parsable mode, the
    getter of the VLAN flags ["0 (NONE)"] and ["0"], and the getter of the
    DCB flags ["0 (disabled)"] in both modes. *)
Theorem flags_zero_rendering (C : Collaborators) :
  (forall (info : NMMetaPropertyInfo) (setting : NMSetting) (pspec : GParamSpec)
          (gtype : GType) (get_flags : list NMMetaAccessorGetFlags),
      enum_default_policy info ->
      g_object_class_find_property setting (property_name info) = Some pspec ->
      enum_getter_gtype info pspec = Some gtype ->
      G_IS_FLAGS_CLASS gtype = true ->
      g_object_get_property setting (property_name info) pspec = GValue_int 0 ->
      get_text (_get_fcn_gobject_enum info setting NM_META_ACCESSOR_GET_TYPE_PARSABLE
                  get_flags)
      = Some "0x0"
      /\ get_text (_get_fcn_gobject_enum info setting NM_META_ACCESSOR_GET_TYPE_PRETTY
                     get_flags)
         = Some (let names := _nm_utils_enum_to_str_full gtype 0 in
                 if String.eqb names "0x0" then "0x0" else "0x0 (" +:+ names +:+ ")")
      /\ (_nm_utils_enum_to_str_full gtype 0 = "none" ->
          get_text (_get_fcn_gobject_enum info setting NM_META_ACCESSOR_GET_TYPE_PRETTY
                      get_flags)
          = Some "0x0 (none)"))
  /\ (forall (info : NMMetaPropertyInfo) (setting : NMSetting)
             (get_flags : list NMMetaAccessorGetFlags),
        g_object_get_uint setting (property_name info) = 0 ->
        get_text (_get_fcn_gobject_secret_flags info setting
                    NM_META_ACCESSOR_GET_TYPE_PRETTY get_flags) = Some "0 (none)"
        /\ get_text (_get_fcn_gobject_secret_flags info setting
                       NM_META_ACCESSOR_GET_TYPE_PARSABLE get_flags) = Some "0"
        /\ get_text (_get_fcn_dcb_flags info setting NM_META_ACCESSOR_GET_TYPE_PRETTY
                       get_flags) = Some "0 (disabled)"
        /\ get_text (_get_fcn_dcb_flags info setting NM_META_ACCESSOR_GET_TYPE_PARSABLE
                       get_flags) = Some "0 (disabled)")
  /\ (forall (nm_setting_vlan_get_flags : NMSetting -> Z) (info : NMMetaPropertyInfo)
             (setting : NMSetting) (get_flags : list NMMetaAccessorGetFlags),
        nm_setting_vlan_get_flags setting = 0 ->
        get_text (_get_fcn_vlan_flags nm_setting_vlan_get_flags info setting
                    NM_META_ACCESSOR_GET_TYPE_PRETTY get_flags) = Some "0 (NONE)"
        /\ get_text (_get_fcn_vlan_flags nm_setting_vlan_get_flags info setting
                       NM_META_ACCESSOR_GET_TYPE_PARSABLE get_flags) = Some "0").
Proof.
  split; [|split].
  - intros info setting pspec gtype get_flags.
    apply (enum_getter_zero_text C info setting pspec gtype get_flags).
  - intros info setting get_flags Hzero.
    unfold _get_fcn_gobject_secret_flags, _get_fcn_dcb_flags. cbv zeta.
    rewrite Hzero. repeat split.
  - intros nm_setting_vlan_get_flags info setting get_flags Hzero.
    unfold _get_fcn_vlan_flags. cbv zeta. rewrite Hzero. split; reflexivity.
Qed.

(** The flags of an IP tunnel, 0, under the reference flags class, and
    the flags of a password that has none. *)
Lemma flags_zero_rendering_witness :
  let C := reference_collaborators in
  get_text (_get_fcn_gobject_enum property_info_ip_tunnel_flags (setting_ip_tunnel 0)
              NM_META_ACCESSOR_GET_TYPE_PARSABLE []) = Some "0x0"
  /\ get_text (_get_fcn_gobject_enum property_info_ip_tunnel_flags (setting_ip_tunnel 0)
                 NM_META_ACCESSOR_GET_TYPE_PRETTY []) = Some "0x0 (none)"
  /\ get_text (_get_fcn_gobject_secret_flags (property_info_plain "password-flags")
                 (example_setting
                    [("password-flags",
                      mkGParamSpec (G_TYPE_FLAGS "NMSettingSecretFlags") (GValue_int 0))] [])
                 NM_META_ACCESSOR_GET_TYPE_PRETTY []) = Some "0 (none)".
Proof.
  cbv zeta.
  destruct (flags_zero_rendering reference_collaborators) as (Henum & Hsecret & _).
  destruct (Henum property_info_ip_tunnel_flags
              (setting_ip_tunnel 0) (mkGParamSpec G_TYPE_UINT (GValue_int 0))
              (G_TYPE_FLAGS "NMIPTunnelFlags") [])
    as (Hparsable & _ & Hpretty).
  - reflexivity.
  - vm_compute. reflexivity.
  - reflexivity.
  - reflexivity.
  - vm_compute. reflexivity.
  - split; [exact Hparsable|]. split; [apply Hpretty; vm_compute; reflexivity|].
    apply (Hsecret (property_info_plain "password-flags")). vm_compute. reflexivity.
Defined.

(** C7 as stated fails: the flags of an IP tunnel, 0, do not read
    ["0 (none)"] in pretty mode nor ["0"] in parsable mode. *)
Lemma enum_getter_flags_zero_counterexample :
  let C := reference_collaborators in
  enum_default_policy property_info_ip_tunnel_flags
  /\ get_text (_get_fcn_gobject_enum property_info_ip_tunnel_flags (setting_ip_tunnel 0)
                 NM_META_ACCESSOR_GET_TYPE_PRETTY []) = Some "0x0 (none)"
  /\ get_text (_get_fcn_gobject_enum property_info_ip_tunnel_flags (setting_ip_tunnel 0)
                 NM_META_ACCESSOR_GET_TYPE_PRETTY []) <> Some "0 (none)"
  /\ get_text (_get_fcn_gobject_enum property_info_ip_tunnel_flags (setting_ip_tunnel 0)
                 NM_META_ACCESSOR_GET_TYPE_PARSABLE []) = Some "0x0"
  /\ get_text (_get_fcn_gobject_enum property_info_ip_tunnel_flags (setting_ip_tunnel 0)
                 NM_META_ACCESSOR_GET_TYPE_PARSABLE []) <> Some "0".
Proof.
  cbv zeta. repeat split; try (vm_compute; reflexivity); vm_compute; discriminate.
Defined.

(** ** Setters: reset and the connection type *)

Section ResetProperties.
Context `{Collaborators}.

(** After [_gobject_property_reset_default] an installed property holds
    the initial value of its type; when that is its default, or the
    property is a string list or an option map,
    [_gobject_property_is_default] says so. *)
Lemma reset_default_is_default (setting : NMSetting) (prop_name : string) (pspec : GParamSpec) :
  g_object_class_find_property setting prop_name = Some pspec ->
  exists setting',
    _gobject_property_reset_default setting prop_name = (true, setting')
    /\ setting_values setting' !! prop_name = Some (g_value_init (value_type pspec))
    /\ (pspec_default_is_initial pspec ->
        _gobject_property_is_default setting' prop_name = true).
Proof.
  intros Hfind. unfold _gobject_property_reset_default. rewrite Hfind. cbv zeta.
  eexists. split; [reflexivity|].
  assert (Hheld : setting_values
                    (g_object_set setting prop_name (g_value_init (value_type pspec)))
                  !! prop_name = Some (g_value_init (value_type pspec))).
  { unfold g_object_set. simpl. apply lookup_insert_eq. }
  split; [exact Hheld|].
  intros Hinitial.
  unfold _gobject_property_is_default, g_object_class_find_property, g_object_get_property.
  unfold g_object_class_find_property in Hfind.
  cbn [g_object_set setting_class]. rewrite Hfind, Hheld. simpl.
  destruct (bool_decide (value_type pspec = G_TYPE_STRV)) eqn:Estrv.
  { apply bool_decide_eq_true in Estrv. rewrite Estrv. reflexivity. }
  destruct (bool_decide (value_type pspec = G_TYPE_HASH_TABLE)) eqn:Ehash.
  { apply bool_decide_eq_true in Ehash. rewrite Ehash. reflexivity. }
  apply bool_decide_eq_false in Estrv, Ehash.
  destruct Hinitial as [Hstrv|[Hhash|Hinitial]]; [contradiction|contradiction|].
  unfold g_param_value_defaults. apply bool_decide_eq_true. symmetry. exact Hinitial.
Qed.

End ResetProperties.

(** C8.  Setting the connection type fails with the error "Can not change
    the connection type", and changes nothing, whenever the connection
    already has a UUID, whatever the value supplied; on a connection
    without UUID, setting the type to a text succeeds, stores the text and
    assigns the UUID that the generator returns. *)
Theorem connection_type_set_once (C : Collaborators) (info : NMMetaPropertyInfo)
    (setting : NMSetting) (value : option string) :
  property_name info = NM_SETTING_CONNECTION_TYPE ->
  (is_Some (nm_setting_connection_get_uuid setting) ->
   _set_fcn_connection_type info setting value
   = return_FALSE (g_set_error_1_0 "Can not change the connection type") setting)
  /\ (nm_setting_connection_get_uuid setting = None ->
      forall text, value = Some text ->
      exists setting',
        _set_fcn_connection_type info setting value = return_TRUE setting'
        /\ nm_setting_connection_get_uuid setting' = Some nm_utils_uuid_generate
        /\ setting_values setting' !! NM_SETTING_CONNECTION_TYPE
           = Some (GValue_string (Some text))).
Proof.
  intros Hname. unfold _set_fcn_connection_type. split.
  - intros Huuid. rewrite bool_decide_eq_true_2 by exact Huuid. reflexivity.
  - intros Hnone text ->. rewrite Hnone.
    rewrite bool_decide_eq_false_2 by (intros [? ?]; discriminate).
    eexists. split; [reflexivity|]. rewrite Hname. split.
    + unfold nm_setting_connection_get_uuid, g_object_set. simpl.
      rewrite lookup_insert_ne by discriminate. rewrite lookup_insert_eq. reflexivity.
    + unfold g_object_set. simpl. apply lookup_insert_eq.
Qed.

(** A connection that has its UUID refuses a type; a new one takes it. *)
Lemma connection_type_set_once_witness :
  let C := reference_collaborators in
  _set_fcn_connection_type (property_info_plain NM_SETTING_CONNECTION_TYPE)
    (setting_connection (Some "0a3c0e6e-5d6b-4d0e-8a39-1c5d6c1f1a10") (Some "bond"))
    (Some "802-3-ethernet")
  = return_FALSE (g_set_error_1_0 "Can not change the connection type")
      (setting_connection (Some "0a3c0e6e-5d6b-4d0e-8a39-1c5d6c1f1a10") (Some "bond"))
  /\ exists setting',
       _set_fcn_connection_type (property_info_plain NM_SETTING_CONNECTION_TYPE)
         (setting_connection None None) (Some "802-3-ethernet") = return_TRUE setting'
       /\ nm_setting_connection_get_uuid setting' = Some nm_utils_uuid_generate
       /\ setting_values setting' !! NM_SETTING_CONNECTION_TYPE
          = Some (GValue_string (Some "802-3-ethernet")).
Proof.
  cbv zeta. split.
  - refine (proj1 (connection_type_set_once reference_collaborators
                     (property_info_plain NM_SETTING_CONNECTION_TYPE)
                     (setting_connection (Some "0a3c0e6e-5d6b-4d0e-8a39-1c5d6c1f1a10")
                        (Some "bond"))
                     (Some "802-3-ethernet") _) _).
    + reflexivity.
    + vm_compute. eexists. reflexivity.
  - refine (proj2 (connection_type_set_once reference_collaborators
                     (property_info_plain NM_SETTING_CONNECTION_TYPE)
                     (setting_connection None None) (Some "802-3-ethernet") _)
              _ "802-3-ethernet" _).
    + reflexivity.
    + vm_compute. reflexivity.
    + reflexivity.
Defined.

(** C2, as amended.  Every setter of the file except the one of the
    connection type handles a set with the null value before any check
    and without its parser, by its reset: the setters of the connection
    master and of the WEP keys set the property to [NULL], the setter of
    the IPv4 routes clears the route list, the setter of an ethtool
    feature sets the feature to the default ternary, and every other
    setter hands the property to [_gobject_property_reset_default], after
    which an installed property that is a string list or an option map,
    or whose default is the initial value of its type, is at its default:
    [_gobject_property_is_default] is true.  The setter of the connection
    type tests the UUID first: with a UUID the null set fails with "Can
    not change the connection type" and resets nothing, without one it
    sets the type to [NULL]. *)
Theorem set_null_resets_to_default (C : Collaborators)
    (text_path : setter -> NMMetaPropertyInfo -> NMSetting -> string -> set_result)
    (nm_setting_connection_add_permission : NMSetting -> string -> string -> NMSetting)
    (nm_utils_is_valid_iface_name nm_utils_is_uuid : string -> bool)
    (nm_setting_ethtool_set_feature : NMSetting -> Z -> NMTernary -> NMSetting)
    (options_add_func : setter -> NMSetting -> string -> string -> NMSetting)
    (options_valid_func1 : setter -> option (NMSetting -> list string))
    (options_valid_func2 : setter -> option (string -> string -> GError + string))
    (mac_blacklist_add_func : setter -> NMSetting -> string -> NMSetting)
    (k : setter) (info : NMMetaPropertyInfo) (setting : NMSetting) :
  let set_fcn :=
    set_fcn_of text_path nm_setting_connection_add_permission
      nm_utils_is_valid_iface_name nm_utils_is_uuid nm_setting_ethtool_set_feature
      options_add_func options_valid_func1 options_valid_func2 mac_blacklist_add_func in
  (k ∉ setters_with_own_reset ->
   set_fcn k info setting None = return_reset_default info setting)
  /\ (forall pspec,
        g_object_class_find_property setting (property_name info) = Some pspec ->
        exists setting',
          return_reset_default info setting = return_TRUE setting'
          /\ setting_values setting' !! property_name info
             = Some (g_value_init (value_type pspec))
          /\ (pspec_default_is_initial pspec ->
              _gobject_property_is_default setting' (property_name info) = true))
  /\ (k = Setter_connection_master \/ k = Setter_wireless_wep_key ->
      set_fcn k info setting None
      = return_TRUE (g_object_set setting (property_name info) (GValue_string None)))
  /\ (k = Setter_ip4_config_routes ->
      set_fcn k info setting None
      = return_TRUE (nm_setting_ip_config_clear_routes setting)
      /\ setting_routes (nm_setting_ip_config_clear_routes setting) = [])
  /\ (k = Setter_ethtool ->
      forall td ethtool_id,
        property_typ_data info = Some td -> subtype td = subtype_is_ethtool ethtool_id ->
        set_fcn k info setting None
        = return_TRUE (nm_setting_ethtool_set_feature setting ethtool_id NM_TERNARY_DEFAULT))
  /\ (k = Setter_connection_type ->
      (is_Some (nm_setting_connection_get_uuid setting) ->
       set_fcn k info setting None
       = return_FALSE (g_set_error_1_0 "Can not change the connection type") setting)
      /\ (nm_setting_connection_get_uuid setting = None ->
          set_fcn k info setting None
          = return_TRUE (g_object_set setting (property_name info) (GValue_string None)))).
Proof.
  cbv zeta. split; [|split; [|split; [|split; [|split]]]].
  - intros Hk.
    destruct k; try reflexivity; exfalso; apply Hk; unfold setters_with_own_reset;
      repeat first [apply list_elem_of_here | apply list_elem_of_further].
  - intros pspec Hfind.
    destruct (reset_default_is_default setting (property_name info) pspec Hfind)
      as (setting' & Hreset & Hheld & Hdefault).
    exists setting'. unfold return_reset_default. rewrite Hreset. auto.
  - intros [-> | ->]; reflexivity.
  - intros ->. split; [reflexivity|].
    unfold setting_routes, nm_setting_ip_config_clear_routes, g_object_set. simpl.
    rewrite lookup_insert_eq. reflexivity.
  - intros -> td ethtool_id Htd Hsub. cbn [set_fcn_of]. unfold _set_fcn_ethtool.
    rewrite Htd, Hsub. reflexivity.
  - intros ->. cbn [set_fcn_of]. unfold _set_fcn_connection_type. split.
    + intros Huuid. rewrite bool_decide_eq_true_2 by exact Huuid. reflexivity.
    + intros ->. rewrite bool_decide_eq_false_2 by (intros [? ?]; discriminate).
      reflexivity.
Qed.

(** A null set of the EAP methods of an 802.1x setting that holds ["tls"]. *)
Lemma set_null_resets_to_default_witness :
  let C := reference_collaborators in
  exists setting',
    _set_fcn_multilist property_info_802_1x_eap (setting_802_1x ["tls"] [] None) None
    = return_TRUE setting'
    /\ setting_values setting' !! NM_SETTING_802_1X_EAP = Some (GValue_strv None)
    /\ _gobject_property_is_default setting' NM_SETTING_802_1X_EAP = true.
Proof.
  cbv zeta.
  destruct (set_null_resets_to_default reference_collaborators
              (fun _ _ setting _ => return_TRUE setting) (fun setting _ _ => setting)
              (fun _ => true) (fun _ => true) (fun setting _ _ => setting)
              (fun _ setting _ _ => setting) (fun _ => None) (fun _ => None)
              (fun _ setting _ => setting)
              Setter_multilist property_info_802_1x_eap (setting_802_1x ["tls"] [] None))
    as (Hfirst & Hreset & _).
  destruct (Hreset (mkGParamSpec G_TYPE_STRV (GValue_strv None)))
    as (setting' & Hret & Hheld & Hdefault).
  - vm_compute. reflexivity.
  - exists setting'. split; [|split; [exact Hheld|]].
    + rewrite <- Hret. apply Hfirst. vm_compute. intros Hin.
      repeat (apply elem_of_cons in Hin as [Hin|Hin]; [discriminate|]).
      apply elem_of_nil in Hin. exact Hin.
    + apply Hdefault. left. reflexivity.
Defined.

(** C2 as stated fails: a null set of the type of a connection that has a
    UUID returns [FALSE], and the type is not at its default afterwards. *)
Lemma set_null_connection_type_counterexample :
  let C := reference_collaborators in
  let connection := setting_connection (Some "0a3c0e6e-5d6b-4d0e-8a39-1c5d6c1f1a10")
                      (Some "802-3-ethernet") in
  _set_fcn_connection_type (property_info_plain NM_SETTING_CONNECTION_TYPE) connection None
  = return_FALSE (g_set_error_1_0 "Can not change the connection type") connection
  /\ _gobject_property_is_default connection NM_SETTING_CONNECTION_TYPE = false.
Proof. cbv zeta. split; vm_compute; reflexivity. Defined.

(** ** Multi-item set and remove *)

Section ListProperties.
Context `{Collaborators}.

(** The loop of a multi-item setter keeps what the items before the first
    invalid one have added, and returns the error of that item. *)
Lemma set_loop_prefix (body : NMSetting -> string -> GError + NMSetting)
    (setting st : NMSetting) (pre rest : list string) (bad : string) (e : GError) :
  set_loop body setting pre = return_TRUE st ->
  body st bad = inl e ->
  set_loop body setting (pre ++ bad :: rest)%list = return_FALSE e st.
Proof.
  unfold set_loop. rewrite fold_until_error_app.
  destruct (fold_until_error _ setting pre) as [[e' st']|st'] eqn:Epre.
  - unfold return_FALSE, return_TRUE. discriminate.
  - unfold return_TRUE. intros [= ->] Hbad. simpl. rewrite Hbad. reflexivity.
Qed.

(** The setter of a MAC blacklist checks every item before it adds one. *)
Lemma mac_blacklist_all_or_nothing (add_func : NMSetting -> string -> NMSetting)
    (info : NMMetaPropertyInfo) (setting : NMSetting) (value : string) :
  match DEFINE_SETTER_MAC_BLACKLIST add_func info setting (Some value) with
  | Returned false _ setting' _ => setting' = setting
  | _ => True
  end.
Proof.
  unfold DEFINE_SETTER_MAC_BLACKLIST.
  destruct (fold_until_error _ tt _); simpl; auto.
Qed.

Lemma list_remove_value_absent {A : Type} `{EqDecision A} (x : A) (l : list A) :
  ~ In x l -> list_remove_value x l = l.
Proof.
  induction l as [|y l IH]; simpl; [reflexivity|].
  intros Hnot. destruct (decide (y = x)) as [->|Hne].
  - exfalso. apply Hnot. left. reflexivity.
  - f_equal. apply IH. intros Hin. apply Hnot. right. exact Hin.
Qed.

Lemma setting_strv_strv_set (prop : string) (setting : NMSetting) (l : list string) :
  setting_strv prop (strv_set prop setting l) = l.
Proof.
  unfold setting_strv, strv_set. simpl. rewrite lookup_insert_eq. reflexivity.
Qed.

End ListProperties.

(** C1: what the code does.  A multi-item setter works through the items
    in order, adding each valid one at once: when an item fails, the items
    before it have been added, the error returned is that of the first
    invalid item, and the setting is not what it was.  So the EAP method
    list set to "tls,bogus" gains "tls", and the IPv4 address list set to
    "192.168.1.5/24,10.0.0.300" gains the first address, both with
    [FALSE]; the setter of the MAC blacklist, given a valid and an invalid
    item, leaves its setting as it was. *)
Theorem multi_item_set_keeps_earlier_items (setting : NMSetting) :
  let C := reference_collaborators in
  (forall (body : NMSetting -> string -> GError + NMSetting) (start st : NMSetting)
          (pre rest : list string) (bad : string) (e : GError),
      set_loop body start pre = return_TRUE st ->
      body st bad = inl e ->
      set_loop body start (pre ++ bad :: rest)%list = return_FALSE e st)
  /\ _set_fcn_multilist property_info_802_1x_eap setting (Some "tls,bogus")
     = return_FALSE
         (g_set_error_1_0
            "'bogus' not among [leap, md5, tls, peap, ttls, sim, fast, pwd]")
         (strv_set NM_SETTING_802_1X_EAP setting
            (setting_strv NM_SETTING_802_1X_EAP setting ++ ["tls"])%list)
  /\ setting_strv NM_SETTING_802_1X_EAP
       (strv_set NM_SETTING_802_1X_EAP setting
          (setting_strv NM_SETTING_802_1X_EAP setting ++ ["tls"])%list)
     <> setting_strv NM_SETTING_802_1X_EAP setting
  /\ _set_fcn_ip4_config_addresses (property_info_plain NM_SETTING_IP_CONFIG_ADDRESSES)
       setting (Some "192.168.1.5/24,10.0.0.300")
     = return_FALSE
         (g_set_error_invalid_argument "invalid IP address: Invalid IPv4 address '10.0.0.300'")
         (nm_setting_ip_config_add_address setting
            (mkNMIPAddress AF_INET "192.168.1.5" 24))
  /\ setting_addresses
       (nm_setting_ip_config_add_address setting (mkNMIPAddress AF_INET "192.168.1.5" 24))
     <> setting_addresses setting
  /\ _set_fcn_wired_mac_address_blacklist
       (property_info_plain NM_SETTING_WIRED_MAC_ADDRESS_BLACKLIST)
       setting (Some "00:11:22:33:44:55,bogus")
     = return_FALSE (g_set_error_1_0 "'bogus' is not a valid MAC") setting.
Proof.
  cbv zeta. split; [|split; [|split; [|split; [|split]]]].
  - intros body start st pre rest bad e. apply set_loop_prefix.
  - vm_compute. reflexivity.
  - rewrite setting_strv_strv_set. intros Heq.
    apply (f_equal (@length string)) in Heq. rewrite length_app in Heq. simpl in Heq. lia.
  - vm_compute. reflexivity.
  - unfold nm_setting_ip_config_add_address, setting_addresses at 1, g_object_set. simpl.
    rewrite lookup_insert_eq. intros Heq.
    apply (f_equal (@length NMIPAddress)) in Heq. rewrite length_app in Heq.
    simpl in Heq. lia.
  - vm_compute. reflexivity.
Qed.

(** The failing input on a setting with no EAP method and no address. *)
Lemma multi_item_set_keeps_earlier_items_witness :
  let C := reference_collaborators in
  _set_fcn_multilist property_info_802_1x_eap (setting_802_1x [] [] None) (Some "tls,bogus")
  = return_FALSE
      (g_set_error_1_0 "'bogus' not among [leap, md5, tls, peap, ttls, sim, fast, pwd]")
      (setting_802_1x ["tls"] [] None)
  /\ set_loop (ip_addresses_body AF_INET) (setting_802_1x [] [] None)
       (["192.168.1.5/24"] ++ ["10.0.0.300"; "10.0.0.1"])%list
     = return_FALSE
         (g_set_error_invalid_argument "invalid IP address: Invalid IPv4 address '10.0.0.300'")
         (nm_setting_ip_config_add_address (setting_802_1x [] [] None)
            (mkNMIPAddress AF_INET "192.168.1.5" 24)).
Proof.
  cbv zeta.
  pose proof (multi_item_set_keeps_earlier_items (setting_802_1x [] [] None))
    as (Hloop & Heap & _).
  split.
  - etransitivity; [exact Heap|]. vm_compute. reflexivity.
  - apply (Hloop (ip_addresses_body AF_INET)); vm_compute; reflexivity.
Defined.

(** ** Text built by appending and read back by splitting *)

Lemma string_app_assoc (a b c : string) : (a +:+ b) +:+ c = a +:+ (b +:+ c).
Proof.
  induction a as [|x a IH]; [reflexivity|].
  change (String x ((a +:+ b) +:+ c) = String x (a +:+ (b +:+ c))). rewrite IH. reflexivity.
Qed.

Lemma string_app_nil_r (a : string) : a +:+ "" = a.
Proof.
  induction a as [|x a IH]; [reflexivity|].
  change (String x (a +:+ "") = String x a). rewrite IH. reflexivity.
Qed.

Lemma string_forall_app (p : ascii -> bool) (a b : string) :
  string_forall p (a +:+ b) = string_forall p a && string_forall p b.
Proof.
  induction a as [|x a IH]; [reflexivity|].
  change (String x a +:+ b) with (String x (a +:+ b)). cbn [string_forall].
  rewrite IH, andb_assoc. reflexivity.
Qed.

Lemma string_last_app_cons (a : string) (c : ascii) (b : string) :
  string_last (a +:+ String c b) = string_last (String c b).
Proof.
  induction a as [|x a IH]; [reflexivity|].
  change (String x a +:+ String c b) with (String x (a +:+ String c b)).
  cbn [string_last]. rewrite IH.
  destruct (a +:+ String c b) eqn:E; [|reflexivity].
  destruct a; discriminate.
Qed.

(** [g_strchomp] leaves a text that does not end in white space. *)
Lemma g_strchomp_last (s : string) (c : ascii) :
  string_last s = Some c -> g_ascii_isspace c = false -> g_strchomp s = s.
Proof.
  induction s as [|x s IH]; [discriminate|].
  intros Hlast Hc. destruct s as [|y s].
  - injection Hlast as ->. simpl. rewrite Hc. reflexivity.
  - change (g_strchomp (String x (String y s)))
      with (match g_strchomp (String y s) with
            | EmptyString => if g_ascii_isspace x then EmptyString else String x EmptyString
            | r => String x r
            end).
    rewrite (IH Hlast Hc). reflexivity.
Qed.

Lemma g_strstrip_ends (x : ascii) (s : string) (c : ascii) :
  g_ascii_isspace x = false ->
  string_last (String x s) = Some c -> g_ascii_isspace c = false ->
  g_strstrip (String x s) = String x s.
Proof.
  intros Hx Hlast Hc. unfold g_strstrip, g_strchug. cbn [skip_while]. rewrite Hx.
  apply (g_strchomp_last _ c Hlast Hc).
Qed.

Lemma string_last_no_space (p : ascii -> bool) (s : string) :
  s <> "" -> string_forall p s = true -> exists c, string_last s = Some c /\ p c = true.
Proof.
  induction s as [|x s IH]; [congruence|].
  intros _ Hs. simpl in Hs. apply andb_prop in Hs as [Hx Hs].
  destruct s as [|y s].
  - exists x. auto.
  - destruct (IH ltac:(discriminate) Hs) as (c & Hc & Hp). exists c. auto.
Qed.

(** The tokens of a text made of tokens and single separators. *)
Lemma split_fields_join_text (delims : string) (d : ascii) (items : list string) (x : string) :
  str_mem d delims = true ->
  Forall (fun s => string_forall (fun c => negb (str_mem c delims)) s = true) (x :: items) ->
  split_fields delims (join_text (String d "") (x :: items)) = (x, items).
Proof.
  intros Hd. revert x. induction items as [|y items IH]; intros x Hall.
  - inversion Hall; subst. simpl. apply split_fields_no_delim. assumption.
  - inversion Hall as [|? ? Hx Hrest]; subst.
    change (join_text (String d "") (x :: y :: items))
      with (x +:+ String d (join_text (String d "") (y :: items))).
    rewrite split_fields_app_delim by assumption.
    rewrite (IH y Hrest). reflexivity.
Qed.

Lemma filter_str_nonempty (items : list string) :
  Forall (fun s => s <> "") items -> List.filter str_nonempty items = items.
Proof.
  induction 1 as [|s items Hs _ IH]; [reflexivity|].
  simpl. rewrite IH. destruct s; [congruence|reflexivity].
Qed.

Lemma strsplit_join_text (delims : string) (d : ascii) (items : list string) (x : string) :
  str_mem d delims = true ->
  Forall (fun s => s <> ""
                   /\ string_forall (fun c => negb (str_mem c delims)) s = true) (x :: items) ->
  nm_utils_strsplit_set (join_text (String d "") (x :: items)) delims = Some (x :: items).
Proof.
  intros Hd Hall. unfold nm_utils_strsplit_set.
  rewrite (split_fields_join_text delims d items x Hd).
  - rewrite filter_str_nonempty; [reflexivity|].
    eapply Forall_impl; [exact Hall|]. intros s [Hs _]. exact Hs.
  - eapply Forall_impl; [exact Hall|]. intros s [_ Hs]. exact Hs.
Qed.

(** ** The dump of a link watcher, parsed *)

Lemma fmt_d_chars (p : ascii -> bool) (n : Z) :
  (forall c, is_decimal_digit c = true -> p c = true) -> p "-"%char = true ->
  string_forall p (fmt_d n) = true.
Proof.
  intros Hdigit Hminus.
  assert (Hd : forall d, string_forall p (NilZero.string_of_uint d) = true).
  { intros d.
    assert (Hn : string_forall p (NilEmpty.string_of_uint d) = true).
    { apply (string_forall_impl is_decimal_digit); [exact Hdigit|apply string_of_uint_digits]. }
    destruct d; first [exact Hn | simpl; rewrite Hdigit; reflexivity]. }
  unfold fmt_d. destruct (Z.to_int n); cbn [NilZero.string_of_int]; [apply Hd|].
  cbn [string_forall]. rewrite Hminus. apply Hd.
Qed.

Lemma token_value_fmt_d (n : Z) : token_value (fmt_d n).
Proof.
  split; [apply fmt_d_nonempty|]. apply fmt_d_chars; [|reflexivity].
  intros c Hc. unfold token_value_char.
  destruct c as [[] [] [] [] [] [] [] []]; vm_compute in Hc |- *; congruence.
Qed.

Lemma token_value_no_space (s : string) :
  token_value s -> string_forall (fun c => negb (g_ascii_isspace c)) s = true.
Proof.
  intros [_ Hs]. apply (string_forall_impl token_value_char); [|exact Hs].
  intros c Hc. apply andb_prop in Hc as [Hc _]. exact Hc.
Qed.

Lemma token_value_no_eq (s : string) :
  token_value s -> string_forall (fun c => negb (str_mem c "=")) s = true.
Proof.
  intros [_ Hs]. apply (string_forall_impl token_value_char); [|exact Hs].
  intros c Hc. apply andb_prop in Hc as [_ Hc]. simpl. destruct (Ascii.eqb c "="); [discriminate|].
  reflexivity.
Qed.

(** A token [key=value] splits into its key and its value. *)
Lemma key_value_split (key value : string) :
  token_value key -> token_value value ->
  nm_utils_strsplit_set (key +:+ "=" +:+ value) "=" = Some [key; value].
Proof.
  intros Hkey Hvalue.
  apply (strsplit_join_text "=" "="%char [value] key); [reflexivity|].
  repeat apply List.Forall_cons; try apply List.Forall_nil.
  - split; [apply Hkey|apply token_value_no_eq, Hkey].
  - split; [apply Hvalue|apply token_value_no_eq, Hvalue].
Qed.

Lemma key_value_no_space (key value : string) :
  token_value key -> token_value value ->
  key +:+ "=" +:+ value <> ""
  /\ string_forall (fun c => negb (g_ascii_isspace c)) (key +:+ "=" +:+ value) = true.
Proof.
  intros Hkey Hvalue. split.
  - destruct key; [destruct Hkey; congruence|discriminate].
  - rewrite !string_forall_app, (token_value_no_space _ Hkey), (token_value_no_space _ Hvalue).
    reflexivity.
Qed.

(** The text of tokens without white space, joined by single spaces, is
    split back into the tokens. *)
Lemma string_last_join_text (sep : string) (items : list string) (x : string) :
  Forall (fun s => s <> "") (x :: items) ->
  string_last (join_text sep (x :: items)) = string_last (default x (last (x :: items))).
Proof.
  revert x. induction items as [|y items IH]; intros x Hall; [reflexivity|].
  inversion Hall as [|? ? Hx Hrest]; subst.
  change (join_text sep (x :: y :: items)) with (x +:+ sep +:+ join_text sep (y :: items)).
  rewrite <- string_app_assoc.
  assert (Hne : join_text sep (y :: items) <> "").
  { inversion Hrest as [|? ? Hy _]; subst. destruct items; simpl; [exact Hy|].
    destruct y; [congruence|discriminate]. }
  destruct (join_text sep (y :: items)) as [|c r] eqn:E; [congruence|].
  rewrite string_last_app_cons, <- E, (IH y Hrest).
  change (last (x :: y :: items)) with (last (y :: items)).
  destruct (last (y :: items)) eqn:El; [reflexivity|].
  apply last_None in El. discriminate.
Qed.

Lemma strsplit_space_tokens (items : list string) (x : string) :
  Forall (fun s => s <> "" /\ string_forall (fun c => negb (g_ascii_isspace c)) s = true)
         (x :: items) ->
  nm_utils_strsplit_set (nm_strstrip_avoid_copy (join_text " " (x :: items)))
    delimiters_space_tab
  = Some (x :: items).
Proof.
  intros Hall.
  assert (Hne : Forall (fun s => s <> "") (x :: items)).
  { eapply Forall_impl; [exact Hall|]. intros s [Hs _]. exact Hs. }
  assert (Hstrip : nm_strstrip_avoid_copy (join_text " " (x :: items))
                   = join_text " " (x :: items)).
  { unfold nm_strstrip_avoid_copy.
    pose proof (string_last_join_text " " items x Hne) as Hlast.
    assert (Hin : In (default x (last (x :: items))) (x :: items)).
    { destruct (last (x :: items)) as [z|] eqn:El.
      - change (In z (x :: items)).
        apply (proj1 (list_elem_of_In _ _)). apply last_Some_elem_of. exact El.
      - left. reflexivity. }
    pose proof (proj1 (List.Forall_forall _ _) Hall _ Hin) as [Hzne Hz].
    destruct (string_last_no_space _ _ Hzne Hz) as (c & Hc & Hcs).
    apply negb_true_iff in Hcs. rewrite Hc in Hlast.
    inversion Hall as [|? ? [Hxne Hx] _]; subst.
    destruct x as [|x0 x]; [congruence|].
    simpl in Hx. apply andb_prop in Hx as [Hx0 _]. apply negb_true_iff in Hx0.
    destruct items as [|y items].
    - simpl in *. apply (g_strstrip_ends _ _ c Hx0 Hlast Hcs).
    - change (join_text " " (String x0 x :: y :: items))
        with (String x0 (x +:+ " " +:+ join_text " " (y :: items))) in *.
      apply (g_strstrip_ends _ _ c Hx0 Hlast Hcs). }
  rewrite Hstrip.
  apply (strsplit_join_text delimiters_space_tab " "%char items x); [reflexivity|].
  eapply Forall_impl; [exact Hall|]. intros s [Hs Hsp]. split; [exact Hs|].
  apply (string_forall_impl (fun c => negb (g_ascii_isspace c))); [|exact Hsp].
  intros c Hc. destruct c as [[] [] [] [] [] [] [] []]; vm_compute in Hc |- *; congruence.
Qed.

(** Appending a token to the text of a non-empty token list. *)
Lemma join_text_snoc (items : list string) (x tok : string) :
  join_text " " (x :: items) +:+ " " +:+ tok = join_text " " ((x :: items) ++ [tok]).
Proof.
  revert x. induction items as [|y items IH]; intros x; [reflexivity|].
  change (join_text " " (x :: y :: items)) with (x +:+ " " +:+ join_text " " (y :: items)).
  change (join_text " " ((x :: y :: items) ++ [tok]))
    with (x +:+ " " +:+ join_text " " ((y :: items) ++ [tok])).
  rewrite <- (IH y), !string_app_assoc. reflexivity.
Qed.

Lemma dump_watcher_int_join (items : list string) (x key : string) (v : Z) :
  DUMP_WATCHER_INT (join_text " " (x :: items)) key v
  = join_text " " ((x :: items) ++ watcher_int_token key v).
Proof.
  unfold DUMP_WATCHER_INT, watcher_int_token. destruct (v =? 0); cbn [negb].
  - rewrite app_nil_r. reflexivity.
  - apply join_text_snoc.
Qed.

Section WatcherDump.
Context `{Collaborators}.

Lemma watcher_token_step_key_value (st st' : watcher_locals) (key value : string) :
  token_value key -> token_value value ->
  watcher_assign st key value = Some st' ->
  watcher_in_range st' ->
  watcher_token_step st (key +:+ "=" +:+ value) = inr st'.
Proof.
  intros Hkey Hvalue Hassign (H1 & H2 & H3 & H4).
  unfold watcher_token_step. rewrite (key_value_split key value Hkey Hvalue), Hassign.
  replace (wl_val1 st' <? 0) with false by (symmetry; apply Z.ltb_ge; lia).
  replace (wl_val2 st' <? 0) with false by (symmetry; apply Z.ltb_ge; lia).
  replace (wl_val3 st' <? 0) with false by (symmetry; apply Z.ltb_ge; lia).
  replace (wl_val4 st' <? -1) with false by (symmetry; apply Z.ltb_ge; lia).
  reflexivity.
Qed.

Lemma watcher_int_token_no_space (key : string) (v : Z) :
  token_value key ->
  Forall (fun s => s <> "" /\ string_forall (fun c => negb (g_ascii_isspace c)) s = true)
         (watcher_int_token key v).
Proof.
  intros Hkey. unfold watcher_int_token. destruct (v =? 0); [apply List.Forall_nil|].
  apply List.Forall_cons; [|apply List.Forall_nil].
  apply key_value_no_space; [exact Hkey|apply token_value_fmt_d].
Qed.

(** What the tokens written by [DUMP_WATCHER_INT] do to the locals. *)
Lemma watcher_fold_int_token (st st' : watcher_locals) (key : string) (v : Z) :
  token_value key ->
  (v = 0 -> st' = st) ->
  (v <> 0 -> watcher_assign st key (fmt_d v) = Some st') ->
  watcher_in_range st' ->
  fold_until_error watcher_token_step st (watcher_int_token key v) = inr st'.
Proof.
  intros Hkey Hzero Hassign Hrange. unfold watcher_int_token.
  destruct (v =? 0) eqn:E.
  - apply Z.eqb_eq in E. rewrite (Hzero E). reflexivity.
  - apply Z.eqb_neq in E. cbn [fold_until_error].
    rewrite (watcher_token_step_key_value st st' key (fmt_d v) Hkey (token_value_fmt_d v)
               (Hassign E) Hrange).
    reflexivity.
Qed.

Lemma str_to_int64_fmt_d_in (v min max fallback : Z) :
  G_MININT64 < min -> max <= G_MAXINT64 -> min <= v <= max ->
  _nm_utils_ascii_str_to_int64 (fmt_d v) 10 min max fallback = v.
Proof.
  intros Hmin Hmax Hv. rewrite str_to_int64_fmt_d by lia.
  replace (max <? v) with false by (symmetry; apply Z.ltb_ge; lia).
  replace (v <? min) with false by (symmetry; apply Z.ltb_ge; lia).
  reflexivity.
Qed.

Ltac solve_int_range :=
  unfold G_MININT64, G_MAXINT64, G_MAXINT32 in *;
  change (2 ^ 63) with 9223372036854775808 in *;
  change (2 ^ 31) with 2147483648 in *;
  lia.

Lemma watcher_fold_val1 (key : string) name v v2 v3 v4 target_host source_host flags :
  key = "delay-up" \/ key = "init-wait" ->
  0 <= v <= G_MAXINT32 -> 0 <= v2 -> 0 <= v3 -> -1 <= v4 ->
  fold_until_error watcher_token_step
    (mkWatcherLocals name 0 v2 v3 v4 target_host source_host flags)
    (watcher_int_token key v)
  = inr (mkWatcherLocals name v v2 v3 v4 target_host source_host flags).
Proof.
  intros Hkey Hv H2 H3 H4. apply watcher_fold_int_token.
  - destruct Hkey as [-> | ->]; split; (discriminate || reflexivity).
  - intros ->. reflexivity.
  - intros _. destruct Hkey as [-> | ->]; unfold watcher_assign;
      rewrite !str_to_int64_fmt_d_in by solve_int_range;
      reflexivity.
  - unfold watcher_in_range. simpl. lia.
Qed.

Lemma watcher_fold_val2 (key : string) name v1 v v3 v4 target_host source_host flags :
  key = "delay-down" \/ key = "interval" ->
  0 <= v <= G_MAXINT32 -> 0 <= v1 -> 0 <= v3 -> -1 <= v4 ->
  fold_until_error watcher_token_step
    (mkWatcherLocals name v1 0 v3 v4 target_host source_host flags)
    (watcher_int_token key v)
  = inr (mkWatcherLocals name v1 v v3 v4 target_host source_host flags).
Proof.
  intros Hkey Hv H1 H3 H4. apply watcher_fold_int_token.
  - destruct Hkey as [-> | ->]; split; (discriminate || reflexivity).
  - intros ->. reflexivity.
  - intros _. destruct Hkey as [-> | ->]; unfold watcher_assign;
      rewrite !str_to_int64_fmt_d_in by solve_int_range;
      reflexivity.
  - unfold watcher_in_range. simpl. lia.
Qed.

Lemma watcher_fold_val3 name v1 v2 v v4 target_host source_host flags :
  0 <= v <= G_MAXINT32 -> 0 <= v1 -> 0 <= v2 -> -1 <= v4 ->
  fold_until_error watcher_token_step
    (mkWatcherLocals name v1 v2 3 v4 target_host source_host flags)
    (watcher_int_token "missed-max" v)
  = inr (mkWatcherLocals name v1 v2 (if v =? 0 then 3 else v) v4
           target_host source_host flags).
Proof.
  intros Hv H1 H2 H4. apply watcher_fold_int_token.
  - split; (discriminate || reflexivity).
  - intros ->. reflexivity.
  - intros Hne. apply Z.eqb_neq in Hne. rewrite Hne. unfold watcher_assign.
    rewrite !str_to_int64_fmt_d_in by solve_int_range. reflexivity.
  - unfold watcher_in_range. simpl. destruct (v =? 0); lia.
Qed.

Lemma watcher_fold_val4 name v1 v2 v3 v target_host source_host flags :
  -1 <= v <= 4094 -> 0 <= v1 -> 0 <= v2 -> 0 <= v3 ->
  fold_until_error watcher_token_step
    (mkWatcherLocals name v1 v2 v3 (-1) target_host source_host flags)
    (watcher_int_token "vlanid" v)
  = inr (mkWatcherLocals name v1 v2 v3 (if v =? 0 then -1 else v)
           target_host source_host flags).
Proof.
  intros Hv H1 H2 H3. apply watcher_fold_int_token.
  - split; (discriminate || reflexivity).
  - intros ->. reflexivity.
  - intros Hne. apply Z.eqb_neq in Hne. rewrite Hne. unfold watcher_assign.
    rewrite (str_to_int64_fmt_d_in v (-1) 4094 (-2)) by solve_int_range. reflexivity.
  - unfold watcher_in_range. simpl. destruct (v =? 0); lia.
Qed.

Lemma watcher_step_target_host name v1 v2 v3 v4 target_host source_host flags host :
  token_value host -> 0 <= v1 -> 0 <= v2 -> 0 <= v3 -> -1 <= v4 ->
  watcher_token_step (mkWatcherLocals name v1 v2 v3 v4 target_host source_host flags)
    ("target-host" +:+ "=" +:+ host)
  = inr (mkWatcherLocals name v1 v2 v3 v4 (Some host) source_host flags).
Proof.
  intros Hhost H1 H2 H3 H4. apply watcher_token_step_key_value.
  - split; (discriminate || reflexivity).
  - exact Hhost.
  - reflexivity.
  - unfold watcher_in_range. simpl. lia.
Qed.

Lemma watcher_step_source_host name v1 v2 v3 v4 target_host source_host flags host :
  token_value host -> 0 <= v1 -> 0 <= v2 -> 0 <= v3 -> -1 <= v4 ->
  watcher_token_step (mkWatcherLocals name v1 v2 v3 v4 target_host source_host flags)
    ("source-host" +:+ "=" +:+ host)
  = inr (mkWatcherLocals name v1 v2 v3 v4 target_host (Some host) flags).
Proof.
  intros Hhost H1 H2 H3 H4. apply watcher_token_step_key_value.
  - split; (discriminate || reflexivity).
  - exact Hhost.
  - reflexivity.
  - unfold watcher_in_range. simpl. lia.
Qed.

(** The token of a flag that is set. *)
Lemma watcher_fold_flag (key : string) (bit : Z) name v1 v2 v3 v4 target_host source_host
    flags (all : Z) :
  (key, bit) = ("validate-active", NM_TEAM_LINK_WATCHER_ARP_PING_FLAG_VALIDATE_ACTIVE)
  \/ (key, bit) = ("validate-inactive", NM_TEAM_LINK_WATCHER_ARP_PING_FLAG_VALIDATE_INACTIVE) ->
  0 <= v1 -> 0 <= v2 -> 0 <= v3 -> -1 <= v4 ->
  fold_until_error watcher_token_step
    (mkWatcherLocals name v1 v2 v3 v4 target_host source_host flags)
    (if negb (Z.land all bit =? 0) then [key +:+ "=true"] else [])
  = inr (mkWatcherLocals name v1 v2 v3 v4 target_host source_host
           (if negb (Z.land all bit =? 0) then Z.lor flags bit else flags)).
Proof.
  intros Hkey H1 H2 H3 H4. destruct (negb (Z.land all bit =? 0)); [|reflexivity].
  cbn [fold_until_error].
  rewrite (watcher_token_step_key_value _
             (mkWatcherLocals name v1 v2 v3 v4 target_host source_host (Z.lor flags bit))
             key "true").
  - reflexivity.
  - destruct Hkey as [[= -> _] | [= -> _]]; split; (discriminate || reflexivity).
  - split; (discriminate || reflexivity).
  - destruct Hkey as [[= -> ->] | [= -> ->]]; reflexivity.
  - unfold watcher_in_range. simpl. lia.
Qed.

Lemma land_single_bit (flags : Z) (k : Z) :
  0 <= k -> Z.land flags (2 ^ k) = if Z.testbit flags k then 2 ^ k else 0.
Proof.
  intros Hk. apply Z.bits_inj'. intros n Hn.
  rewrite Z.land_spec, Z.pow2_bits_eqb by exact Hk.
  destruct (Z.eqb_spec k n) as [->|Hne].
  - rewrite andb_true_r. destruct (Z.testbit flags n) eqn:E.
    + rewrite Z.pow2_bits_true by exact Hn. reflexivity.
    + rewrite Z.bits_0. reflexivity.
  - rewrite andb_false_r. destruct (Z.testbit flags k).
    + rewrite Z.pow2_bits_false by congruence. reflexivity.
    + rewrite Z.bits_0. reflexivity.
Qed.

(** The two flags that the dump writes with a space before them. *)
Lemma watcher_flags_read_back (flags : Z) :
  (let f1 := if negb (Z.land flags NM_TEAM_LINK_WATCHER_ARP_PING_FLAG_VALIDATE_ACTIVE =? 0)
             then Z.lor 0 NM_TEAM_LINK_WATCHER_ARP_PING_FLAG_VALIDATE_ACTIVE else 0 in
   if negb (Z.land flags NM_TEAM_LINK_WATCHER_ARP_PING_FLAG_VALIDATE_INACTIVE =? 0)
   then Z.lor f1 NM_TEAM_LINK_WATCHER_ARP_PING_FLAG_VALIDATE_INACTIVE else f1)
  = Z.land flags 6.
Proof.
  cbv zeta.
  change NM_TEAM_LINK_WATCHER_ARP_PING_FLAG_VALIDATE_ACTIVE with (2 ^ 1).
  change NM_TEAM_LINK_WATCHER_ARP_PING_FLAG_VALIDATE_INACTIVE with (2 ^ 2).
  change 6 with (Z.lor (2 ^ 1) (2 ^ 2)).
  rewrite Z.land_lor_distr_r, !land_single_bit by lia.
  destruct (Z.testbit flags 1), (Z.testbit flags 2); reflexivity.
Qed.

End WatcherDump.

Lemma dump_flag_join (items : list string) (x key : string) (flags bit : Z) :
  (if negb (Z.land flags bit =? 0)
   then join_text " " (x :: items) +:+ " " +:+ key
   else join_text " " (x :: items))
  = join_text " " ((x :: items) ++ (if negb (Z.land flags bit =? 0) then [key] else [])).
Proof.
  destruct (negb (Z.land flags bit =? 0)).
  - apply join_text_snoc.
  - rewrite app_nil_r. reflexivity.
Qed.

Lemma dump_text_ethtool (delay_up delay_down : Z) :
  watcher_dump_text (WatcherEthtool delay_up delay_down)
  = join_text " " (("name=ethtool" :: watcher_int_token "delay-up" delay_up)
                   ++ watcher_int_token "delay-down" delay_down).
Proof.
  unfold watcher_dump_text, _dump_team_link_watcher.
  cbn [nm_team_link_watcher_get_name nm_team_link_watcher_get_delay_up
       nm_team_link_watcher_get_delay_down].
  change (nm_streq NM_TEAM_LINK_WATCHER_ETHTOOL NM_TEAM_LINK_WATCHER_ETHTOOL) with true.
  cbv iota. cbv zeta.
  change ("name=" +:+ NM_TEAM_LINK_WATCHER_ETHTOOL) with (join_text " " ("name=ethtool" :: [])).
  rewrite (dump_watcher_int_join [] "name=ethtool" "delay-up" delay_up).
  cbn [app].
  rewrite (dump_watcher_int_join _ "name=ethtool" "delay-down" delay_down).
  reflexivity.
Qed.

Lemma dump_text_nsna_ping (init_wait interval missed_max : Z) (target_host : string) :
  watcher_dump_text (WatcherNsnaPing init_wait interval missed_max target_host)
  = join_text " " (((("name=nsna_ping" :: watcher_int_token "init-wait" init_wait)
                     ++ watcher_int_token "interval" interval)
                    ++ watcher_int_token "missed-max" missed_max)
                   ++ ["target-host" +:+ "=" +:+ target_host]).
Proof.
  unfold watcher_dump_text, _dump_team_link_watcher.
  cbn [nm_team_link_watcher_get_name nm_team_link_watcher_get_init_wait
       nm_team_link_watcher_get_interval nm_team_link_watcher_get_missed_max
       nm_team_link_watcher_get_target_host fmt_s from_option id].
  change (nm_streq NM_TEAM_LINK_WATCHER_NSNA_PING NM_TEAM_LINK_WATCHER_ETHTOOL) with false.
  change (nm_streq NM_TEAM_LINK_WATCHER_NSNA_PING NM_TEAM_LINK_WATCHER_NSNA_PING) with true.
  cbv iota. cbv zeta.
  change ("name=" +:+ NM_TEAM_LINK_WATCHER_NSNA_PING)
    with (join_text " " ("name=nsna_ping" :: [])).
  rewrite (dump_watcher_int_join [] "name=nsna_ping" "init-wait" init_wait).
  cbn [app].
  rewrite (dump_watcher_int_join _ "name=nsna_ping" "interval" interval).
  cbn [app].
  rewrite (dump_watcher_int_join _ "name=nsna_ping" "missed-max" missed_max).
  cbn [app].
  change (" target-host=" +:+ target_host) with (" " +:+ "target-host" +:+ "=" +:+ target_host).
  rewrite join_text_snoc. reflexivity.
Qed.

(** The dump of an [arp_ping] watcher before its last flag is tested. *)
Lemma dump_text_arp_ping (init_wait interval missed_max vlanid : Z)
    (target_host source_host : string) (flags : Z) :
  watcher_dump_text
    (WatcherArpPing init_wait interval missed_max vlanid target_host source_host flags)
  = let tokens :=
      (((((((("name=arp_ping" :: watcher_int_token "init-wait" init_wait)
            ++ watcher_int_token "interval" interval)
           ++ watcher_int_token "missed-max" missed_max)
          ++ ["target-host" +:+ "=" +:+ target_host])
         ++ watcher_int_token "vlanid" vlanid)
        ++ ["source-host" +:+ "=" +:+ source_host])
       ++ (if negb (Z.land flags NM_TEAM_LINK_WATCHER_ARP_PING_FLAG_VALIDATE_ACTIVE =? 0)
           then ["validate-active" +:+ "=true"] else []))
      ++ (if negb (Z.land flags NM_TEAM_LINK_WATCHER_ARP_PING_FLAG_VALIDATE_INACTIVE =? 0)
          then ["validate-inactive" +:+ "=true"] else []))%list in
    if negb (Z.land flags NM_TEAM_LINK_WATCHER_ARP_PING_FLAG_SEND_ALWAYS =? 0)
    then join_text " " tokens +:+ "send-always=true"
    else join_text " " tokens.
Proof.
  unfold watcher_dump_text, _dump_team_link_watcher.
  cbn [nm_team_link_watcher_get_name nm_team_link_watcher_get_init_wait
       nm_team_link_watcher_get_interval nm_team_link_watcher_get_missed_max
       nm_team_link_watcher_get_target_host nm_team_link_watcher_get_vlanid
       nm_team_link_watcher_get_source_host nm_team_link_watcher_get_flags fmt_s from_option id].
  change (nm_streq NM_TEAM_LINK_WATCHER_ARP_PING NM_TEAM_LINK_WATCHER_ETHTOOL) with false.
  change (nm_streq NM_TEAM_LINK_WATCHER_ARP_PING NM_TEAM_LINK_WATCHER_NSNA_PING) with false.
  cbv iota. cbv zeta.
  change ("name=" +:+ NM_TEAM_LINK_WATCHER_ARP_PING)
    with (join_text " " ("name=arp_ping" :: [])).
  rewrite (dump_watcher_int_join [] "name=arp_ping" "init-wait" init_wait).
  cbn [app].
  rewrite (dump_watcher_int_join _ "name=arp_ping" "interval" interval).
  cbn [app].
  rewrite (dump_watcher_int_join _ "name=arp_ping" "missed-max" missed_max).
  cbn [app].
  change (" target-host=" +:+ target_host) with (" " +:+ "target-host" +:+ "=" +:+ target_host).
  rewrite join_text_snoc. cbn [app].
  rewrite (dump_watcher_int_join _ "name=arp_ping" "vlanid" vlanid).
  cbn [app].
  change (" source-host=" +:+ source_host) with (" " +:+ "source-host" +:+ "=" +:+ source_host).
  rewrite join_text_snoc. cbn [app].
  rewrite (dump_flag_join _ "name=arp_ping" "validate-active=true" flags
             NM_TEAM_LINK_WATCHER_ARP_PING_FLAG_VALIDATE_ACTIVE).
  cbn [app].
  rewrite (dump_flag_join _ "name=arp_ping" "validate-inactive=true" flags
             NM_TEAM_LINK_WATCHER_ARP_PING_FLAG_VALIDATE_INACTIVE).
  reflexivity.
Qed.

Lemma join_text_glue (items : list string) (x t g : string) :
  join_text " " (x :: (items ++ [t])) +:+ g = join_text " " (x :: (items ++ [t +:+ g])).
Proof.
  revert x. induction items as [|y items IH]; intros x.
  - cbn [app join_text]. rewrite !string_app_assoc. reflexivity.
  - change (join_text " " (x :: (y :: items) ++ [t]))
      with (x +:+ " " +:+ join_text " " (y :: items ++ [t])).
    change (join_text " " (x :: (y :: items) ++ [t +:+ g]))
      with (x +:+ " " +:+ join_text " " (y :: items ++ [t +:+ g])).
    rewrite <- (IH y), !string_app_assoc. reflexivity.
Qed.

Section WatcherParse.
Context `{Collaborators}.

(** What [_parse_team_link_watcher] does with a text of well-formed
    tokens. *)
Lemma parse_watcher_tokens (items : list string) (x : string) :
  Forall (fun s => s <> "" /\ string_forall (fun c => negb (g_ascii_isspace c)) s = true)
         (x :: items) ->
  _parse_team_link_watcher (join_text " " (x :: items))
  = match fold_until_error watcher_token_step watcher_locals_init (x :: items) with
    | inl e => inl e
    | inr st =>
        if nm_streq0 (wl_name st) (Some NM_TEAM_LINK_WATCHER_ETHTOOL) then
          nm_team_link_watcher_new_ethtool (wl_val1 st) (wl_val2 st)
        else if nm_streq0 (wl_name st) (Some NM_TEAM_LINK_WATCHER_NSNA_PING) then
          nm_team_link_watcher_new_nsna_ping (wl_val1 st) (wl_val2 st) (wl_val3 st)
            (wl_target_host st)
        else if nm_streq0 (wl_name st) (Some NM_TEAM_LINK_WATCHER_ARP_PING) then
          nm_team_link_watcher_new_arp_ping2 (wl_val1 st) (wl_val2 st) (wl_val3 st)
            (wl_val4 st) (wl_target_host st) (wl_source_host st) (wl_flags st)
        else
          match wl_name st with
          | None => inl (g_set_error_1_0 "link watcher name missing")
          | Some name =>
              inl (g_set_error_1_0 ("unknown link watcher name: '" +:+ name +:+ "'"))
          end
    end.
Proof.
  intros Hall. unfold _parse_team_link_watcher. cbv zeta.
  rewrite (strsplit_space_tokens items x Hall). reflexivity.
Qed.

Lemma watcher_step_name (name : string) :
  token_value name ->
  watcher_token_step watcher_locals_init ("name" +:+ "=" +:+ name)
  = inr (mkWatcherLocals (Some name) 0 0 3 (-1) None None 0).
Proof.
  intros Hname. apply watcher_token_step_key_value.
  - split; (discriminate || reflexivity).
  - exact Hname.
  - reflexivity.
  - unfold watcher_in_range. simpl. lia.
Qed.

(** A token with the text of another key glued to its value. *)
Lemma watcher_step_glued (st : watcher_locals) (key value : string) :
  token_value key -> token_value value ->
  watcher_token_step st ((key +:+ "=" +:+ value) +:+ "send-always=true")
  = inl (watcher_error ((key +:+ "=" +:+ value) +:+ "send-always=true")
           "properties should be specified as 'key=value'").
Proof.
  intros Hkey Hvalue. unfold watcher_token_step.
  assert (Hsplit : nm_utils_strsplit_set ((key +:+ "=" +:+ value) +:+ "send-always=true") "="
                   = Some [key; value +:+ "send-always"; "true"]).
  { replace ((key +:+ "=" +:+ value) +:+ "send-always=true")
      with (join_text "=" [key; value +:+ "send-always"; "true"]).
    - apply (strsplit_join_text "=" "="%char); [reflexivity|].
      repeat apply List.Forall_cons; try apply List.Forall_nil.
      + split; [apply Hkey|apply token_value_no_eq, Hkey].
      + split.
        * destruct value; [destruct Hvalue; congruence|discriminate].
        * rewrite string_forall_app, (token_value_no_eq _ Hvalue). reflexivity.
      + split; [discriminate|reflexivity].
    - cbn [join_text]. rewrite !string_app_assoc. reflexivity. }
  rewrite Hsplit. reflexivity.
Qed.

End WatcherParse.

Ltac solve_watcher_tokens :=
  repeat first
    [ apply List.Forall_nil
    | apply List.Forall_cons
    | apply Forall_app; split
    | apply watcher_int_token_no_space; split; [discriminate|reflexivity]
    | apply key_value_no_space; [split; [discriminate|reflexivity]|assumption]
    | split; [discriminate|reflexivity]
    | match goal with
      | |- Forall _ (if ?b then _ else _) => destruct b
      end ].

(** X1.  Parsing the text that [_dump_team_link_watcher] writes for a
    watcher calls the constructor of the watcher's kind with the watcher's
    own numbers and hosts, with three exceptions that the code shows: a
    missed-max of 0 is not written and is read back as the default 3, a
    vlanid of 0 is not written and is read back as the default -1, and
    the text of the send-always flag is written without a space before
    it, so that the dump of an [arp_ping] watcher with that flag is
    rejected as a malformed [key=value] token. *)
Theorem watcher_dump_parse (C : Collaborators) :
  (forall delay_up delay_down,
      0 <= delay_up <= G_MAXINT32 -> 0 <= delay_down <= G_MAXINT32 ->
      _parse_team_link_watcher (watcher_dump_text (WatcherEthtool delay_up delay_down))
      = nm_team_link_watcher_new_ethtool delay_up delay_down)
  /\ (forall init_wait interval missed_max target_host,
      0 <= init_wait <= G_MAXINT32 -> 0 <= interval <= G_MAXINT32 ->
      0 <= missed_max <= G_MAXINT32 -> token_value target_host ->
      _parse_team_link_watcher
        (watcher_dump_text (WatcherNsnaPing init_wait interval missed_max target_host))
      = nm_team_link_watcher_new_nsna_ping init_wait interval
          (if missed_max =? 0 then 3 else missed_max) (Some target_host))
  /\ (forall init_wait interval missed_max vlanid target_host source_host flags,
      0 <= init_wait <= G_MAXINT32 -> 0 <= interval <= G_MAXINT32 ->
      0 <= missed_max <= G_MAXINT32 -> -1 <= vlanid <= 4094 ->
      token_value target_host -> token_value source_host ->
      (Z.land flags NM_TEAM_LINK_WATCHER_ARP_PING_FLAG_SEND_ALWAYS = 0 ->
       _parse_team_link_watcher
         (watcher_dump_text
            (WatcherArpPing init_wait interval missed_max vlanid
               target_host source_host flags))
       = nm_team_link_watcher_new_arp_ping2 init_wait interval
           (if missed_max =? 0 then 3 else missed_max)
           (if vlanid =? 0 then -1 else vlanid)
           (Some target_host) (Some source_host) (Z.land flags 6))
      /\ (Z.land flags NM_TEAM_LINK_WATCHER_ARP_PING_FLAG_SEND_ALWAYS <> 0 ->
          exists tok,
            _parse_team_link_watcher
              (watcher_dump_text
                 (WatcherArpPing init_wait interval missed_max vlanid
                    target_host source_host flags))
            = inl (watcher_error tok "properties should be specified as 'key=value'"))).
Proof.
  split; [|split].
  - intros delay_up delay_down Hup Hdown.
    rewrite dump_text_ethtool. cbn [app].
    rewrite parse_watcher_tokens by solve_watcher_tokens.
    cbn [fold_until_error].
    rewrite (watcher_step_name "ethtool" ltac:(split; [discriminate|reflexivity])
               : watcher_token_step watcher_locals_init "name=ethtool" = _).
    rewrite fold_until_error_app.
    rewrite (watcher_fold_val1 "delay-up") by (auto || lia).
    rewrite (watcher_fold_val2 "delay-down") by (auto || lia).
    reflexivity.
  - intros init_wait interval missed_max target_host Hiw Hiv Hmm Hth.
    rewrite dump_text_nsna_ping. cbn [app].
    rewrite parse_watcher_tokens by solve_watcher_tokens.
    cbn [fold_until_error].
    rewrite (watcher_step_name "nsna_ping" ltac:(split; [discriminate|reflexivity])
               : watcher_token_step watcher_locals_init "name=nsna_ping" = _).
    rewrite !fold_until_error_app.
    rewrite (watcher_fold_val1 "init-wait") by (auto || lia).
    rewrite (watcher_fold_val2 "interval") by (auto || lia).
    rewrite watcher_fold_val3 by lia.
    cbn [fold_until_error].
    rewrite watcher_step_target_host by (assumption || (destruct (missed_max =? 0); lia)).
    reflexivity.
  - intros init_wait interval missed_max vlanid target_host source_host flags
           Hiw Hiv Hmm Hvl Hth Hsh.
    assert (Hmm' : 0 <= (if missed_max =? 0 then 3 else missed_max))
      by (destruct (missed_max =? 0); lia).
    assert (Hvl' : -1 <= (if vlanid =? 0 then -1 else vlanid))
      by (destruct (vlanid =? 0); lia).
    (* the locals after the tokens that come before the flags *)
    assert (Hbefore :
              fold_until_error watcher_token_step watcher_locals_init
                ("name=arp_ping" ::
                 ((((watcher_int_token "init-wait" init_wait
                     ++ watcher_int_token "interval" interval)
                    ++ watcher_int_token "missed-max" missed_max)
                   ++ ["target-host" +:+ "=" +:+ target_host])
                  ++ watcher_int_token "vlanid" vlanid)
                 ++ ["source-host" +:+ "=" +:+ source_host])
              = inr (mkWatcherLocals (Some "arp_ping") init_wait interval
                       (if missed_max =? 0 then 3 else missed_max)
                       (if vlanid =? 0 then -1 else vlanid)
                       (Some target_host) (Some source_host) 0)).
    { cbn [fold_until_error].
      rewrite (watcher_step_name "arp_ping" ltac:(split; [discriminate|reflexivity])
               : watcher_token_step watcher_locals_init "name=arp_ping" = _).
      rewrite !fold_until_error_app.
      rewrite (watcher_fold_val1 "init-wait") by (auto || lia).
      rewrite (watcher_fold_val2 "interval") by (auto || lia).
      rewrite watcher_fold_val3 by lia.
      cbn [fold_until_error].
      rewrite watcher_step_target_host by (assumption || lia).
      rewrite watcher_fold_val4 by lia.
      cbn [fold_until_error].
      rewrite watcher_step_source_host by (assumption || lia).
      reflexivity. }
    split.
    + intros Hno. rewrite dump_text_arp_ping. cbv zeta. rewrite Hno.
      change (negb (0 =? 0)) with false. cbv iota. cbn [app].
      rewrite parse_watcher_tokens by solve_watcher_tokens.
      rewrite !app_comm_cons, 2!fold_until_error_app.
      rewrite <- !app_comm_cons, Hbefore.
      rewrite (watcher_fold_flag "validate-active"
                 NM_TEAM_LINK_WATCHER_ARP_PING_FLAG_VALIDATE_ACTIVE) by (auto || lia).
      rewrite (watcher_fold_flag "validate-inactive"
                 NM_TEAM_LINK_WATCHER_ARP_PING_FLAG_VALIDATE_INACTIVE) by (auto || lia).
      cbn [wl_name wl_val1 wl_val2 wl_val3 wl_val4 wl_target_host wl_source_host wl_flags].
      change (nm_streq0 (Some "arp_ping") (Some NM_TEAM_LINK_WATCHER_ETHTOOL)) with false.
      change (nm_streq0 (Some "arp_ping") (Some NM_TEAM_LINK_WATCHER_NSNA_PING)) with false.
      change (nm_streq0 (Some "arp_ping") (Some NM_TEAM_LINK_WATCHER_ARP_PING)) with true.
      cbv iota. f_equal. apply (watcher_flags_read_back flags).
    + intros Hsend. rewrite dump_text_arp_ping. cbv zeta.
      replace (Z.land flags NM_TEAM_LINK_WATCHER_ARP_PING_FLAG_SEND_ALWAYS =? 0) with false
        by (symmetry; apply Z.eqb_neq; exact Hsend).
      cbn [negb]. cbn [app].
      destruct (negb (Z.land flags NM_TEAM_LINK_WATCHER_ARP_PING_FLAG_VALIDATE_ACTIVE =? 0))
        eqn:Eactive;
        destruct (negb (Z.land flags NM_TEAM_LINK_WATCHER_ARP_PING_FLAG_VALIDATE_INACTIVE =? 0))
          eqn:Einactive;
        rewrite ?app_nil_r.
      * (* ... validate-active=true validate-inactive=truesend-always=true *)
        rewrite join_text_glue.
        change ("validate-inactive" +:+ "=true") with ("validate-inactive" +:+ "=" +:+ "true").
        eexists.
        rewrite parse_watcher_tokens.
        -- rewrite !app_comm_cons, 2!fold_until_error_app.
           rewrite <- !app_comm_cons, Hbefore.
           cbn [fold_until_error].
           rewrite (watcher_token_step_key_value _
                      (mkWatcherLocals (Some "arp_ping") init_wait interval
                         (if missed_max =? 0 then 3 else missed_max)
                         (if vlanid =? 0 then -1 else vlanid)
                         (Some target_host) (Some source_host)
                         (Z.lor 0 NM_TEAM_LINK_WATCHER_ARP_PING_FLAG_VALIDATE_ACTIVE))
                      "validate-active" "true");
             [|split; (discriminate || reflexivity)|split; (discriminate || reflexivity)
              |reflexivity|unfold watcher_in_range; simpl; lia].
           rewrite watcher_step_glued by (split; (discriminate || reflexivity)).
           reflexivity.
        -- solve_watcher_tokens.
      * (* ... validate-active=truesend-always=true *)
        rewrite join_text_glue.
        change ("validate-active" +:+ "=true") with ("validate-active" +:+ "=" +:+ "true").
        eexists.
        rewrite parse_watcher_tokens.
        -- rewrite !app_comm_cons, fold_until_error_app.
           rewrite <- !app_comm_cons, Hbefore.
           cbn [fold_until_error].
           rewrite watcher_step_glued by (split; (discriminate || reflexivity)).
           reflexivity.
        -- solve_watcher_tokens.
      * (* ... validate-inactive=truesend-always=true *)
        rewrite join_text_glue.
        change ("validate-inactive" +:+ "=true") with ("validate-inactive" +:+ "=" +:+ "true").
        eexists.
        rewrite parse_watcher_tokens.
        -- rewrite !app_comm_cons, fold_until_error_app.
           rewrite <- !app_comm_cons, Hbefore.
           cbn [fold_until_error].
           rewrite watcher_step_glued by (split; (discriminate || reflexivity)).
           reflexivity.
        -- solve_watcher_tokens.
      * (* ... source-host=<host>send-always=true *)
        rewrite join_text_glue.
        eexists.
        rewrite parse_watcher_tokens.
        -- cbn [fold_until_error].
           rewrite (watcher_step_name "arp_ping" ltac:(split; [discriminate|reflexivity])
                      : watcher_token_step watcher_locals_init "name=arp_ping" = _).
           rewrite !fold_until_error_app.
           rewrite (watcher_fold_val1 "init-wait") by (auto || lia).
           rewrite (watcher_fold_val2 "interval") by (auto || lia).
           rewrite watcher_fold_val3 by lia.
           cbn [fold_until_error].
           rewrite watcher_step_target_host by (assumption || lia).
           rewrite watcher_fold_val4 by lia.
           cbn [fold_until_error].
           rewrite watcher_step_glued by (assumption || (split; (discriminate || reflexivity))).
           reflexivity.
        -- solve_watcher_tokens.
           split; [discriminate|].
           rewrite !string_forall_app, (token_value_no_space _ Hsh). reflexivity.
Qed.

(** An [nsna_ping] watcher with a missed-max of 0 comes back with 3. *)
Lemma watcher_dump_parse_witness :
  @_parse_team_link_watcher reference_collaborators
    (watcher_dump_text (WatcherNsnaPing 1 2 0 "host"))
  = @nm_team_link_watcher_new_nsna_ping reference_collaborators 1 2 3 (Some "host").
Proof.
  destruct (watcher_dump_parse reference_collaborators) as (_ & Hnsna & _).
  apply (Hnsna 1 2 0 "host").
  - vm_compute. split; discriminate.
  - vm_compute. split; discriminate.
  - vm_compute. split; discriminate.
  - split; [discriminate|reflexivity].
Defined.

(** ** The DCB slots: what is set is what is read *)

Lemma dcb_parse_item_allowed (max other : Z) (out_array : list Z) (item : string)
    (res : list Z) :
  0 <= max -> other = 0 \/ max < other ->
  dcb_parse_item max other out_array item = inr res ->
  exists num, res = (out_array ++ [num])%list /\ dcb_value_allowed max other num.
Proof.
  intros Hmax Hother. unfold dcb_parse_item, dcb_value_allowed.
  pose proof (str_to_int64_range (g_strstrip item) 10 0
                (if other =? 0 then max else other) (-1)) as Hr.
  cbv zeta in Hr.
  destruct (_ =? -1) eqn:E.
  - cbn [orb]. destruct (negb (other =? 0)); discriminate.
  - cbn [orb]. apply Z.eqb_neq in E.
    destruct (_ && _) eqn:E2; [destruct (negb (other =? 0)); discriminate|].
    intros [= <-]. eexists. split; [reflexivity|].
    destruct Hr as [Hr|Hr]; [congruence|].
    destruct (other =? 0) eqn:Eo.
    + left. exact Hr.
    + apply Z.eqb_neq in Eo. cbn [negb andb] in E2.
      destruct (Z.ltb_spec max (_nm_utils_ascii_str_to_int64 (g_strstrip item) 10 0 other (-1)))
        as [Hgt|Hle]; [|left; lia].
      cbn [andb] in E2. apply negb_false_iff, Z.eqb_eq in E2. right. auto.
Qed.

Lemma dcb_parse_items_allowed (max other : Z) (items : list string) : forall out_array res,
  0 <= max -> other = 0 \/ max < other ->
  fold_until_error (dcb_parse_item max other) out_array items = inr res ->
  exists nums, res = (out_array ++ nums)%list
               /\ length nums = length items
               /\ Forall (dcb_value_allowed max other) nums.
Proof.
  induction items as [|item items IH]; intros out_array res Hmax Hother Hfold;
    simpl in Hfold.
  - injection Hfold as <-. exists []. rewrite app_nil_r. auto.
  - destruct (dcb_parse_item max other out_array item) as [e|acc] eqn:Hitem; [discriminate|].
    destruct (dcb_parse_item_allowed _ _ _ _ _ Hmax Hother Hitem) as (num & -> & Hnum).
    destruct (IH _ _ Hmax Hother Hfold) as (nums & -> & Hlen & Hall).
    exists (num :: nums). rewrite <- app_assoc. simpl. auto.
Qed.

Lemma dcb_parse_uint_array_allowed (val : string) (max other : Z) (nums : list Z) :
  0 <= max -> other = 0 \/ max < other ->
  dcb_parse_uint_array val max other = inr nums ->
  length nums = 8%nat /\ Forall (dcb_value_allowed max other) nums.
Proof.
  intros Hmax Hother. unfold dcb_parse_uint_array.
  destruct (Nat.eqb (length (g_strsplit_set val ",")) 8) eqn:E; [|discriminate].
  apply Nat.eqb_eq in E. cbn [negb]. intros Hfold.
  destruct (dcb_parse_items_allowed _ _ _ _ _ Hmax Hother Hfold) as (nums' & Hres & Hlen & Hall).
  simpl in Hres. subst nums'. rewrite Hlen. auto.
Qed.

(** The slots after the loop that stores the eight numbers. *)
Lemma dcb_slots_after_set (prop : string) (max other : Z) (is_percent : bool)
    (pairs : list (Z * Z)) : forall setting,
  setting_uint_array prop
    (fold_left (fun st '(i, n) => dcb_set_fcn (dcb_slots prop max other is_percent) st i n)
       pairs setting)
  = fold_left (fun a '(i, n) => <[Z.to_nat i := n]> a) pairs (setting_uint_array prop setting).
Proof.
  induction pairs as [|[i n] pairs IH]; intros setting; [reflexivity|].
  cbn [fold_left]. rewrite IH. f_equal.
  unfold setting_uint_array at 1. cbn [dcb_set_fcn dcb_slots setting_values].
  rewrite lookup_insert_eq. reflexivity.
Qed.

Lemma dcb_slots_stored (prop : string) (max other : Z) (is_percent : bool)
    (setting : NMSetting) (nums : list Z) :
  length (setting_uint_array prop setting) = 8%nat -> length nums = 8%nat ->
  setting_uint_array prop
    (fold_left (fun st '(i, n) => dcb_set_fcn (dcb_slots prop max other is_percent) st i n)
       (combine (map Z.of_nat (seq 0 8)) nums) setting)
  = nums.
Proof.
  intros Harr Hnums. rewrite dcb_slots_after_set.
  destruct (setting_uint_array prop setting)
    as [|a0 [|a1 [|a2 [|a3 [|a4 [|a5 [|a6 [|a7 [|a8 arr]]]]]]]]]; try discriminate.
  destruct nums as [|n0 [|n1 [|n2 [|n3 [|n4 [|n5 [|n6 [|n7 [|n8 nums]]]]]]]]];
    try discriminate.
  reflexivity.
Qed.

Lemma fmt_u_small (n : Z) : 0 <= n <= G_MAXUINT32 -> fmt_u n = fmt_d n.
Proof.
  intros Hn. unfold fmt_u. rewrite Z.mod_small; [reflexivity|].
  unfold G_MAXUINT32 in Hn. lia.
Qed.

(** The loop of [_get_fcn_dcb] writes the eight slots with commas between
    them. *)
Lemma dcb_slots_text (f : Z -> string) (get : Z -> Z) :
  fold_left (fun (str : string) (i : Z) =>
               (if 0 <? i then str +:+ "," else str) +:+ f (get i))
            (map Z.of_nat (seq 0 8)) ""
  = comma_text (map (fun i => f (get i)) [0; 1; 2; 3; 4; 5; 6; 7]).
Proof. simpl. rewrite !string_app_assoc. reflexivity. Qed.

(** The text that [_get_fcn_dcb] writes for the slots. *)
Lemma get_fcn_dcb_text (prop : string) (max other : Z) (is_percent : bool)
    (setting : NMSetting) (nums : list Z) (get_type : NMMetaAccessorGetType)
    (get_flags : list NMMetaAccessorGetFlags) :
  unsupported_get_type get_type = false ->
  setting_uint_array prop setting = nums -> length nums = 8%nat ->
  Forall (fun n => 0 <= n <= G_MAXUINT32) nums ->
  _get_fcn_dcb (property_info_dcb prop max other is_percent) setting get_type get_flags
  = Some (mkGetResult (Some (comma_text (map fmt_d nums))) None).
Proof.
  intros Hsupported Harr Hlen Hall. unfold _get_fcn_dcb. rewrite Hsupported.
  cbn [property_typ_data property_info_dcb subtype].
  rewrite (dcb_slots_text fmt_u
             (dcb_get_fcn (dcb_slots prop max other is_percent) setting)).
  cbn [dcb_get_fcn dcb_slots]. rewrite Harr.
  destruct nums as [|n0 [|n1 [|n2 [|n3 [|n4 [|n5 [|n6 [|n7 [|n8 nums]]]]]]]]];
    try discriminate.
  repeat match goal with
         | H : Forall _ (_ :: _) |- _ =>
             let Hn := fresh "Hn" in
             apply Forall_cons in H as [Hn H]; apply fmt_u_small in Hn
         end.
  change (map (fun i => fmt_u (default 0 ([n0; n1; n2; n3; n4; n5; n6; n7] !! Z.to_nat i)))
              [0; 1; 2; 3; 4; 5; 6; 7])
    with (map fmt_u [n0; n1; n2; n3; n4; n5; n6; n7]).
  cbn [map].
  repeat match goal with H : fmt_u _ = fmt_d _ |- _ => rewrite H; clear H end.
  reflexivity.
Qed.

Lemma dcb_slots_present (prop : string) (max other : Z) (is_percent : bool)
    (pairs : list (Z * Z)) : forall setting,
  pairs <> [] \/ (exists a, setting_values setting !! prop = Some (GValue_uint_array a)) ->
  exists a,
    setting_values
      (fold_left (fun st '(i, n) => dcb_set_fcn (dcb_slots prop max other is_percent) st i n)
         pairs setting) !! prop
    = Some (GValue_uint_array a).
Proof.
  induction pairs as [|[i n] pairs IH]; intros setting Hpre.
  - destruct Hpre as [Hne|Hp]; [congruence|exact Hp].
  - cbn [fold_left]. apply IH. right. eexists.
    cbn [dcb_set_fcn dcb_slots setting_values]. apply lookup_insert_eq.
Qed.

(** Storing the numbers that the slots already hold changes nothing. *)
Lemma dcb_slots_set_same (prop : string) (max other : Z) (is_percent : bool)
    (setting : NMSetting) (arr : list Z) (pairs : list (Z * Z)) :
  setting_values setting !! prop = Some (GValue_uint_array arr) ->
  Forall (fun '(i, n) => arr !! Z.to_nat i = Some n) pairs ->
  fold_left (fun st '(i, n) => dcb_set_fcn (dcb_slots prop max other is_percent) st i n)
    pairs setting
  = setting.
Proof.
  intros Hheld Hall. induction Hall as [|[i n] pairs Hin _ IH]; [reflexivity|].
  cbn [fold_left].
  assert (Hstep : dcb_set_fcn (dcb_slots prop max other is_percent) setting i n = setting).
  { cbn [dcb_set_fcn dcb_slots]. unfold setting_uint_array. rewrite Hheld.
    rewrite (list_insert_id _ _ _ Hin), (insert_id _ _ _ Hheld).
    destruct setting. reflexivity. }
  rewrite Hstep. exact IH.
Qed.

Lemma set_fcn_dcb_slots (prop : string) (max other : Z)
    (is_percent : bool) (setting : NMSetting) (value : string) :
  _set_fcn_dcb (property_info_dcb prop max other is_percent) setting (Some value)
  = match dcb_parse_uint_array value max other with
    | inl e => return_FALSE e setting
    | inr nums =>
        if is_percent && negb (dcb_percent_sum nums 0 =? 100) then
          return_FALSE (g_set_error_1_0 (gettext "bandwidth percentages must total 100%%"))
            setting
        else
          let setting' :=
            fold_left
              (fun st '(i, n) => dcb_set_fcn (dcb_slots prop max other is_percent) st i n)
              (combine (map Z.of_nat (seq 0 8)) nums) setting in
          Returned true None setting'
            (dcb_check_feature_enabled setting' NM_SETTING_DCB_PRIORITY_GROUP_FLAGS)
    end.
Proof. reflexivity. Qed.

(** X2.  After a successful set of a DCB array property, the eight slots
    hold the numbers that the text parsed to, the getter writes these
    numbers in decimal with commas between them, and setting this text
    again succeeds and leaves the setting exactly as it is. *)
Theorem dcb_get_after_set (prop : string) (max other : Z)
    (is_percent : bool) (setting setting' : NMSetting) (value : string)
    (warnings : list string) (get_type : NMMetaAccessorGetType)
    (get_flags : list NMMetaAccessorGetFlags) :
  0 <= max <= G_MAXUINT32 -> other = 0 \/ max < other <= G_MAXUINT32 ->
  length (setting_uint_array prop setting) = 8%nat ->
  unsupported_get_type get_type = false ->
  _set_fcn_dcb (property_info_dcb prop max other is_percent) setting (Some value)
  = Returned true None setting' warnings ->
  exists nums,
    dcb_parse_uint_array value max other = inr nums
    /\ setting_uint_array prop setting' = nums
    /\ _get_fcn_dcb (property_info_dcb prop max other is_percent) setting' get_type get_flags
       = Some (mkGetResult (Some (comma_text (map fmt_d nums))) None)
    /\ _set_fcn_dcb (property_info_dcb prop max other is_percent) setting'
         (Some (comma_text (map fmt_d nums)))
       = Returned true None setting' warnings.
Proof.
  intros Hmax Hother Harr Hsupported Hset.
  assert (Hother' : other = 0 \/ max < other) by (destruct Hother; [left|right]; lia).
  rewrite set_fcn_dcb_slots in Hset.
  destruct (dcb_parse_uint_array value max other) as [e|nums] eqn:Hparse; [discriminate|].
  destruct (is_percent && negb (dcb_percent_sum nums 0 =? 100)) eqn:Hpct; [discriminate|].
  cbv zeta in Hset.
  match type of Hset with
  | Returned _ _ ?s ?w = _ =>
      assert (Hsetting : s = setting') by congruence;
      assert (Hwarnings : w = warnings) by congruence
  end.
  clear Hset. rewrite Hsetting in Hwarnings.
  destruct (dcb_parse_uint_array_allowed _ _ _ _ (proj1 Hmax) Hother' Hparse) as [Hlen Hall].
  assert (Hslots : setting_uint_array prop setting' = nums).
  { rewrite <- Hsetting.
    apply (dcb_slots_stored prop max other is_percent setting nums Harr Hlen). }
  assert (Hbound : Forall (fun n => 0 <= n <= G_MAXUINT32) nums).
  { eapply Forall_impl; [exact Hall|]. intros n [Hn|[_ ->]]; lia. }
  assert (Hrange : Forall (fun n => G_MININT64 < n <= G_MAXINT64) nums).
  { eapply Forall_impl; [exact Hbound|]. intros n Hn.
    unfold G_MAXUINT32, G_MININT64, G_MAXINT64 in *. lia. }
  exists nums. split; [reflexivity|]. split; [exact Hslots|]. split.
  - apply get_fcn_dcb_text; assumption.
  - rewrite set_fcn_dcb_slots.
    assert (Hagain : dcb_parse_uint_array (comma_text (map fmt_d nums)) max other = inr nums).
    { unfold dcb_parse_uint_array. rewrite g_strsplit_set_decimals, length_map, Hlen.
      cbn [Nat.eqb negb].
      apply (dcb_parse_items_decimal max other nums [] Hrange (proj1 Hmax) Hother'), Hall. }
    rewrite Hagain, Hpct. cbv zeta.
    destruct (dcb_slots_present prop max other is_percent
                (combine (map Z.of_nat (seq 0 8)) nums) setting) as [a Ha].
    { left. destruct nums; [discriminate|]. discriminate. }
    rewrite Hsetting in Ha.
    assert (a = nums) as ->.
    { unfold setting_uint_array in Hslots. rewrite Ha in Hslots. exact Hslots. }
    rewrite (dcb_slots_set_same prop max other is_percent setting' nums _ Ha).
    + rewrite Hwarnings. reflexivity.
    + destruct nums as [|n0 [|n1 [|n2 [|n3 [|n4 [|n5 [|n6 [|n7 [|n8 nums]]]]]]]]];
        try discriminate.
      repeat constructor.
Qed.

(** The priority group identifiers, with the value 15 that stands for "no
    group". *)
Lemma dcb_get_after_set_witness :
  let setting' :=
    match _set_fcn_dcb property_info_dcb_priority_group_id (mkNMSetting ∅ ∅)
            (Some " 0,1, 2,3,4,5,15,7") with
    | Returned _ _ setting' _ => setting'
    | NullDereference => mkNMSetting ∅ ∅
    end in
  _get_fcn_dcb property_info_dcb_priority_group_id setting'
    NM_META_ACCESSOR_GET_TYPE_PARSABLE []
  = Some (mkGetResult (Some "0,1,2,3,4,5,15,7") None).
Proof.
  cbv zeta.
  destruct (dcb_get_after_set NM_SETTING_DCB_PRIORITY_GROUP_ID 7 15
              false (mkNMSetting ∅ ∅)
              (match _set_fcn_dcb
                       property_info_dcb_priority_group_id (mkNMSetting ∅ ∅)
                       (Some " 0,1, 2,3,4,5,15,7") with
               | Returned _ _ setting' _ => setting'
               | NullDereference => mkNMSetting ∅ ∅
               end)
              " 0,1, 2,3,4,5,15,7"
              ["changes will have no effect until 'priority-group-flags' includes 1 (enabled)"]
              NM_META_ACCESSOR_GET_TYPE_PARSABLE [])
    as (nums & Hparse & _ & Hget & _).
  - vm_compute. split; discriminate.
  - right. vm_compute. split; [reflexivity|discriminate].
  - reflexivity.
  - reflexivity.
  - vm_compute. reflexivity.
  - assert (nums = [0; 1; 2; 3; 4; 5; 15; 7]) as ->.
    { vm_compute in Hparse. injection Hparse as <-. reflexivity. }
    exact Hget.
Defined.

(** ** Flag words printed by hand *)

Lemma string_length_app (a b : string) :
  String.length (a +:+ b) = (String.length a + String.length b)%nat.
Proof.
  induction a as [|x a IH]; [reflexivity|].
  change (String x a +:+ b) with (String x (a +:+ b)). cbn [String.length].
  rewrite IH. reflexivity.
Qed.

Lemma substring_prefix (a b : string) : substring 0 (String.length a) (a +:+ b) = a.
Proof.
  induction a as [|x a IH]; [destruct b; reflexivity|].
  change (String x a +:+ b) with (String x (a +:+ b)). cbn [String.length substring].
  rewrite IH. reflexivity.
Qed.

(** The end of a flag text: after names, the last separator goes; after
    none, ["unknown"] comes. *)
Lemma close_flag_str_names (q : string) : close_flag_str (q +:+ ", ") = q +:+ ")".
Proof.
  unfold close_flag_str. rewrite string_last_app_cons.
  cbn [string_last]. rewrite bool_decide_eq_false_2 by discriminate.
  unfold g_string_truncate. rewrite string_length_app.
  replace (String.length q + String.length ", " - 2)%nat with (String.length q)
    by (cbn [String.length]; lia).
  rewrite substring_prefix. reflexivity.
Qed.

Lemma close_flag_str_none (p : string) :
  close_flag_str (p +:+ " (") = p +:+ " (unknown)".
Proof.
  unfold close_flag_str. rewrite string_last_app_cons.
  cbn [string_last]. rewrite bool_decide_eq_true_2 by reflexivity.
  unfold gettext. rewrite !string_app_assoc. reflexivity.
Qed.

(** The loop of [if (flags & bit) g_string_append (...)] over a table. *)
Lemma append_flags_text (flags : Z) (table : list (Z * string)) : forall str,
  fold_left (fun s entry => append_if_flag flags (fst entry) s (snd entry +:+ ", ")) table str
  = match flag_names flags table with
    | [] => str
    | names => str +:+ join_text ", " names +:+ ", "
    end.
Proof.
  induction table as [|[bit name] table IH]; intros str; [reflexivity|].
  cbn [fold_left fst snd]. rewrite IH. unfold flag_names, append_if_flag.
  cbn [List.filter fst]. destruct (negb (Z.land flags bit =? 0)); [|reflexivity].
  cbn [map snd].
  destruct (map snd (List.filter _ table)) as [|y names].
  - cbn [join_text]. rewrite ?string_app_assoc. reflexivity.
  - change (join_text ", " (name :: y :: names))
      with (name +:+ ", " +:+ join_text ", " (y :: names)).
    rewrite ?string_app_assoc. reflexivity.
Qed.

Lemma flag_word_text (flags : Z) (table : list (Z * string)) (p : string) :
  close_flag_str
    (fold_left (fun s entry => append_if_flag flags (fst entry) s (snd entry +:+ ", "))
       table (p +:+ " ("))
  = p +:+ " (" +:+ flag_names_text (flag_names flags table) +:+ ")".
Proof.
  rewrite append_flags_text. unfold flag_names_text.
  destruct (flag_names flags table) as [|y names].
  - apply close_flag_str_none.
  - rewrite <- !string_app_assoc. rewrite close_flag_str_names. reflexivity.
Qed.

(** X3.  [secret_flags_to_string] writes a flag word of 32 bits in
    parsable mode as its decimal number, which reads back as the same
    word; in pretty mode 0 is ["0 (none)"] and any other word is the
    number followed, in parentheses, by the names of the flags that are
    set, separated by [", "] with no separator left at the end, or by
    ["unknown"] when none of the three flags is set. *)
Theorem secret_flags_text (flags : Z) :
  0 <= flags <= G_MAXUINT32 ->
  secret_flags_to_string flags NM_META_ACCESSOR_GET_TYPE_PARSABLE = fmt_d flags
  /\ _nm_utils_ascii_str_to_int64
       (secret_flags_to_string flags NM_META_ACCESSOR_GET_TYPE_PARSABLE)
       10 0 G_MAXUINT32 (-1) = flags
  /\ secret_flags_to_string 0 NM_META_ACCESSOR_GET_TYPE_PRETTY = "0 (none)"
  /\ (flags <> 0 ->
      secret_flags_to_string flags NM_META_ACCESSOR_GET_TYPE_PRETTY
      = fmt_d flags +:+ " ("
        +:+ flag_names_text (flag_names flags secret_flag_table) +:+ ")").
Proof.
  intros Hflags.
  assert (Hparsable : secret_flags_to_string flags NM_META_ACCESSOR_GET_TYPE_PARSABLE
                      = fmt_d flags).
  { unfold secret_flags_to_string. cbn [bool_decide negb]. apply fmt_u_small, Hflags. }
  split; [exact Hparsable|]. split; [|split; [reflexivity|]].
  - rewrite Hparsable. apply str_to_int64_fmt_d_in.
    + reflexivity.
    + vm_compute. discriminate.
    + exact Hflags.
  - intros Hne. unfold secret_flags_to_string.
    rewrite bool_decide_eq_true_2 by reflexivity. cbn [negb].
    apply Z.eqb_neq in Hne. rewrite Hne. cbv zeta.
    rewrite (fmt_u_small flags Hflags).
    apply (flag_word_text flags secret_flag_table (fmt_d flags)).
Qed.

(** The word with the first and the last flag. *)
Lemma secret_flags_text_witness :
  secret_flags_to_string 5 NM_META_ACCESSOR_GET_TYPE_PRETTY
  = "5 (agent-owned, not required)".
Proof.
  refine (eq_trans (proj2 (proj2 (proj2 (secret_flags_text 5 _))) _) _).
  - vm_compute. split; discriminate.
  - discriminate.
  - vm_compute. reflexivity.
Defined.

(** X4.  [vlan_flags_to_string] writes the word in parsable mode as its
    unsigned decimal number; in pretty mode 0 is ["0 (NONE)"] and any
    other word is the number, printed as a signed [int], followed by the
    names of the flags that are set, or ["unknown"]: up to [G_MAXINT32]
    the two numbers agree, above it the pretty number is the word minus
    [2^32]. *)
Theorem vlan_flags_text (flags : Z) :
  0 <= flags <= G_MAXUINT32 ->
  vlan_flags_to_string flags NM_META_ACCESSOR_GET_TYPE_PARSABLE = fmt_d flags
  /\ vlan_flags_to_string 0 NM_META_ACCESSOR_GET_TYPE_PRETTY = "0 (NONE)"
  /\ (flags <> 0 ->
      vlan_flags_to_string flags NM_META_ACCESSOR_GET_TYPE_PRETTY
      = fmt_d (if flags <=? G_MAXINT32 then flags else flags - 2 ^ 32) +:+ " ("
        +:+ flag_names_text (flag_names flags vlan_flag_table) +:+ ")").
Proof.
  intros Hflags. split; [|split; [reflexivity|]].
  - unfold vlan_flags_to_string. cbn [bool_decide negb]. apply fmt_u_small, Hflags.
  - intros Hne. unfold vlan_flags_to_string.
    rewrite bool_decide_eq_true_2 by reflexivity. cbn [negb].
    apply Z.eqb_neq in Hne. rewrite Hne. cbv zeta.
    assert (Hcast : cast_int flags = if flags <=? G_MAXINT32 then flags else flags - 2 ^ 32).
    { unfold cast_int, G_MAXINT32, G_MAXUINT32 in *.
      change (2 ^ 31) with 2147483648 in *. change (2 ^ 32) with 4294967296 in *.
      destruct (Z.leb_spec flags (2147483648 - 1)).
      - rewrite Z.mod_small by lia. lia.
      - rewrite <- (Z.mod_add _ (-1)) by lia. rewrite Z.mod_small by lia. lia. }
    rewrite Hcast.
    apply (flag_word_text flags vlan_flag_table).
Qed.

(** A word with the highest bit: the pretty number is negative. *)
Lemma vlan_flags_text_witness :
  vlan_flags_to_string 2147483650 NM_META_ACCESSOR_GET_TYPE_PRETTY = "-2147483646 (GVRP)"
  /\ vlan_flags_to_string 2147483650 NM_META_ACCESSOR_GET_TYPE_PARSABLE = "2147483650".
Proof.
  destruct (vlan_flags_text 2147483650) as (Hparsable & _ & Hpretty).
  - vm_compute. split; discriminate.
  - split.
    + rewrite Hpretty by discriminate. vm_compute. reflexivity.
    + rewrite Hparsable. vm_compute. reflexivity.
Defined.

(** ** The address list: what the getter writes, the setter reads *)

Lemma strchr_cut_app (c : ascii) (a b : string) :
  string_forall (fun x => negb (Ascii.eqb x c)) a = true ->
  strchr_cut c (a +:+ String c b) = Some (a, b).
Proof.
  induction a as [|x a IH]; intros Ha.
  - simpl. rewrite Ascii.eqb_refl. reflexivity.
  - simpl in Ha. apply andb_prop in Ha as [Hx Ha]. apply negb_true_iff in Hx.
    change (String x a +:+ String c b) with (String x (a +:+ String c b)).
    cbn [strchr_cut]. rewrite Hx, (IH Ha). reflexivity.
Qed.


Lemma fmt_d_address_chars (n : Z) :
  0 <= n ->
  string_forall (fun c => negb (g_ascii_isspace c)) (fmt_d n) = true
  /\ string_forall (fun c => negb (str_mem c ",")) (fmt_d n) = true.
Proof. intros _. split; [apply fmt_d_no_space|apply fmt_d_no_comma]. Qed.



(** A loop all of whose items are accepted adds them all. *)
Lemma set_loop_all_ok {V : Type} (body : NMSetting -> string -> GError + NMSetting)
    (add : NMSetting -> V -> NMSetting) (items : list string) (values : list V) :
  Forall2 (fun item v => forall st, body st item = inr (add st v)) items values ->
  forall setting, set_loop body setting items = return_TRUE (fold_left add values setting).
Proof.
  unfold set_loop. induction 1 as [|item v items values Hitem _ IH]; intros setting.
  - reflexivity.
  - cbn [fold_until_error fold_left]. rewrite Hitem. apply IH.
Qed.


Section AddressList.
Context `{Collaborators}.





End AddressList.



(** ** Lists that are checked before they are applied *)

Lemma unit_fold_all_ok (step : unit -> string -> GError + unit) (items : list string) :
  Forall (fun item => step tt item = inr tt) items ->
  fold_until_error step tt items = inr tt.
Proof.
  induction 1 as [|item items Hitem _ IH]; [reflexivity|].
  cbn [fold_until_error]. rewrite Hitem. exact IH.
Qed.

Lemma unit_fold_first_error (step : unit -> string -> GError + unit)
    (pre rest : list string) (bad : string) (e : GError) :
  Forall (fun item => step tt item = inr tt) pre ->
  step tt bad = inl e ->
  fold_until_error step tt (pre ++ bad :: rest) = inl e.
Proof.
  intros Hpre Hbad. rewrite fold_until_error_app, (unit_fold_all_ok step pre Hpre).
  cbn [fold_until_error]. rewrite Hbad. reflexivity.
Qed.

Lemma strsplit_tokens_nonempty (s delims : string) (tokens : list string) :
  nm_utils_strsplit_set s delims = Some tokens ->
  tokens <> [] /\ Forall (fun t => t <> "") tokens.
Proof.
  unfold nm_utils_strsplit_set. destruct (split_fields delims s) as [w ws].
  destruct (List.filter str_nonempty (w :: ws)) as [|t toks] eqn:E; [discriminate|].
  intros [= <-]. split; [discriminate|].
  apply List.Forall_forall. intros x Hx. rewrite <- E in Hx.
  apply filter_In in Hx as [_ Hx]. destruct x; [discriminate|discriminate].
Qed.

Lemma str_skip_prefix_app (prefix s rest : string) :
  str_skip_prefix prefix s = Some rest -> s = prefix +:+ rest.
Proof.
  revert s. induction prefix as [|a prefix IH]; intros s Hs.
  - injection Hs as <-. reflexivity.
  - destruct s as [|b s]; [discriminate|]. cbn [str_skip_prefix] in Hs.
    destruct (Ascii.eqb_spec a b) as [<-|]; [|discriminate].
    rewrite (IH s Hs). reflexivity.
Qed.

(** A permission is accepted when it names a user: a name that is not
    empty and has no [:], alone or after ["user:"]. *)
Lemma permissions_valid_user (token : string) :
  permissions_valid (Some token) = true
  <-> permission_user token <> "" /\ str_mem ":"%char (permission_user token) = false.
Proof.
  unfold permissions_valid, permission_user.
  destruct token as [|c token].
  - simpl. split; [discriminate|]. intros [Hne _]. congruence.
  - destruct (str_skip_prefix PERM_USER_PREFIX (String c token)) as [rest|] eqn:E.
    + apply str_skip_prefix_app in E. rewrite E, string_length_app.
      destruct rest as [|r rest].
      * replace (String.length PERM_USER_PREFIX + String.length ""
                 <=? String.length PERM_USER_PREFIX)%nat with true
          by (symmetry; apply Nat.leb_le; simpl; lia).
        simpl. split; [discriminate|]. intros [Hne _]. congruence.
      * replace (String.length PERM_USER_PREFIX + String.length (String r rest)
                 <=? String.length PERM_USER_PREFIX)%nat with false
          by (symmetry; apply Nat.leb_gt; simpl; lia).
        cbn [orb]. destruct (str_mem ":" (String r rest)).
        -- split; [discriminate|]. intros [_ Hbad]. discriminate.
        -- split; [|reflexivity]. intros _. split; [discriminate|reflexivity].
    + destruct (str_mem ":" (String c token)).
      * split; [discriminate|]. intros [_ Hbad]. discriminate.
      * split; [|reflexivity]. intros _. split; [discriminate|reflexivity].
Qed.

(** X6.  The setter of the connection permissions checks every token
    before it adds one.  When each token names a user (a name that is not
    empty and has no [:], alone or after ["user:"]) it adds the users in
    order, each with the type ["user"] and without the prefix; otherwise
    it returns the error of the first token that does not, and the setting
    is left as it was. *)
Theorem connection_permissions_checked_first
    (add_permission : NMSetting -> string -> string -> NMSetting)
    (info : NMMetaPropertyInfo) (setting : NMSetting) (value : string)
    (tokens : list string) :
  nm_utils_strsplit_set value delimiters_space_tab_comma = Some tokens ->
  (Forall (fun t => permissions_valid (Some t) = true) tokens ->
   _set_fcn_connection_permissions add_permission info setting (Some value)
   = return_TRUE
       (fold_left (fun st t => add_permission st "user" (permission_user t)) tokens setting))
  /\ (forall pre bad rest,
        tokens = (pre ++ bad :: rest)%list ->
        Forall (fun t => permissions_valid (Some t) = true) pre ->
        permissions_valid (Some bad) = false ->
        _set_fcn_connection_permissions add_permission info setting (Some value)
        = return_FALSE (g_set_error_1_0 ("'" +:+ bad +:+ "' is not valid")) setting)
  /\ (forall t,
        permissions_valid (Some t) = true
        <-> permission_user t <> "" /\ str_mem ":"%char (permission_user t) = false).
Proof.
  intros Hsplit.
  destruct (strsplit_tokens_nonempty _ _ _ Hsplit) as [_ Hnonempty].
  unfold _set_fcn_connection_permissions. rewrite Hsplit. cbv zeta.
  unfold verify_string_list.
  split; [|split].
  - intros Hvalid. rewrite unit_fold_all_ok; [reflexivity|].
    eapply Forall_impl; [exact Hvalid|]. intros t Ht. cbv beta. rewrite Ht.
    destruct (String.eqb t ""); reflexivity.
  - intros pre bad rest -> Hpre Hbad.
    rewrite (unit_fold_first_error _ pre rest bad
               (g_set_error_1_0 ("'" +:+ bad +:+ "' is not valid"))).
    + reflexivity.
    + eapply Forall_impl; [exact Hpre|]. intros t Ht. cbv beta. rewrite Ht.
      destruct (String.eqb t ""); reflexivity.
    + cbv beta. rewrite Hbad.
      apply Forall_app in Hnonempty as [_ Hne]. apply Forall_cons in Hne as [Hne _].
      apply String.eqb_neq in Hne. rewrite Hne. reflexivity.
  - exact permissions_valid_user.
Qed.

(** Two users, one written with the prefix. *)
Lemma connection_permissions_checked_first_witness :
  let add := fun setting ptype pitem =>
               add_fcn (strv_multilist "permissions") setting (ptype +:+ ":" +:+ pitem) in
  exists setting',
    _set_fcn_connection_permissions add (property_info_plain "permissions")
      (mkNMSetting ∅ ∅) (Some "user:alice bob")
    = return_TRUE setting'
    /\ setting_strv "permissions" setting' = ["user:alice"; "user:bob"].
Proof.
  cbv zeta. eexists. split.
  - refine (proj1 (connection_permissions_checked_first _
                     (property_info_plain "permissions") (mkNMSetting ∅ ∅)
                     "user:alice bob" ["user:alice"; "bob"] _) _).
    + vm_compute. reflexivity.
    + repeat constructor.
  - vm_compute. reflexivity.
Defined.

(** X7.  The setter of a MAC blacklist checks every token before it adds
    one: when each token is a MAC address it adds them all in order, and a
    text without a token changes nothing; otherwise it returns the error
    of the first token that is not, and the setting is left as it was. *)
Theorem mac_blacklist_checked_first (C : Collaborators)
    (add_func : NMSetting -> string -> NMSetting)
    (info : NMMetaPropertyInfo) (setting : NMSetting) (value : string) :
  let tokens := default [] (nm_utils_strsplit_set value delimiters_space_tab_comma) in
  (Forall (fun t => nm_utils_hwaddr_aton_eth t = true) tokens ->
   DEFINE_SETTER_MAC_BLACKLIST add_func info setting (Some value)
   = return_TRUE (fold_left add_func tokens setting))
  /\ (forall pre bad rest,
        tokens = (pre ++ bad :: rest)%list ->
        Forall (fun t => nm_utils_hwaddr_aton_eth t = true) pre ->
        nm_utils_hwaddr_aton_eth bad = false ->
        DEFINE_SETTER_MAC_BLACKLIST add_func info setting (Some value)
        = return_FALSE (g_set_error_1_0 ("'" +:+ bad +:+ "' is not a valid MAC")) setting).
Proof.
  cbv zeta. unfold DEFINE_SETTER_MAC_BLACKLIST. cbv zeta. split.
  - intros Hvalid. rewrite unit_fold_all_ok; [reflexivity|].
    eapply Forall_impl; [exact Hvalid|]. intros t Ht. cbv beta. rewrite Ht. reflexivity.
  - intros pre bad rest -> Hpre Hbad.
    rewrite (unit_fold_first_error _ pre rest bad
               (g_set_error_1_0 ("'" +:+ bad +:+ "' is not a valid MAC"))).
    + reflexivity.
    + eapply Forall_impl; [exact Hpre|]. intros t Ht. cbv beta. rewrite Ht. reflexivity.
    + cbv beta. rewrite Hbad. reflexivity.
Qed.

(** Two addresses for the blacklist of a wired setting. *)
Lemma mac_blacklist_checked_first_witness :
  let C := reference_collaborators in
  exists setting',
    _set_fcn_wired_mac_address_blacklist
      (property_info_plain NM_SETTING_WIRED_MAC_ADDRESS_BLACKLIST) (mkNMSetting ∅ ∅)
      (Some "00:11:22:33:44:55, 66:77:88:99:aa:bb")
    = return_TRUE setting'
    /\ setting_strv NM_SETTING_WIRED_MAC_ADDRESS_BLACKLIST setting'
       = ["00:11:22:33:44:55"; "66:77:88:99:aa:bb"].
Proof.
  cbv zeta. eexists. split.
  - refine (proj1 (mac_blacklist_checked_first reference_collaborators
                     (add_fcn (strv_multilist NM_SETTING_WIRED_MAC_ADDRESS_BLACKLIST))
                     (property_info_plain NM_SETTING_WIRED_MAC_ADDRESS_BLACKLIST)
                     (mkNMSetting ∅ ∅) "00:11:22:33:44:55, 66:77:88:99:aa:bb") _).
    vm_compute. repeat constructor.
  - vm_compute. reflexivity.
Defined.

(** ** The runner tx-hash list is replaced, not extended *)

Lemma setting_strv_added (prop : string) (items : list string) : forall setting,
  setting_strv prop (fold_left (add_fcn (strv_multilist prop)) items setting)
  = (setting_strv prop setting ++ items)%list.
Proof.
  induction items as [|item items IH]; intros setting.
  - rewrite app_nil_r. reflexivity.
  - cbn [fold_left]. rewrite IH. cbn [add_fcn strv_multilist].
    rewrite setting_strv_strv_set, <- app_assoc. reflexivity.
Qed.

(** The loop that empties the list ends within as many rounds as the list
    has elements. *)
Lemma tx_hash_clear_loop_ends (fuel : nat) : forall setting,
  (length (setting_strv NM_SETTING_TEAM_RUNNER_TX_HASH setting) <= fuel)%nat ->
  exists setting',
    tx_hash_clear_loop fuel setting = Some setting'
    /\ setting_strv NM_SETTING_TEAM_RUNNER_TX_HASH setting' = [].
Proof.
  induction fuel as [|fuel IH]; intros setting Hlen.
  - exists setting.
    assert (E : setting_strv NM_SETTING_TEAM_RUNNER_TX_HASH setting = []).
    { destruct (setting_strv NM_SETTING_TEAM_RUNNER_TX_HASH setting);
        [reflexivity|simpl in Hlen; lia]. }
    split; [|exact E]. cbn [tx_hash_clear_loop].
    unfold nm_setting_team_get_num_runner_tx_hash. cbn [get_num_fcn strv_multilist].
    rewrite E. reflexivity.
  - cbn [tx_hash_clear_loop].
    unfold nm_setting_team_get_num_runner_tx_hash. cbn [get_num_fcn strv_multilist].
    remember (setting_strv NM_SETTING_TEAM_RUNNER_TX_HASH setting) as current eqn:E.
    destruct current as [|x l].
    + exists setting. split; [reflexivity|symmetry; exact E].
    + replace (Z.of_nat (length (x :: l)) =? 0) with false
        by (symmetry; apply Z.eqb_neq; cbn [length]; lia).
      apply IH. unfold nm_setting_team_remove_runner_tx_hash.
      cbn [remove_by_idx_fcn strv_multilist]. rewrite setting_strv_strv_set, <- E.
      change (length l <= fuel)%nat. simpl in Hlen. lia.
Qed.

(** X8.  The setter of the runner tx-hash list checks every token before it
    changes anything.  When each token is one of the ten tx-hash names,
    the loop that empties the list ends and the list then holds exactly
    the tokens of the text, in order: what it held before is gone, and a
    text without a token leaves it empty.  Otherwise the error of the
    first token that is not a name is returned and the setting is left as
    it was. *)
Theorem tx_hash_set_replaces (fuel : nat) (info : NMMetaPropertyInfo)
    (setting : NMSetting) (value : string) :
  (length (setting_strv NM_SETTING_TEAM_RUNNER_TX_HASH setting) <= fuel)%nat ->
  let tokens := default [] (nm_utils_strsplit_set value delimiters_space_tab_comma) in
  (Forall (fun t => _is_valid_team_runner_tx_hash_element t = None) tokens ->
   exists setting',
     _set_fcn_team_runner_tx_hash fuel info setting (Some value) = Some (return_TRUE setting')
     /\ setting_strv NM_SETTING_TEAM_RUNNER_TX_HASH setting' = tokens)
  /\ (forall pre bad rest e,
        tokens = (pre ++ bad :: rest)%list ->
        Forall (fun t => _is_valid_team_runner_tx_hash_element t = None) pre ->
        _is_valid_team_runner_tx_hash_element bad = Some e ->
        _set_fcn_team_runner_tx_hash fuel info setting (Some value)
        = Some (return_FALSE e setting)).
Proof.
  intros Hfuel. cbv zeta. unfold _set_fcn_team_runner_tx_hash. cbv zeta. split.
  - intros Hvalid. rewrite unit_fold_all_ok.
    + destruct (tx_hash_clear_loop_ends fuel setting Hfuel) as (cleared & -> & Hempty).
      eexists. split; [reflexivity|].
      unfold nm_setting_team_add_runner_tx_hash.
      rewrite (setting_strv_added NM_SETTING_TEAM_RUNNER_TX_HASH), Hempty. reflexivity.
    + eapply Forall_impl; [exact Hvalid|]. intros t Ht. cbv beta. rewrite Ht. reflexivity.
  - intros pre bad rest e -> Hpre Hbad.
    rewrite (unit_fold_first_error _ pre rest bad e).
    + reflexivity.
    + eapply Forall_impl; [exact Hpre|]. intros t Ht. cbv beta. rewrite Ht. reflexivity.
    + cbv beta. rewrite Hbad. reflexivity.
Qed.

(** A list of three names set to two others. *)
Lemma tx_hash_set_replaces_witness :
  let setting := strv_set NM_SETTING_TEAM_RUNNER_TX_HASH (mkNMSetting ∅ ∅)
                   ["eth"; "ipv4"; "ipv6"] in
  exists setting',
    _set_fcn_team_runner_tx_hash 3 (property_info_plain NM_SETTING_TEAM_RUNNER_TX_HASH)
      setting (Some "tcp,udp")
    = Some (return_TRUE setting')
    /\ setting_strv NM_SETTING_TEAM_RUNNER_TX_HASH setting' = ["tcp"; "udp"].
Proof.
  cbv zeta.
  refine (proj1 (tx_hash_set_replaces 3 (property_info_plain NM_SETTING_TEAM_RUNNER_TX_HASH)
                   (strv_set NM_SETTING_TEAM_RUNNER_TX_HASH (mkNMSetting ∅ ∅)
                      ["eth"; "ipv4"; "ipv6"])
                   "tcp,udp" _) _).
  - vm_compute. lia.
  - vm_compute. repeat constructor.
Defined.

(** ** A multilist set in two steps *)

Lemma split_fields_app (delims : string) (d : ascii) (a b : string) :
  str_mem d delims = true ->
  split_fields delims (a +:+ String d b)
  = (fst (split_fields delims a),
     (snd (split_fields delims a)
      ++ fst (split_fields delims b) :: snd (split_fields delims b))%list).
Proof.
  intros Hd. induction a as [|c a IH].
  - simpl. rewrite Hd. destruct (split_fields delims b). reflexivity.
  - change (String c a +:+ String d b) with (String c (a +:+ String d b)).
    cbn [split_fields]. rewrite IH.
    destruct (split_fields delims a) as [w ws]. cbn [fst snd].
    destruct (str_mem c delims); reflexivity.
Qed.

(** The tokens of a text, [NULL] read as no token. *)
Lemma strsplit_tokens (s delims : string) :
  default [] (nm_utils_strsplit_set s delims)
  = List.filter str_nonempty (fst (split_fields delims s) :: snd (split_fields delims s)).
Proof.
  unfold nm_utils_strsplit_set. destruct (split_fields delims s) as [w ws]. cbn [fst snd].
  destruct (List.filter str_nonempty (w :: ws)); reflexivity.
Qed.

Lemma strsplit_tokens_app (delims : string) (d : ascii) (a b : string) :
  str_mem d delims = true ->
  default [] (nm_utils_strsplit_set (a +:+ String d b) delims)
  = (default [] (nm_utils_strsplit_set a delims)
     ++ default [] (nm_utils_strsplit_set b delims))%list.
Proof.
  intros Hd. rewrite !strsplit_tokens, (split_fields_app delims d a b Hd). cbn [fst snd].
  rewrite app_comm_cons, List.filter_app. reflexivity.
Qed.

Section MultilistSteps.
Context `{Collaborators}.

Lemma set_fcn_multilist_tokens (info : NMMetaPropertyInfo) (setting : NMSetting)
    (value : string) :
  _set_fcn_multilist info setting (Some value)
  = match default [] (nm_utils_strsplit_set value delimiters_space_tab_comma) with
    | [] => return_TRUE setting
    | strv =>
        match property_typ_data info with
        | None => NullDereference
        | Some td =>
            match subtype td with
            | subtype_is_multilist ml => set_loop (multilist_body td ml) setting strv
            | _ => NullDereference
            end
        end
    end.
Proof.
  unfold _set_fcn_multilist.
  destruct (nm_utils_strsplit_set value delimiters_space_tab_comma) as [tokens|] eqn:E;
    [|reflexivity].
  destruct (strsplit_tokens_nonempty _ _ _ E) as [Hne _].
  destruct tokens; [congruence|reflexivity].
Qed.

Lemma set_loop_app (body : NMSetting -> string -> GError + NMSetting) (setting : NMSetting)
    (l1 l2 : list string) :
  set_loop body setting (l1 ++ l2)
  = match fold_until_error
            (fun (st : NMSetting) (item : string) =>
               match body st item with
               | inl e => inl (e, st)
               | inr st' => inr st'
               end) setting l1 with
    | inl (e, st) => return_FALSE e st
    | inr st => set_loop body st l2
    end.
Proof.
  unfold set_loop. rewrite fold_until_error_app.
  destruct (fold_until_error _ setting l1) as [[e st]|st]; reflexivity.
Qed.

End MultilistSteps.

(** X9.  Setting a multilist to two texts joined by a delimiter is setting
    it to the first text and then to the second: when the first set
    succeeds, the joined set returns what the second set returns on the
    setting that the first one left; when the first set fails, the joined
    set fails with the same error and leaves the same setting. *)
Theorem multilist_set_in_two_steps (C : Collaborators) (info : NMMetaPropertyInfo)
    (setting : NMSetting) (first second : string) (d : ascii) :
  str_mem d delimiters_space_tab_comma = true ->
  (forall setting1,
      _set_fcn_multilist info setting (Some first) = return_TRUE setting1 ->
      _set_fcn_multilist info setting (Some (first +:+ String d second))
      = _set_fcn_multilist info setting1 (Some second))
  /\ (forall e setting1,
        _set_fcn_multilist info setting (Some first) = return_FALSE e setting1 ->
        _set_fcn_multilist info setting (Some (first +:+ String d second))
        = return_FALSE e setting1).
Proof.
  intros Hd.
  assert (Hjoined : forall st,
             _set_fcn_multilist info st (Some (first +:+ String d second))
             = match (default [] (nm_utils_strsplit_set first delimiters_space_tab_comma)
                      ++ default [] (nm_utils_strsplit_set second delimiters_space_tab_comma))%list
               with
               | [] => return_TRUE st
               | strv =>
                   match property_typ_data info with
                   | None => NullDereference
                   | Some td =>
                       match subtype td with
                       | subtype_is_multilist ml => set_loop (multilist_body td ml) st strv
                       | _ => NullDereference
                       end
                   end
               end).
  { intros st. rewrite set_fcn_multilist_tokens,
      (strsplit_tokens_app delimiters_space_tab_comma d first second Hd). reflexivity. }
  rewrite Hjoined. rewrite !set_fcn_multilist_tokens.
  destruct (default [] (nm_utils_strsplit_set first delimiters_space_tab_comma))
    as [|t1 tokens1].
  - cbn [app]. split.
    + intros setting1 [= <-]. rewrite set_fcn_multilist_tokens. reflexivity.
    + intros e setting1 Hbad. discriminate.
  - cbn [app].
    destruct (property_typ_data info) as [td|] eqn:Etd;
      [|split; [intros ? Hbad|intros ? ? Hbad]; discriminate].
    destruct (subtype td) as [| | |ml| |] eqn:Esub;
      try (split; [intros ? Hbad|intros ? ? Hbad]; discriminate).
    rewrite app_comm_cons, set_loop_app.
    destruct (fold_until_error
                (fun (st : NMSetting) (item : string) =>
                   match multilist_body td ml st item with
                   | inl e => inl (e, st)
                   | inr st' => inr st'
                   end) setting (t1 :: tokens1)) as [[e st]|st] eqn:Efold.
    + assert (Hfirst : set_loop (multilist_body td ml) setting (t1 :: tokens1)
                       = return_FALSE e st) by (unfold set_loop; rewrite Efold; reflexivity).
      rewrite Hfirst.
      split; [intros ? Hbad; discriminate|]. intros e' setting1 Hbad. exact Hbad.
    + assert (Hfirst : set_loop (multilist_body td ml) setting (t1 :: tokens1)
                       = return_TRUE st) by (unfold set_loop; rewrite Efold; reflexivity).
      rewrite Hfirst.
      split; [|intros ? ? Hbad; discriminate].
      intros setting1 [= <-]. rewrite set_fcn_multilist_tokens, Etd, Esub.
      destruct (default [] (nm_utils_strsplit_set second delimiters_space_tab_comma));
        reflexivity.
Qed.

(** The EAP methods set to ["tls peap"] in one step and in two. *)
Lemma multilist_set_in_two_steps_witness :
  let C := reference_collaborators in
  _set_fcn_multilist property_info_802_1x_eap (setting_802_1x [] [] None) (Some "tls peap")
  = _set_fcn_multilist property_info_802_1x_eap (setting_802_1x ["tls"] [] None)
      (Some "peap").
Proof.
  cbv zeta.
  refine (proj1 (multilist_set_in_two_steps reference_collaborators
                   property_info_802_1x_eap (setting_802_1x [] [] None) "tls" "peap"
                   " "%char _) (setting_802_1x ["tls"] [] None) _).
  - reflexivity.
  - vm_compute. reflexivity.
Defined.

(** ** The option maps: items [key = value] *)

Lemma g_strchug_pad (pad s : string) :
  string_forall g_ascii_isspace pad = true -> g_strchug (pad +:+ s) = g_strchug s.
Proof.
  unfold g_strchug. induction pad as [|c pad IH]; intros Hpad; [reflexivity|].
  simpl in Hpad. apply andb_prop in Hpad as [Hc Hpad].
  change (String c pad +:+ s) with (String c (pad +:+ s)).
  cbn [skip_while]. rewrite Hc. apply IH, Hpad.
Qed.

Lemma g_strchug_plain (s t : string) :
  s <> "" -> string_forall (fun c => negb (g_ascii_isspace c)) s = true ->
  g_strchug (s +:+ t) = s +:+ t.
Proof.
  destruct s as [|c s]; [congruence|]. intros _ Hs. simpl in Hs.
  apply andb_prop in Hs as [Hc _]. apply negb_true_iff in Hc.
  unfold g_strchug. change (String c s +:+ t) with (String c (s +:+ t)).
  cbn [skip_while]. rewrite Hc. reflexivity.
Qed.

Lemma g_strchomp_pad (s pad : string) :
  string_forall g_ascii_isspace pad = true -> g_strchomp (s +:+ pad) = g_strchomp s.
Proof.
  intros Hpad.
  assert (Hnil : g_strchomp pad = "").
  { induction pad as [|c pad IH]; [reflexivity|].
    simpl in Hpad. apply andb_prop in Hpad as [Hc Hpad].
    cbn [g_strchomp]. rewrite (IH Hpad), Hc. reflexivity. }
  induction s as [|c s IH]; [exact Hnil|].
  change (String c s +:+ pad) with (String c (s +:+ pad)).
  cbn [g_strchomp]. rewrite IH. reflexivity.
Qed.

Lemma g_strchomp_plain (s t : string) :
  t <> "" -> string_forall (fun c => negb (g_ascii_isspace c)) t = true ->
  g_strchomp (s +:+ t) = s +:+ t.
Proof.
  intros Hne Ht. induction s as [|c s IH].
  - apply g_strchomp_no_space, Ht.
  - change (String c s +:+ t) with (String c (s +:+ t)).
    cbn [g_strchomp]. rewrite IH.
    destruct (s +:+ t) eqn:E; [|reflexivity].
    destruct s; [change ("" +:+ t) with t in E; congruence|discriminate].
Qed.

Lemma option_value_char_facts (s : string) :
  string_forall option_value_char s = true ->
  string_forall (fun c => negb (g_ascii_isspace c)) s = true
  /\ string_forall (fun c => negb (str_mem c ",")) s = true.
Proof.
  intros Hs. split; apply (string_forall_impl option_value_char); try exact Hs.
  - intros c Hc. apply andb_prop in Hc as [Hc _]. exact Hc.
  - intros c Hc. apply andb_prop in Hc as [_ Hc]. cbn [str_mem].
    destruct (Ascii.eqb c ","); [discriminate|reflexivity].
Qed.

Lemma option_key_char_facts (s : string) :
  string_forall option_key_char s = true ->
  string_forall option_value_char s = true
  /\ string_forall (fun c => negb (Ascii.eqb c "=")) s = true.
Proof.
  intros Hs. split; apply (string_forall_impl option_key_char); try exact Hs.
  - intros c Hc. apply andb_prop in Hc as [Hc _]. exact Hc.
  - intros c Hc. apply andb_prop in Hc as [_ Hc]. exact Hc.
Qed.

Lemma pad_char_facts (pad : string) :
  string_forall g_ascii_isspace pad = true ->
  string_forall (fun c => negb (Ascii.eqb c "=")) pad = true
  /\ string_forall (fun c => negb (str_mem c ",")) pad = true.
Proof.
  intros Hpad. split; apply (string_forall_impl g_ascii_isspace); try exact Hpad.
  - intros c Hc. destruct (Ascii.eqb_spec c "="); [subst; discriminate|reflexivity].
  - intros c Hc. cbn [str_mem].
    destruct (Ascii.eqb_spec c ","); [subst; discriminate|reflexivity].
Qed.

(** What the body of the loop of [DEFINE_SETTER_OPTIONS] reads in an item. *)
Lemma option_item_strip (pad key value : string) :
  string_forall g_ascii_isspace pad = true ->
  key <> "" -> string_forall option_key_char key = true ->
  (value = "" \/ string_forall option_value_char value = true) ->
  exists right_,
    strchr_cut "=" (g_strstrip (option_item_text pad (key, value)))
    = Some (key +:+ pad, right_)
    /\ g_strchomp (key +:+ pad) = key
    /\ g_strchug right_ = value.
Proof.
  intros Hpad Hkne Hkey Hvalue.
  destruct (option_key_char_facts _ Hkey) as [Hkv Hkeq].
  destruct (option_value_char_facts _ Hkv) as [Hkspace _].
  destruct (pad_char_facts _ Hpad) as [Hpeq _].
  assert (Hchomp : g_strchomp (key +:+ pad) = key).
  { rewrite (g_strchomp_pad key pad Hpad). apply g_strchomp_no_space, Hkspace. }
  assert (Hcut : forall rest,
             strchr_cut "=" ((key +:+ pad) +:+ String "=" rest) = Some (key +:+ pad, rest)).
  { intros rest. apply strchr_cut_app. rewrite string_forall_app, Hkeq, Hpeq. reflexivity. }
  unfold option_item_text. cbn [fst snd]. unfold g_strstrip.
  rewrite (g_strchug_pad pad _ Hpad), (g_strchug_plain key _ Hkne Hkspace).
  destruct value as [|c value].
  - exists "". split; [|split; [exact Hchomp|reflexivity]].
    assert (Htext : key +:+ pad +:+ "=" +:+ pad +:+ "" +:+ pad
                    = ((key +:+ pad) +:+ "=") +:+ (pad +:+ pad)).
    { rewrite !string_app_assoc. reflexivity. }
    rewrite Htext, g_strchomp_pad by (rewrite string_forall_app, Hpad; reflexivity).
    rewrite (g_strchomp_plain (key +:+ pad) "=") by (reflexivity || discriminate).
    apply Hcut.
  - destruct Hvalue as [Hvalue|Hvalue]; [discriminate|].
    destruct (option_value_char_facts _ Hvalue) as [Hvspace _].
    exists (pad +:+ String c value). split; [|split; [exact Hchomp|]].
    + assert (Htext : key +:+ pad +:+ "=" +:+ pad +:+ String c value +:+ pad
                      = (((key +:+ pad) +:+ String "=" pad) +:+ String c value) +:+ pad).
      { rewrite !string_app_assoc. reflexivity. }
      rewrite Htext, g_strchomp_pad by exact Hpad.
      rewrite g_strchomp_plain by (discriminate || exact Hvspace).
      rewrite (string_app_assoc (key +:+ pad)). exact (Hcut (pad +:+ String c value)).
    + rewrite (g_strchug_pad pad _ Hpad).
      simpl in Hvspace. apply andb_prop in Hvspace as [Hc _]. apply negb_true_iff in Hc.
      unfold g_strchug. cbn [skip_while]. rewrite Hc. reflexivity.
Qed.

Section OptionMaps.
Context `{Collaborators}.

Lemma vpn_options_body_pair (pad : string) (kv : string * string) (setting : NMSetting) :
  string_forall g_ascii_isspace pad = true -> option_pair kv ->
  options_body nm_setting_vpn_add_data_item None (Some _validate_vpn_hash_value)
    setting (option_item_text pad kv)
  = inr (nm_setting_vpn_add_data_item setting (fst kv) (snd kv)).
Proof.
  intros Hpad (Hkne & Hkey & Hvne & Hvalue). destruct kv as [key value]. cbn [fst snd] in *.
  destruct (option_item_strip pad key value Hpad Hkne Hkey (or_intror Hvalue))
    as (right_ & Hcut & Hchomp & Hchug).
  unfold options_body. rewrite Hcut, Hchomp, Hchug.
  unfold _validate_vpn_hash_value. destruct value; [congruence|reflexivity].
Qed.

Lemma vpn_options_body_empty (pad key : string) (setting : NMSetting) :
  string_forall g_ascii_isspace pad = true ->
  key <> "" -> string_forall option_key_char key = true ->
  options_body nm_setting_vpn_add_data_item None (Some _validate_vpn_hash_value)
    setting (option_item_text pad (key, ""))
  = inl (g_set_error_1_0 ("'" +:+ key +:+ "' cannot be empty")).
Proof.
  intros Hpad Hkne Hkey.
  destruct (option_item_strip pad key "" Hpad Hkne Hkey (or_introl eq_refl))
    as (right_ & Hcut & Hchomp & Hchug).
  unfold options_body. rewrite Hcut, Hchomp, Hchug. reflexivity.
Qed.

End OptionMaps.

Lemma option_item_token (pad : string) (kv : string * string) :
  string_forall g_ascii_isspace pad = true ->
  fst kv <> "" -> string_forall option_key_char (fst kv) = true ->
  (snd kv = "" \/ string_forall option_value_char (snd kv) = true) ->
  option_item_text pad kv <> ""
  /\ string_forall (fun c => negb (str_mem c ",")) (option_item_text pad kv) = true.
Proof.
  intros Hpad Hkne Hkey Hvalue.
  destruct (option_key_char_facts _ Hkey) as [Hkv _].
  destruct (option_value_char_facts _ Hkv) as [_ Hkcomma].
  destruct (pad_char_facts _ Hpad) as [_ Hpcomma].
  assert (Hvcomma : string_forall (fun c => negb (str_mem c ",")) (snd kv) = true).
  { destruct Hvalue as [->|Hvalue]; [reflexivity|].
    apply (option_value_char_facts _ Hvalue). }
  unfold option_item_text. split.
  - destruct pad; [|discriminate]. destruct (fst kv); [congruence|discriminate].
  - rewrite !string_forall_app, Hpcomma, Hkcomma, Hvcomma. reflexivity.
Qed.

Lemma setting_hash_added (pairs : list (string * string)) : forall setting,
  setting_hash NM_SETTING_VPN_DATA
    (fold_left (fun st kv => nm_setting_vpn_add_data_item st (fst kv) (snd kv)) pairs setting)
  = bind_options pairs (setting_hash NM_SETTING_VPN_DATA setting).
Proof.
  unfold bind_options. induction pairs as [|kv pairs IH]; intros setting; [reflexivity|].
  cbn [fold_left]. rewrite IH. f_equal.
  unfold nm_setting_vpn_add_data_item, setting_hash at 1. cbn [setting_values].
  rewrite lookup_insert_eq. reflexivity.
Qed.

(** X10.  A VPN data text of items [key = value] separated by commas, with
    any white space around the keys and the values, binds each key to its
    value, in the order of the text: a key that comes twice keeps its last
    value, and the keys that the text does not name keep theirs.  An item
    with an empty value is refused with the key in the message, and the
    setting is not changed. *)
Theorem vpn_data_set_binds (C : Collaborators) (info : NMMetaPropertyInfo)
    (setting : NMSetting) (pad : string) (pairs : list (string * string)) :
  string_forall g_ascii_isspace pad = true ->
  Forall option_pair pairs ->
  (exists setting',
      _set_fcn_vpn_data info setting
        (Some (join_text "," (map (option_item_text pad) pairs)))
      = return_TRUE setting'
      /\ setting_hash NM_SETTING_VPN_DATA setting'
         = bind_options pairs (setting_hash NM_SETTING_VPN_DATA setting)
      /\ forall key, key ∉ map fst pairs ->
           setting_hash NM_SETTING_VPN_DATA setting' !! key
           = setting_hash NM_SETTING_VPN_DATA setting !! key)
  /\ (forall key, key <> "" -> string_forall option_key_char key = true ->
        _set_fcn_vpn_data info setting (Some (option_item_text pad (key, "")))
        = return_FALSE (g_set_error_1_0 ("'" +:+ key +:+ "' cannot be empty")) setting).
Proof.
  intros Hpad Hpairs. split.
  - assert (Hkeep : forall key, key ∉ map fst pairs ->
               forall h, bind_options pairs h !! key = h !! key).
    { unfold bind_options. clear Hpairs.
      induction pairs as [|kv pairs IH]; intros key Hkey h; [reflexivity|].
      cbn [fold_left map] in *. apply not_elem_of_cons in Hkey as [Hne Hkey].
      rewrite (IH key Hkey). apply lookup_insert_ne. congruence. }
    assert (Hbodies :
              Forall2 (fun item kv => forall st,
                         options_body nm_setting_vpn_add_data_item None
                           (Some _validate_vpn_hash_value) st item
                         = inr (nm_setting_vpn_add_data_item st (fst kv) (snd kv)))
                (map (option_item_text pad) pairs) pairs).
    { clear Hkeep. induction Hpairs as [|kv pairs Hkv _ IH]; cbn [map]; constructor;
        [|exact IH].
      intros st. apply vpn_options_body_pair; assumption. }
    unfold _set_fcn_vpn_data, DEFINE_SETTER_OPTIONS.
    destruct pairs as [|kv pairs].
    + exists setting. split; [reflexivity|]. split; [reflexivity|]. intros; reflexivity.
    + change (map (option_item_text pad) (kv :: pairs))
        with (option_item_text pad kv :: map (option_item_text pad) pairs).
      rewrite (strsplit_join_text "," "," (map (option_item_text pad) pairs)
                 (option_item_text pad kv) eq_refl).
      * eexists. split; [|split].
        -- apply (set_loop_all_ok _
                    (fun st kv => nm_setting_vpn_add_data_item st (fst kv) (snd kv))
                    (option_item_text pad kv :: map (option_item_text pad) pairs)
                    (kv :: pairs) Hbodies).
        -- apply setting_hash_added.
        -- intros key Hkey. rewrite setting_hash_added. apply Hkeep, Hkey.
      * change (option_item_text pad kv :: map (option_item_text pad) pairs)
          with (map (option_item_text pad) (kv :: pairs)).
        apply Forall_map. eapply Forall_impl; [exact Hpairs|].
        intros kv' (Hkne & Hkey & _ & Hvalue). cbn beta.
        apply option_item_token; auto.
  - intros key Hkne Hkey.
    unfold _set_fcn_vpn_data, DEFINE_SETTER_OPTIONS.
    destruct (option_item_token pad (key, "") Hpad Hkne Hkey (or_introl eq_refl))
      as [Hne Hcomma].
    change (option_item_text pad (key, ""))
      with (join_text "," [option_item_text pad (key, "")]) at 1.
    rewrite (strsplit_join_text "," "," [] (option_item_text pad (key, "")) eq_refl)
      by (constructor; [split; assumption|constructor]).
    unfold set_loop. cbn [fold_until_error].
    rewrite (vpn_options_body_empty pad key setting Hpad Hkne Hkey). reflexivity.
Qed.

(** The data set to [" user = joe , gateway = vpn.example.org "]-like
    items on a setting that has a gateway already. *)
Lemma vpn_data_set_binds_witness :
  let C := reference_collaborators in
  let setting :=
    example_setting []
      [(NM_SETTING_VPN_DATA, GValue_hash (Some {["gateway" := "old"]}))] in
  exists setting',
    _set_fcn_vpn_data (property_info_plain NM_SETTING_VPN_DATA) setting
      (Some " user = joe , gateway = vpn.example.org ")
    = return_TRUE setting'
    /\ setting_hash NM_SETTING_VPN_DATA setting'
       = bind_options [("user", "joe"); ("gateway", "vpn.example.org")]
           (setting_hash NM_SETTING_VPN_DATA setting).
Proof.
  cbv zeta.
  destruct (proj1 (vpn_data_set_binds reference_collaborators
                     (property_info_plain NM_SETTING_VPN_DATA)
                     (example_setting []
                        [(NM_SETTING_VPN_DATA, GValue_hash (Some {["gateway" := "old"]}))])
                     " " [("user", "joe"); ("gateway", "vpn.example.org")]
                     eq_refl
                     ltac:(repeat constructor; discriminate)))
    as (setting' & Hset & Hhash & _).
  exists setting'. split; [exact Hset|exact Hhash].
Defined.

(** X11.  Removing from the VPN data the key that a set has just bound
    unbinds it: the option map is the one before the set without that key.
    The remover takes its text as the key as it stands: with white space
    before the key, which the setter would drop, it leaves the key bound. *)
Theorem vpn_data_remove_after_set (C : Collaborators) (info : NMMetaPropertyInfo)
    (setting : NMSetting) (pad key value : string) :
  string_forall g_ascii_isspace pad = true ->
  option_pair (key, value) ->
  exists setting1,
    _set_fcn_vpn_data info setting (Some (option_item_text pad (key, value)))
    = return_TRUE setting1
    /\ (exists setting2,
           _remove_fcn_vpn_data info setting1 (Some key) = return_TRUE setting2
           /\ setting_hash NM_SETTING_VPN_DATA setting2
              = delete key (setting_hash NM_SETTING_VPN_DATA setting))
    /\ (pad <> "" ->
        exists setting2,
          _remove_fcn_vpn_data info setting1 (Some (pad +:+ key)) = return_TRUE setting2
          /\ setting_hash NM_SETTING_VPN_DATA setting2 !! key = Some value).
Proof.
  intros Hpad Hpair.
  assert (Hremove : forall st text, text <> "" ->
             _remove_fcn_vpn_data info st (Some text)
             = return_TRUE (nm_setting_vpn_remove_data_item st text)
             /\ setting_hash NM_SETTING_VPN_DATA (nm_setting_vpn_remove_data_item st text)
                = delete text (setting_hash NM_SETTING_VPN_DATA st)).
  { intros st text Htext. split.
    - unfold _remove_fcn_vpn_data, DEFINE_REMOVER_OPTION.
      destruct text; [congruence|reflexivity].
    - unfold nm_setting_vpn_remove_data_item, setting_hash at 1. cbn [setting_values].
      rewrite lookup_insert_eq. reflexivity. }
  exists (nm_setting_vpn_add_data_item setting key value).
  assert (Hhash : setting_hash NM_SETTING_VPN_DATA
                    (nm_setting_vpn_add_data_item setting key value)
                  = <[key := value]> (setting_hash NM_SETTING_VPN_DATA setting)).
  { apply (setting_hash_added [(key, value)]). }
  destruct Hpair as (Hkne & Hkey & Hvne & Hvalue). cbn [fst snd] in *.
  split; [|split].
  - unfold _set_fcn_vpn_data, DEFINE_SETTER_OPTIONS.
    destruct (option_item_token pad (key, value) Hpad Hkne Hkey (or_intror Hvalue))
      as [Hne Hcomma].
    change (option_item_text pad (key, value))
      with (join_text "," [option_item_text pad (key, value)]) at 1.
    rewrite (strsplit_join_text "," "," [] (option_item_text pad (key, value)) eq_refl)
      by (constructor; [split; assumption|constructor]).
    unfold set_loop. cbn [fold_until_error].
    rewrite (vpn_options_body_pair pad (key, value) setting Hpad)
      by (repeat split; assumption).
    reflexivity.
  - destruct (Hremove (nm_setting_vpn_add_data_item setting key value) key Hkne)
      as [Hret Hdel].
    eexists. split; [exact Hret|]. rewrite Hdel, Hhash. apply delete_insert_eq.
  - intros Hpne.
    assert (Hother : pad +:+ key <> key).
    { intros Heq. apply (f_equal String.length) in Heq.
      rewrite string_length_app in Heq. destruct pad; [congruence|]. simpl in Heq. lia. }
    assert (Htext : pad +:+ key <> "") by (destruct pad; [congruence|discriminate]).
    destruct (Hremove (nm_setting_vpn_add_data_item setting key value) (pad +:+ key) Htext)
      as [Hret Hdel].
    eexists. split; [exact Hret|].
    rewrite Hdel, Hhash, lookup_delete_ne by exact Hother. apply lookup_insert_eq.
Qed.

(** The user set by [" user = joe "] and removed by ["user"] and by
    [" user"]. *)
Lemma vpn_data_remove_after_set_witness :
  let C := reference_collaborators in
  let info := property_info_plain NM_SETTING_VPN_DATA in
  exists setting1,
    _set_fcn_vpn_data info (example_setting [] []) (Some " user = joe ")
    = return_TRUE setting1
    /\ (exists setting2,
           _remove_fcn_vpn_data info setting1 (Some "user") = return_TRUE setting2
           /\ setting_hash NM_SETTING_VPN_DATA setting2 = ∅)
    /\ (exists setting2,
           _remove_fcn_vpn_data info setting1 (Some " user") = return_TRUE setting2
           /\ setting_hash NM_SETTING_VPN_DATA setting2 !! "user" = Some "joe").
Proof.
  cbv zeta.
  destruct (vpn_data_remove_after_set reference_collaborators
              (property_info_plain NM_SETTING_VPN_DATA) (example_setting [] [])
              " " "user" "joe" eq_refl ltac:(repeat constructor; discriminate))
    as (setting1 & Hset & (setting2 & Hrem & Hhash) & Hkeep).
  exists setting1. split; [exact Hset|]. split.
  - exists setting2. split; [exact Hrem|]. rewrite Hhash. reflexivity.
  - apply Hkeep. discriminate.
Defined.

(** ** The P_Key written in hexadecimal and read back *)









(** ** A text without items, and an address removed by its text *)

Lemma split_fields_all_delims (delims s : string) :
  string_forall (fun c => str_mem c delims) s = true ->
  List.filter str_nonempty (fst (split_fields delims s) :: snd (split_fields delims s)) = [].
Proof.
  induction s as [|c s IH]; intros Hs; [reflexivity|].
  simpl in Hs. apply andb_prop in Hs as [Hc Hs]. specialize (IH Hs).
  cbn [split_fields]. destruct (split_fields delims s) as [w ws]. rewrite Hc.
  cbn [fst snd] in *. exact IH.
Qed.

Lemma strsplit_no_token (delims s : string) :
  string_forall (fun c => str_mem c delims) s = true ->
  nm_utils_strsplit_set s delims = None.
Proof.
  intros Hs. pose proof (split_fields_all_delims delims s Hs) as Hnone.
  unfold nm_utils_strsplit_set. destruct (split_fields delims s) as [w ws].
  cbn [fst snd] in Hnone. rewrite Hnone. reflexivity.
Qed.

(** X13.  A text that holds no item, the empty text or commas only, is
    not handled alike by the four setters of the IP lists: the setters of
    the IPv6 addresses and routes return [TRUE] and leave the setting as
    it is, the setters of the IPv4 addresses and routes read the first
    element of the [NULL] vector that the split returns. *)
Theorem ip_list_set_without_item (C : Collaborators) (info : NMMetaPropertyInfo)
    (setting : NMSetting) (value : string) :
  string_forall (fun c => str_mem c ",") value = true ->
  _set_fcn_ip6_config_addresses info setting (Some value) = return_TRUE setting
  /\ _set_fcn_ip6_config_routes info setting (Some value) = return_TRUE setting
  /\ _set_fcn_ip4_config_addresses info setting (Some value) = NullDereference
  /\ _set_fcn_ip4_config_routes info setting (Some value) = NullDereference.
Proof.
  intros Hvalue. pose proof (strsplit_no_token "," value Hvalue) as Hnone.
  unfold _set_fcn_ip6_config_addresses, _set_fcn_ip6_config_routes,
    _set_fcn_ip4_config_addresses, _set_fcn_ip4_config_routes.
  rewrite Hnone. repeat split.
Qed.

(** The four setters given [","]. *)
Lemma ip_list_set_without_item_witness :
  let C := reference_collaborators in
  let info := property_info_plain NM_SETTING_IP_CONFIG_ADDRESSES in
  _set_fcn_ip6_config_addresses info (example_setting [] []) (Some ",")
  = return_TRUE (example_setting [] [])
  /\ _set_fcn_ip4_config_addresses info (example_setting [] []) (Some ",") = NullDereference.
Proof.
  cbv zeta.
  destruct (ip_list_set_without_item reference_collaborators
              (property_info_plain NM_SETTING_IP_CONFIG_ADDRESSES) (example_setting [] [])
              "," eq_refl) as (H6 & _ & H4 & _).
  split; [exact H6|exact H4].
Defined.








(** ** Removal from a list *)

Lemma remover_index_path (num_func : NMSetting -> Z)
    (rem_func_idx : NMSetting -> Z -> NMSetting)
    (rem_func_cmd : NMMetaPropertyInfo -> NMSetting -> string -> set_result)
    (info : NMMetaPropertyInfo) (setting : NMSetting) (value : string) (idx : Z) :
  _nm_utils_ascii_str_to_int64 value 10 0 G_MAXINT64 (-1) = idx -> idx <> -1 ->
  _DEFINE_REMOVER_INDEX_OR_VALUE num_func rem_func_idx rem_func_cmd info setting value
  = if idx <? num_func setting then return_TRUE (rem_func_idx setting idx)
    else return_TRUE setting.
Proof.
  intros Hidx Hne. unfold _DEFINE_REMOVER_INDEX_OR_VALUE. cbv zeta.
  rewrite Hidx. apply Z.eqb_neq in Hne. rewrite Hne. reflexivity.
Qed.

Lemma remover_value_path (num_func : NMSetting -> Z)
    (rem_func_idx : NMSetting -> Z -> NMSetting)
    (rem_func_cmd : NMMetaPropertyInfo -> NMSetting -> string -> set_result)
    (info : NMMetaPropertyInfo) (setting : NMSetting) (value : string) :
  _nm_utils_ascii_str_to_int64 value 10 0 G_MAXINT64 (-1) = -1 ->
  _DEFINE_REMOVER_INDEX_OR_VALUE num_func rem_func_idx rem_func_cmd info setting value
  = rem_func_cmd info setting value.
Proof.
  intros Hidx. unfold _DEFINE_REMOVER_INDEX_OR_VALUE. cbv zeta. rewrite Hidx. reflexivity.
Qed.

(** C4, as amended.  Every remover of a list first reads the text as an
    integer in [0, G_MAXINT64] (the decimal text of every such integer is
    read as that integer).  When the text is one, the removal is by index
    and nothing else: an index strictly below the element count removes
    the element at that index, an index at or above the count removes
    nothing and the call succeeds all the same.  Any other text is removed
    by value, and the call succeeds whether or not an element matched.
    The multilist remover and, on a property with type data, the direct
    removers strip the text of surrounding whitespace, check it against
    the allowed values where the property has some, and remove the element
    equal to it; for the multilist remover this is the check that add
    applies to an item, and its error is returned with nothing removed.
    The validating and the complex removers strip the text and hand it to
    the validating function of the property, whose error is returned with
    nothing removed and whose removal is otherwise reported as success.
    The remover of the VLAN priority maps splits the text, as it is, at
    the commas and validates every part with a wildcard target allowed:
    the first part that is not valid gives "invalid priority map" with
    nothing removed, otherwise each part is removed by value.  On
    ["a"; "b"; "c"], removing "1" gives ["a"; "c"] and removing "z"
    succeeds with the list unchanged. *)
Theorem remove_by_index_or_value (C : Collaborators) (L : RemoverFunctions) (k : remover)
    (info : NMMetaPropertyInfo) (setting : NMSetting) :
  (* the text of an index *)
  (forall n, 0 <= n <= G_MAXINT64 ->
     _nm_utils_ascii_str_to_int64 (fmt_d n) 10 0 G_MAXINT64 (-1) = n)
  (* removal by index *)
  /\ (forall value idx num,
        _nm_utils_ascii_str_to_int64 value 10 0 G_MAXINT64 (-1) = idx -> idx <> -1 ->
        remover_num k info setting = Some num ->
        (idx < num ->
         remove_fcn_of k info setting value
         = return_TRUE (remover_remove_idx k info setting idx))
        /\ (num <= idx -> remove_fcn_of k info setting value = return_TRUE setting))
  (* removal by value: the multilist remover and the direct removers *)
  /\ (forall value td,
        _nm_utils_ascii_str_to_int64 value 10 0 G_MAXINT64 (-1) = -1 ->
        property_typ_data info = Some td ->
        (forall ml, k = Remover_multilist -> subtype td = subtype_is_multilist ml ->
           remove_fcn_of k info setting value
           = match values_static td with
             | Some allowed =>
                 match nmc_string_is_valid (g_strstrip value) allowed with
                 | inl e => return_FALSE e setting
                 | inr value => return_TRUE (remove_by_value_fcn ml setting value)
                 end
             | None => return_TRUE (remove_by_value_fcn ml setting (g_strstrip value))
             end)
        /\ (forall ml, k = Remover_multilist -> subtype td = subtype_is_multilist ml ->
              (forall e, multilist_body td ml setting (g_strstrip value) = inl e ->
                 remove_fcn_of k info setting value = return_FALSE e setting)
              /\ (forall added, multilist_body td ml setting (g_strstrip value) = inr added ->
                    exists item,
                      added = add_fcn ml setting item
                      /\ remove_fcn_of k info setting value
                         = return_TRUE (remove_by_value_fcn ml setting item)))
        /\ (In k direct_removers ->
            remove_fcn_of k info setting value
            = match values_static td with
              | Some allowed =>
                  match nmc_string_is_valid (g_strstrip value) allowed with
                  | inl e => return_FALSE e setting
                  | inr value => return_TRUE (rem_func_text k setting value)
                  end
              | None => return_TRUE (rem_func_text k setting (g_strstrip value))
              end))
  (* removal by value: the validating and the complex removers *)
  /\ (In k (validating_removers ++ complex_removers) ->
      exists rem_val,
        rem_func_val k = Some rem_val
        /\ forall value,
             _nm_utils_ascii_str_to_int64 value 10 0 G_MAXINT64 (-1) = -1 ->
             remove_fcn_of k info setting value
             = match rem_val setting (g_strstrip value) with
               | inl e => return_FALSE e setting
               | inr setting' => return_TRUE setting'
               end)
  (* removal by value: the VLAN priority maps *)
  /\ (k = Remover_vlan_xgress_priority_map ->
      forall value,
        _nm_utils_ascii_str_to_int64 value 10 0 G_MAXINT64 (-1) = -1 ->
        let map_type := _vlan_priority_map_type_from_property_info info in
        let valid := fun item => nm_utils_vlan_priority_map_parse_str map_type item true = true in
        (Forall valid (g_strsplit value ",") ->
         remove_fcn_of k info setting value
         = return_TRUE
             (fold_left
                (fun st item => nm_setting_vlan_remove_priority_str_by_value st map_type item)
                (g_strsplit value ",") setting))
        /\ (forall before item after,
              g_strsplit value "," = (before ++ item :: after)%list ->
              Forall valid before ->
              nm_utils_vlan_priority_map_parse_str map_type item true = false ->
              remove_fcn_of k info setting value
              = return_FALSE
                  (g_set_error_1_0 (gettext "invalid priority map '" +:+ item +:+ "'"))
                  setting))
  (* a value that is not in the list *)
  /\ (forall prop st value,
        ~ In value (setting_strv prop st) ->
        setting_strv prop (remove_by_value_fcn (strv_multilist prop) st value)
        = setting_strv prop st)
  /\ (forall st addr,
        ~ In addr (setting_addresses st) ->
        setting_addresses (nm_setting_ip_config_remove_address_by_value st addr)
        = setting_addresses st)
  /\ (let abc := setting_802_1x [] ["a"; "b"; "c"] None in
      remove_fcn_of Remover_multilist property_info_802_1x_altsubject_matches abc "1"
      = return_TRUE (setting_802_1x [] ["a"; "c"] None)
      /\ remove_fcn_of Remover_multilist property_info_802_1x_altsubject_matches abc "z"
         = return_TRUE abc).
Proof.
  split; [|split; [|split; [|split; [|split; [|split; [|split]]]]]].
  - intros n Hn. rewrite str_to_int64_fmt_d.
    + replace (G_MAXINT64 <? n) with false by (symmetry; apply Z.ltb_ge; lia).
      replace (n <? 0) with false by (symmetry; apply Z.ltb_ge; lia).
      reflexivity.
    + unfold G_MININT64. unfold G_MAXINT64 in *. lia.
  - intros value idx num Hidx Hne Hnum.
    assert (Hrun : remove_fcn_of k info setting value
                   = if idx <? num then return_TRUE (remover_remove_idx k info setting idx)
                     else return_TRUE setting).
    { assert (Hneb : negb (idx =? -1) = true).
      { apply negb_true_iff. apply Z.eqb_neq. exact Hne. }
      destruct k; cbn [remove_fcn_of remover_num remover_remove_idx] in *;
        try (injection Hnum as <-;
             unfold DEFINE_REMOVER_INDEX_OR_VALUE_DIRECT, DEFINE_REMOVER_INDEX_OR_VALUE_COMPLEX,
               DEFINE_REMOVER_INDEX_OR_VALUE_VALIDATING, _remove_fcn_ip_config_addresses;
             first [ apply remover_index_path; assumption
                   | unfold DEFINE_REMOVER_INDEX_OR_VALUE_COMPLEX,
                       DEFINE_REMOVER_INDEX_OR_VALUE_VALIDATING;
                     apply remover_index_path; assumption
                   | unfold _remove_fcn_vlan_xgress_priority_map; cbv zeta;
                     rewrite Hidx, Hneb; reflexivity ]).
      unfold _remove_fcn_multilist.
      destruct (property_typ_data info) as [td|]; [|discriminate].
      destruct (subtype td); try discriminate.
      injection Hnum as <-. cbv zeta. rewrite Hidx, Hneb. reflexivity. }
    split; intros Hcmp; rewrite Hrun.
    + replace (idx <? num) with true by (symmetry; apply Z.ltb_lt; exact Hcmp). reflexivity.
    + replace (idx <? num) with false by (symmetry; apply Z.ltb_ge; exact Hcmp). reflexivity.
  - intros value td Hidx Htd.
    assert (Hmulti : forall ml, k = Remover_multilist ->
              subtype td = subtype_is_multilist ml ->
              remove_fcn_of k info setting value
              = match values_static td with
                | Some allowed =>
                    match nmc_string_is_valid (g_strstrip value) allowed with
                    | inl e => return_FALSE e setting
                    | inr value => return_TRUE (remove_by_value_fcn ml setting value)
                    end
                | None => return_TRUE (remove_by_value_fcn ml setting (g_strstrip value))
                end).
    { intros ml -> Hsub. cbn [remove_fcn_of]. unfold _remove_fcn_multilist.
      rewrite Htd, Hsub. cbv zeta. rewrite Hidx. reflexivity. }
    split; [exact Hmulti|]. split.
    + intros ml Hk Hsub. rewrite (Hmulti ml Hk Hsub). unfold multilist_body.
      destruct (values_static td) as [allowed|].
      * destruct (nmc_string_is_valid (g_strstrip value) allowed) as [e'|item].
        -- split; [intros e [= <-]; reflexivity|intros added [=]].
        -- split; [intros e [=]|]. intros added [= <-]. exists item. split; reflexivity.
      * split; [intros e [=]|]. intros added [= <-]. exists (g_strstrip value).
        split; reflexivity.
    + intros Hdirect. simpl in Hdirect.
      destruct Hdirect as [<-|[<-|[<-|[<-|[<-|[]]]]]]; cbn [remove_fcn_of];
        unfold DEFINE_REMOVER_INDEX_OR_VALUE_DIRECT;
        rewrite remover_value_path by exact Hidx; cbv zeta; rewrite Htd; reflexivity.
  - intros Hk. simpl in Hk.
    repeat (destruct Hk as [<-|Hk];
            [eexists; split; [reflexivity|];
             intros value Hidx; cbn [remove_fcn_of];
             unfold _remove_fcn_ip_config_addresses, DEFINE_REMOVER_INDEX_OR_VALUE_COMPLEX,
               DEFINE_REMOVER_INDEX_OR_VALUE_VALIDATING;
             rewrite remover_value_path by exact Hidx; reflexivity|]).
    destruct Hk.
  - intros -> value Hidx. cbv zeta. cbn [remove_fcn_of].
    unfold _remove_fcn_vlan_xgress_priority_map, _parse_vlan_priority_maps. cbv zeta.
    rewrite Hidx. cbn [Z.eqb negb].
    split.
    + intros Hall.
      rewrite unit_fold_all_ok; [reflexivity|].
      apply List.Forall_impl with (2 := Hall). intros item Hitem. cbv beta in Hitem.
      rewrite Hitem. reflexivity.
    + intros before item after Hsplit Hbefore Hitem. rewrite Hsplit.
      erewrite unit_fold_first_error; [reflexivity| |].
      * apply List.Forall_impl with (2 := Hbefore). intros x Hx. cbv beta in Hx.
        rewrite Hx. reflexivity.
      * cbv beta. rewrite Hitem. reflexivity.
  - intros prop st value Hnot. simpl. rewrite setting_strv_strv_set.
    apply list_remove_value_absent. exact Hnot.
  - intros st addr Hnot. unfold nm_setting_ip_config_remove_address_by_value.
    rewrite (list_remove_value_absent addr _ Hnot).
    unfold setting_addresses, g_object_set. cbn [setting_values].
    rewrite lookup_insert_eq. reflexivity.
  - cbv zeta. split; vm_compute; reflexivity.
Qed.

(** The remover of [altsubject-matches] on ["a"; "b"; "c"]: index 2 is
    removed, index 3 is past the end. *)
Lemma remove_by_index_or_value_witness :
  let C := reference_collaborators in
  let L := example_remover_functions in
  let abc := setting_802_1x [] ["a"; "b"; "c"] None in
  remove_fcn_of Remover_multilist property_info_802_1x_altsubject_matches abc " 2"
  = return_TRUE (remove_by_idx_fcn (strv_multilist NM_SETTING_802_1X_ALTSUBJECT_MATCHES) abc 2)
  /\ remove_fcn_of Remover_multilist property_info_802_1x_altsubject_matches abc "3"
     = return_TRUE abc.
Proof.
  cbv zeta.
  destruct (remove_by_index_or_value reference_collaborators example_remover_functions
              Remover_multilist property_info_802_1x_altsubject_matches
              (setting_802_1x [] ["a"; "b"; "c"] None))
    as (_ & Hindex & _).
  split.
  - refine (proj1 (Hindex " 2" 2 3 _ _ _) _).
    + vm_compute. reflexivity.
    + lia.
    + vm_compute. reflexivity.
    + lia.
  - refine (proj2 (Hindex "3" 3 3 _ _ _) _).
    + vm_compute. reflexivity.
    + lia.
    + vm_compute. reflexivity.
    + lia.
Defined.

(** C4 as stated fails: "7" is not below the element count of ["a"; "7"],
    yet the element equal to "7" stays; and "z", which is no index, is
    refused by the remover of an address list. *)
Lemma remove_numeric_value_counterexample :
  let C := reference_collaborators in
  let a7 := setting_802_1x [] ["a"; "7"] None in
  _nm_utils_ascii_str_to_int64 "7" 10 0 G_MAXINT64 (-1) = 7
  /\ get_num_fcn (strv_multilist NM_SETTING_802_1X_ALTSUBJECT_MATCHES) a7 = 2
  /\ _remove_fcn_multilist property_info_802_1x_altsubject_matches a7 "7" = return_TRUE a7
  /\ setting_strv NM_SETTING_802_1X_ALTSUBJECT_MATCHES a7 = ["a"; "7"]
  /\ list_remove_value "7" ["a"; "7"] = ["a"]
  /\ exists local,
       _remove_fcn_ip_config_addresses AF_INET
         (property_info_plain NM_SETTING_IP_CONFIG_ADDRESSES) (example_setting [] []) "z"
       = return_FALSE (g_set_error_invalid_argument ("invalid IP address: " +:+ local))
           (example_setting [] []).
Proof.
  cbv zeta. repeat split; try (vm_compute; reflexivity).
  eexists. vm_compute. reflexivity.
Defined.

(** ** The generic reset and the direct removers *)

(** X15.  The generic reset gives an installed property the initial value
    of its type, whatever the default of the property is: a boolean
    property whose default is [TRUE] reads [FALSE] after the reset and is
    not at its default. *)
Theorem reset_stores_initial_value (setting : NMSetting) (prop_name : string)
    (pspec : GParamSpec) :
  g_object_class_find_property setting prop_name = Some pspec ->
  let after := g_object_set setting prop_name (g_value_init (value_type pspec)) in
  _gobject_property_reset_default setting prop_name = (true, after)
  /\ g_object_get_property after prop_name pspec = g_value_init (value_type pspec)
  /\ (value_type pspec = G_TYPE_BOOLEAN ->
      default_value pspec = GValue_boolean true ->
      g_object_get_property after prop_name pspec = GValue_boolean false
      /\ _gobject_property_is_default after prop_name = false).
Proof.
  intros Hfind after.
  assert (Hheld : g_object_get_property after prop_name pspec
                  = g_value_init (value_type pspec)).
  { unfold g_object_get_property, after, g_object_set. cbn [setting_values].
    rewrite lookup_insert_eq. reflexivity. }
  split; [|split; [exact Hheld|]].
  - unfold _gobject_property_reset_default. rewrite Hfind. reflexivity.
  - intros Htype Hdefault. rewrite Hheld, Htype. split; [reflexivity|].
    unfold _gobject_property_is_default.
    replace (g_object_class_find_property after prop_name) with (Some pspec)
      by (symmetry; exact Hfind).
    cbv zeta. rewrite Hheld, Htype.
    rewrite !bool_decide_eq_false_2 by discriminate.
    unfold g_param_value_defaults. rewrite Hdefault.
    apply bool_decide_eq_false_2. discriminate.
Qed.

(** A connection whose [autoconnect], [TRUE] by default, was switched off
    and is reset. *)
Lemma reset_stores_initial_value_witness :
  let connection :=
    example_setting [("autoconnect", mkGParamSpec G_TYPE_BOOLEAN (GValue_boolean true))]
      [("autoconnect", GValue_boolean false)] in
  exists after,
    _gobject_property_reset_default connection "autoconnect" = (true, after)
    /\ _gobject_property_is_default after "autoconnect" = false.
Proof.
  cbv zeta. eexists.
  destruct (reset_stores_initial_value
              (example_setting
                 [("autoconnect", mkGParamSpec G_TYPE_BOOLEAN (GValue_boolean true))]
                 [("autoconnect", GValue_boolean false)])
              "autoconnect" (mkGParamSpec G_TYPE_BOOLEAN (GValue_boolean true)))
    as (Hreset & _ & Hbool).
  - vm_compute. reflexivity.
  - split; [exact Hreset|]. apply Hbool; reflexivity.
Defined.

(** X16.  A remover that [DEFINE_REMOVER_INDEX_OR_VALUE_DIRECT] defines
    reads the allowed values through the type data of the property without
    testing that there are any: on a property without type data a text
    that is no index makes it read through the null pointer, while a text
    that is an index is handled before that. *)
Theorem direct_remover_reads_type_data (C : Collaborators) (L : RemoverFunctions)
    (k : remover) (info : NMMetaPropertyInfo) (setting : NMSetting) (value : string) :
  In k direct_removers ->
  property_typ_data info = None ->
  (_nm_utils_ascii_str_to_int64 value 10 0 G_MAXINT64 (-1) = -1 ->
   remove_fcn_of k info setting value = NullDereference)
  /\ (_nm_utils_ascii_str_to_int64 value 10 0 G_MAXINT64 (-1) <> -1 ->
      remove_fcn_of k info setting value <> NullDereference).
Proof.
  intros Hk Htd. simpl in Hk.
  assert (Hfcn : remove_fcn_of k info setting value
                 = DEFINE_REMOVER_INDEX_OR_VALUE_DIRECT (num_func k) (rem_func_idx k)
                     (rem_func_text k) info setting value).
  { destruct Hk as [<-|[<-|[<-|[<-|[<-|[]]]]]]; reflexivity. }
  rewrite Hfcn. unfold DEFINE_REMOVER_INDEX_OR_VALUE_DIRECT. split.
  - intros Hidx. rewrite remover_value_path by exact Hidx. cbv zeta. rewrite Htd.
    reflexivity.
  - intros Hidx. rewrite (remover_index_path _ _ _ _ _ _ _ eq_refl Hidx).
    destruct (_ <? _); discriminate.
Qed.

(** The search domains of the IP configuration, an entry without type
    data: "z" is no index. *)
Lemma direct_remover_reads_type_data_witness :
  @remove_fcn_of reference_collaborators example_remover_functions
    Remover_ip_config_dns_search (property_info_plain NM_SETTING_IP_CONFIG_DNS_SEARCH)
    (example_setting [] []) "z"
  = NullDereference.
Proof.
  refine (proj1 (direct_remover_reads_type_data reference_collaborators
                   example_remover_functions Remover_ip_config_dns_search
                   (property_info_plain NM_SETTING_IP_CONFIG_DNS_SEARCH)
                   (example_setting [] []) "z" _ _) _).
  - simpl. auto.
  - reflexivity.
  - vm_compute. reflexivity.
Defined.
